(** * The query-orchestration engine of the multimodal PDF RAG system

    A shallow embedding of
      - [app/services/analytics_service.py]: the query classifier, table
        extraction, insight extraction and trend analysis; the analysis
        of data, its confidence, and the comparison of datasets;
      - [langchain_server/graphs/rag_graph.py]: the AnalyzeQuery stage,
        the other stages, the graph and its entry point;
      - [langchain_server/graphs/analytics_graph.py]: the eight stages of
        the analytics workflow, its graph and its entry point;
      - [langchain_server/server.py]: the runnable around the RAG graph;
      - [app/services/vector_store.py]: the search of the stores and the
        text of a table;
      - [app/utils/chart_generator.py]: table extraction and the
        configuration of a chart;
    followed by the properties the specification states about them, and
    by more properties of the code.

    Conventions.  A Python [str] is a [string] whose characters are the code
    points below 256; [len] is [String.length].  A Python [float] is a
    binary64 [float] of the kernel, so sums round as they do in CPython.  A
    Python value of unknown type ([Any]) is a [pyval], and so is the query:
    it is annotated [str] and stored as it arrives.  An exception is an
    [Exception], kept as the text [str(e)] it carries; cancellation and
    interpreter exits are outside the model.  An [async] method is the
    computation it awaits.  Calls to [logger] are left out: they format
    values that are always present and of the right type, and never
    raise. *)

From Stdlib Require Import ZArith String Ascii List Bool Lia PrimFloat DecimalString.
From stdpp Require Import base option list strings gmap sorting.

Set Warnings "-inexact-float,-register-all".
Set Default Proof Using "Type".
Local Open Scope string_scope.

(** ** Python values and strings *)

Module Py.

(** A value of Python's dynamic universe, as far as JSON documents, table
    cells and chart specifications need it.  A [dict] keeps its insertion
    order, so it is an association list. *)
Inductive pyval : Type :=
  | PyNone
  | PyBool (b : bool)
  | PyInt (z : Z)
  | PyFloat (f : float)
  | PyStr (s : string)
  | PyList (l : list pyval)
  | PyDict (d : list (string * pyval)).

(** The outcome of a call: a value, or an exception with its message. *)
Inductive res (A : Type) : Type :=
  | Ok (a : A)
  | Raise (msg : string).
Arguments Ok {A} a.
Arguments Raise {A} msg.

(** [bool(v)]: the truth value Python's [if v:] tests. *)
Definition truthy (v : pyval) : bool :=
  match v with
  | PyNone => false
  | PyBool b => b
  | PyInt z => negb (z =? 0)%Z
  | PyFloat f => negb (PrimFloat.eqb f 0%float)
  | PyStr s => negb (String.eqb s "")
  | PyList l => match l with [] => false | _ => true end
  | PyDict d => match d with [] => false | _ => true end
  end.

(** [type(v).__name__], as it appears in the text of an [AttributeError]
    or a [TypeError]. *)
Definition type_name (v : pyval) : string :=
  match v with
  | PyNone => "NoneType"
  | PyBool _ => "bool"
  | PyInt _ => "int"
  | PyFloat _ => "float"
  | PyStr _ => "str"
  | PyList _ => "list"
  | PyDict _ => "dict"
  end.

(** [len(v)]. *)
Definition len (v : pyval) : res nat :=
  match v with
  | PyStr s => Ok (String.length s)
  | PyList l => Ok (length l)
  | PyDict d => Ok (length d)
  | _ => Raise ("object of type '" +:+ type_name v +:+ "' has no len()")
  end.

(** [d.keys()]. *)
Definition keys (v : pyval) : res (list string) :=
  match v with
  | PyDict d => Ok (map fst d)
  | _ => Raise ("'" +:+ type_name v +:+ "' object has no attribute 'keys'")
  end.

(** [d[k] = v] on an insertion-ordered dict: an existing key keeps its
    place. *)
Fixpoint dict_set (d : list (string * pyval)) (k : string) (v : pyval)
  : list (string * pyval) :=
  match d with
  | [] => [(k, v)]
  | (k', v') :: r =>
      if String.eqb k' k then (k, v) :: r else (k', v') :: dict_set r k v
  end.

(** [d.get(k)]. *)
Fixpoint dict_get (d : list (string * pyval)) (k : string) : option pyval :=
  match d with
  | [] => None
  | (k', v) :: r => if String.eqb k' k then Some v else dict_get r k
  end.

(** *** Strings *)

(** [c.lower()] for a code point below 256: the letters A..Z and the
    Latin-1 capitals U+00C0..U+00DE, the multiplication sign U+00D7
    excepted, move up by 32. *)
Definition lower_char (c : ascii) : ascii :=
  let n := nat_of_ascii c in
  if (((65 <=? n) && (n <=? 90))
      || ((192 <=? n) && (n <=? 222) && negb (n =? 215)))%nat
  then ascii_of_nat (n + 32)%nat else c.

(** [s.lower()]. *)
Fixpoint lower (s : string) : string :=
  match s with
  | EmptyString => EmptyString
  | String c r => String (lower_char c) (lower r)
  end.

(** [v.lower()] on a value of any type: only a [str] has the method. *)
Definition lower_of (v : pyval) : res string :=
  match v with
  | PyStr s => Ok (lower s)
  | _ => Raise ("'" +:+ type_name v +:+ "' object has no attribute 'lower'")
  end.

(** [s.startswith(p)]. *)
Fixpoint startswith (p s : string) : bool :=
  match p, s with
  | EmptyString, _ => true
  | String _ _, EmptyString => false
  | String a p', String b s' => Ascii.eqb a b && startswith p' s'
  end.

(** [needle in hay] on strings: [needle] starts at some position of
    [hay]. *)
Fixpoint str_in (needle hay : string) : bool :=
  startswith needle hay
  || match hay with
     | EmptyString => false
     | String _ r => str_in needle r
     end.

(** [any(word in text for word in words)]. *)
Definition any_in (words : list string) (text : string) : bool :=
  existsb (fun word => str_in word text) words.

(** [x in xs] for a list of strings. *)
Definition in_list (x : string) (xs : list string) : bool :=
  existsb (String.eqb x) xs.

(** The line feed and the double quote. *)
Definition nl : string := String "010"%char EmptyString.
Definition dq : string := String "034"%char EmptyString.

(** [c.isspace()] for a code point below 256. *)
Definition isspace (c : ascii) : bool :=
  let n := nat_of_ascii c in
  (((9 <=? n) && (n <=? 13)) || ((28 <=? n) && (n <=? 32))
   || (n =? 133) || (n =? 160))%nat.

Fixpoint lstrip (s : string) : string :=
  match s with
  | EmptyString => EmptyString
  | String c r => if isspace c then lstrip r else s
  end.

Fixpoint rstrip (s : string) : string :=
  match s with
  | EmptyString => EmptyString
  | String c r =>
      match rstrip r with
      | EmptyString => if isspace c then EmptyString else String c EmptyString
      | r' => String c r'
      end
  end.

(** [s.strip()]. *)
Definition strip (s : string) : string := rstrip (lstrip s).

(** [s.endswith(suffix)]. *)
Definition endswith (suffix s : string) : bool :=
  startswith (String.rev suffix) (String.rev s).

(** [s.replace(c, '')] for a one-character [c]. *)
Fixpoint remove_char (c : ascii) (s : string) : string :=
  match s with
  | EmptyString => EmptyString
  | String a r =>
      if Ascii.eqb a c then remove_char c r else String a (remove_char c r)
  end.

(** [s.split(sep)] for a non-empty [sep]: the pieces between the leftmost
    non-overlapping occurrences of [sep].  [skip] counts the characters of
    an occurrence still to pass over, [cur] is the piece being read. *)
Fixpoint split_from (sep : string) (skip : nat) (cur s : string) : list string :=
  match s with
  | EmptyString => [cur]
  | String c r =>
      match skip with
      | S k => split_from sep k cur r
      | O =>
          if startswith sep s
          then cur :: split_from sep (String.length sep - 1) EmptyString r
          else split_from sep 0 (cur +:+ String c EmptyString) r
      end
  end.

Definition split (sep s : string) : list string :=
  split_from sep 0 EmptyString s.

(** [s.split(sep, 1)] for a one-character [sep]: at most two pieces. *)
Fixpoint split1 (sep : ascii) (s : string) : list string :=
  match s with
  | EmptyString => [EmptyString]
  | String c r =>
      if Ascii.eqb c sep then [EmptyString; r]
      else match split1 sep r with
           | h :: t => String c h :: t
           | [] => [String c EmptyString]
           end
  end.

(** [sep.join(parts)] for a list of strings. *)
Fixpoint join (sep : string) (parts : list string) : string :=
  match parts with
  | [] => EmptyString
  | [x] => x
  | x :: r => x +:+ sep +:+ join sep r
  end.

(** [str(n)] for an integer. *)
Definition str_int (z : Z) : string := NilZero.string_of_int (Z.to_int z).
Definition str_nat (n : nat) : string := str_int (Z.of_nat n).

(** [sep.join(items)] for a list of values: a [TypeError] at the first
    item that is not a [str]. *)
Fixpoint str_items (i : nat) (items : list pyval) : res (list string) :=
  match items with
  | [] => Ok []
  | PyStr s :: r =>
      match str_items (S i) r with
      | Ok l => Ok (s :: l)
      | Raise msg => Raise msg
      end
  | v :: _ =>
      Raise ("sequence item " +:+ str_nat i +:+ ": expected str instance, "
             +:+ type_name v +:+ " found")
  end.

Definition join_values (sep : string) (items : list pyval) : res string :=
  match str_items 0 items with
  | Ok l => Ok (join sep l)
  | Raise msg => Raise msg
  end.

(** [min(a, b)] on floats: [b] when [b < a], else [a]. *)
Definition py_min (a b : float) : float := if PrimFloat.ltb b a then b else a.

(** [text] is [pre + piece + post] for some [pre] and [post]. *)
Definition embeds (piece text : string) : Prop :=
  exists pre post, text = pre +:+ piece +:+ post.

End Py.
Export Py.

(** A LangChain [Document]. *)
Record Document : Type := {
  page_content : string;
  metadata : gmap string pyval
}.

(** ** Collaborators

    What the orchestration code calls and does not define: the retrieval
    index, the text generator and the chart generator (each may change a
    world of its own and may raise), and the library functions [json.loads],
    [repr], [float], [round], [datetime.strptime] and the iteration order of
    a [set].  The statements below hold for every choice of them. *)

(** The stages of the analytics workflow, by the names [_build_graph] adds
    them under. *)
Inductive node : Type :=
  | classify_query
  | gather_data
  | process_data
  | generate_insights
  | create_visualizations
  | formulate_recommendations
  | calculate_confidence
  | handle_error.

#[global] Instance node_eq_dec : EqDecision node.
Proof. solve_decision. Defined.

(** What a run does that an observer outside can see: a stage starts, or a
    collaborator is called with these arguments. *)
Inductive event : Type :=
  | Enter (n : node)
  | Search (query : pyval) (content_types : list string) (k_per_type : nat)
  | Generate (prompt context : string)
  | Chart (query : pyval) (table_docs : list Document).

Class Services : Type := {
  World : Type;
  (** [MultimodalVectorStoreService.search_multimodal(query, content_types,
      k_per_type)] *)
  search_multimodal :
    pyval -> list string -> nat -> World -> res (gmap string (list Document)) * World;
  (** [AdvancedLLMService.generate_response(prompt, context)] *)
  generate_response : string -> string -> World -> res string * World;
  (** [ChartGenerator.generate_chart_from_query(query, table_docs)] *)
  generate_chart_from_query : pyval -> list Document -> World -> res pyval * World;
  (** [json.loads(text)] *)
  json_loads : string -> res pyval;
  (** [repr(v)] *)
  repr : pyval -> string;
  (** [float(text)], [None] for a [ValueError] *)
  float_of_str : string -> option float;
  (** [list(set(items))] *)
  set_to_list : list string -> list string;
  (** [round(x, 2)] *)
  round2 : float -> float;
  (** [datetime]: [datetime.strptime(text, fmt)] ([None] for a
      [ValueError]), [a < b] and [d.isoformat()] *)
  DateTime : Type;
  strptime : string -> string -> option DateTime;
  datetime_ltb : DateTime -> DateTime -> bool;
  isoformat : DateTime -> string
}.

(** [str(v)], as an f-string formats a value. *)
Definition str {svc : Services} (v : pyval) : string :=
  match v with
  | PyStr s => s
  | PyInt z => str_int z
  | _ => repr v
  end.

(** ** Computations with collaborators *)

(** The collaborators' world and the events so far, oldest first. *)
Record Env {svc : Services} : Type := {
  world : World;
  calls : list event
}.

(** A computation reads and changes the environment and ends with a value
    or an exception; what it did before raising stays done. *)
Definition M {svc : Services} (A : Type) : Type := Env -> res A * Env.

Definition ret {svc : Services} {A} (a : A) : M A := fun env => (Ok a, env).

Definition bind {svc : Services} {A B} (m : M A) (k : A -> M B) : M B :=
  fun env =>
    match m env with
    | (Ok a, env') => k a env'
    | (Raise msg, env') => (Raise msg, env')
    end.

Definition lift {svc : Services} {A} (r : res A) : M A := fun env => (r, env).

(** [try: body  except Exception as e: handler(str(e))]. *)
Definition try_except {svc : Services} {A} (body : M A) (handler : string -> M A) : M A :=
  fun env =>
    match body env with
    | (Ok a, env') => (Ok a, env')
    | (Raise msg, env') => handler msg env'
    end.

Notation "x <- m ;; k" := (bind m (fun x => k))
  (at level 100, m at next level, right associativity).

Definition emit {svc : Services} (ev : event) : M unit :=
  fun env => (Ok tt, {| world := world env; calls := (calls env ++ [ev])%list |}).

Definition call_search {svc : Services} (query : pyval) (content_types : list string)
    (k_per_type : nat) : M (gmap string (list Document)) :=
  fun env =>
    let (r, w) := search_multimodal query content_types k_per_type (world env) in
    (r, {| world := w; calls := (calls env ++ [Search query content_types k_per_type])%list |}).

Definition call_generate {svc : Services} (prompt context : string) : M string :=
  fun env =>
    let (r, w) := generate_response prompt context (world env) in
    (r, {| world := w; calls := (calls env ++ [Generate prompt context])%list |}).

Definition call_chart {svc : Services} (query : pyval) (table_docs : list Document)
  : M pyval :=
  fun env =>
    let (r, w) := generate_chart_from_query query table_docs (world env) in
    (r, {| world := w; calls := (calls env ++ [Chart query table_docs])%list |}).

(** ** More of the library

    What the code below takes from Python besides: [str.upper] and
    [str.title], [json.dumps], and the order in which a dict gives its
    entries, which is the order of insertion and which a [gmap] does not
    keep. *)

Class Library : Type := {
  (** [s.upper()] *)
  upper : string -> string;
  (** [s.title()] *)
  title : string -> string;
  (** [json.dumps(v, indent=n)], [json.dumps(v)] without an indent *)
  json_dumps : option nat -> pyval -> string;
  (** [list(d.items())]: the entries of [d], each once, in some order *)
  items : gmap string (list Document) -> list (string * list Document);
  items_entries : forall d, items d ≡ₚ map_to_list d
}.

(** ** [app/services/analytics_service.py] *)

Module AnalyticsService.

(** The query is annotated [str] and arrives unchecked: on any other
    value [query.lower()] raises. *)
Definition classify_query_type (query : pyval) : res string :=
  match lower_of query with
  | Ok query_lower =>
      Ok (if any_in ["trend"; "over time"; "timeline"; "change"; "growth"] query_lower
          then "trend_analysis"
          else if any_in ["compare"; "vs"; "versus"; "difference"; "between"] query_lower
          then "comparison"
          else if any_in ["summary"; "overview"; "summarize"; "total"; "average"]
                    query_lower
          then "summary"
          else if any_in ["predict"; "forecast"; "future"; "projection"] query_lower
          then "prediction"
          else "general")
  | Raise e => Raise e
  end.

Section WithServices.
Context {svc : Services}.

(** One [part] of a row in [_parse_table_content]: a "key: value" cell is
    stored under its key, as a number when [float] accepts the text once
    "," and "$" are gone. *)
Definition parse_cell (record : list (string * pyval)) (part : string)
  : res (list (string * pyval)) :=
  if str_in ":" part then
    match split1 ":" part with
    | [key; value] =>
        let value :=
          match float_of_str (remove_char "$" (remove_char "," (strip value))) with
          | Some f => PyFloat f
          | None => PyStr (strip value)
          end in
        Ok (dict_set record (strip key) value)
    | _ => Raise "not enough values to unpack (expected 2, got 1)"
    end
  else Ok record.

Fixpoint parse_cells (record : list (string * pyval)) (parts : list string)
  : res (list (string * pyval)) :=
  match parts with
  | [] => Ok record
  | part :: rest =>
      match parse_cell record part with
      | Ok record' => parse_cells record' rest
      | Raise msg => Raise msg
      end
  end.

(** The body of the loop over lines: the rows this [line] adds to [data]. *)
Definition parse_line (line : string) : list pyval :=
  if str_in "|" line then
    let parts := map strip (split "|" line) in
    if (2 <=? length parts)%nat then
      match parse_cells [] parts with
      | Ok [] => []
      | Ok record => [PyDict record]
      | Raise _ => []
      end
    else []
  else [].

Definition _parse_table_content (content : string) : list pyval :=
  fold_left (fun data line => (data ++ parse_line line)%list) (split nl content) [].

Definition extract_table_data (table_docs : list Document) : list pyval :=
  fold_left
    (fun all_data doc =>
       match metadata doc !! "table_data" with
       | Some (PyList table_data) => (all_data ++ table_data)%list
       | Some _ => all_data
       | None => (all_data ++ _parse_table_content (page_content doc))%list
       end)
    table_docs [].

(** The loop of [_extract_insights_fallback] over the sentences, [insights]
    being the list built so far; it stops at five. *)
Fixpoint fallback_loop (sentences insights : list string) : list string :=
  match sentences with
  | [] => insights
  | sentence :: rest =>
      let sentence := strip sentence in
      if (20 <? String.length sentence)%nat
         && any_in ["increase"; "decrease"; "trend"; "significant"; "growth";
                    "decline"; "improvement"; "higher"; "lower"] (lower sentence)
      then
        let insights :=
          (insights ++ [sentence +:+ (if negb (endswith "." sentence) then "." else "")])%list in
        if (5 <=? length insights)%nat then insights else fallback_loop rest insights
      else fallback_loop rest insights
  end.

Definition _extract_insights_fallback (analysis : pyval) : res (list pyval) :=
  match analysis with
  | PyStr analysis =>
      let sentences := split ". " analysis in
      Ok (map PyStr (take 5 (fallback_loop sentences [])))
  | v => Raise ("'" +:+ type_name v +:+ "' object has no attribute 'split'")
  end.

Definition extract_insights (analysis : pyval) (data : list pyval) : M (list pyval) :=
  let insights_prompt :=
    join nl
      [ "";
        "        Extract 3-5 key actionable insights from this analysis:";
        "        ";
        "        Analysis: " +:+ str analysis;
        "        ";
        "        Data points: " +:+ str_nat (length data);
        "        ";
        "        Return insights as a JSON array of strings. Each insight should be:";
        "        1. Specific and actionable";
        "        2. Based on the data";
        "        3. Business-relevant";
        "        4. Concise (1-2 sentences)";
        "        ";
        "        Example format:";
        "        [" +:+ dq +:+ "Revenue increased by 15% year-over-year" +:+ dq
          +:+ ", " +:+ dq +:+ "Q4 showed strongest growth at 23%" +:+ dq +:+ "]";
        "        " ] in
  response <- call_generate insights_prompt "";;
  match json_loads response with
  | Ok (PyList insights) => ret insights
  | Ok _ => ret [PyStr response]
  | Raise _ => lift (_extract_insights_fallback analysis)
  end.

(** *** Time series *)

(** The keys of the first records that name a date: the loop of
    [_extract_time_series] over [data[:5]], which stands outside its
    [try]. *)
Fixpoint date_columns (records : list pyval) : res (list string) :=
  match records with
  | [] => Ok []
  | PyDict d :: rest =>
      match date_columns rest with
      | Ok more =>
          Ok (List.filter
                (fun key => any_in ["date"; "time"; "year"; "month"; "day"] (lower key))
                (map fst d) ++ more)%list
      | Raise msg => Raise msg
      end
  | v :: _ => Raise ("'" +:+ type_name v +:+ "' object has no attribute 'items'")
  end.

(** The first of the formats that [strptime] accepts for [date_value]. *)
Fixpoint parse_date (date_value : string) (formats : list string) : option DateTime :=
  match formats with
  | [] => None
  | fmt :: rest =>
      match strptime date_value fmt with
      | Some parsed_date => Some parsed_date
      | None => parse_date date_value rest
      end
  end.

(** One record and one date column: the date to enter in the series, if
    the record has a text under that column that parses.  A record that is
    no dict raises, here or at [record[date_col]]. *)
Definition dated (record : pyval) (date_col : string) : res (option DateTime) :=
  match record with
  | PyDict d =>
      match dict_get d date_col with
      | Some (PyStr date_value) =>
          Ok (parse_date date_value ["%Y-%m-%d"; "%m/%d/%Y"; "%Y"; "%m/%Y"])
      | _ => Ok None
      end
  | PyList l =>
      if existsb (fun v => match v with PyStr s => String.eqb s date_col | _ => false end) l
      then Raise "list indices must be integers or slices, not str"
      else Ok None
  | PyStr s =>
      if str_in date_col s
      then Raise "string indices must be integers, not 'str'"
      else Ok None
  | v => Raise ("argument of type '" +:+ type_name v +:+ "' is not iterable")
  end.

Fixpoint dated_by (record : pyval) (columns : list string)
  : res (list (DateTime * pyval)) :=
  match columns with
  | [] => Ok []
  | date_col :: rest =>
      match dated record date_col with
      | Ok found =>
          match dated_by record rest with
          | Ok more =>
              Ok (match found with
                  | Some parsed_date => (parsed_date, record) :: more
                  | None => more
                  end)
          | Raise msg => Raise msg
          end
      | Raise msg => Raise msg
      end
  end.

Fixpoint series (data : list pyval) (columns : list string)
  : res (list (DateTime * pyval)) :=
  match data with
  | [] => Ok []
  | record :: rest =>
      match dated_by record columns with
      | Ok entries =>
          match series rest columns with
          | Ok more => Ok (entries ++ more)%list
          | Raise msg => Raise msg
          end
      | Raise msg => Raise msg
      end
  end.

(** [sorted(items, key=lambda x: x["date"])]: entries with equal dates
    keep their order. *)
Fixpoint insert_by_date (item : DateTime * pyval) (sorted : list (DateTime * pyval))
  : list (DateTime * pyval) :=
  match sorted with
  | [] => [item]
  | x :: rest =>
      if datetime_ltb item.1 x.1 then item :: x :: rest
      else x :: insert_by_date item rest
  end.

Definition sorted_by_date (items : list (DateTime * pyval)) : list (DateTime * pyval) :=
  fold_left (fun sorted item => insert_by_date item sorted) items [].

(** [None], or a series that is not empty.  What the loops inside the
    [try] raise is logged and gives [None]. *)
Definition _extract_time_series (data : list pyval)
  : res (option (list (DateTime * pyval))) :=
  match data with
  | [] => Ok None
  | _ =>
      match date_columns (take 5 data) with
      | Raise msg => Raise msg
      | Ok [] => Ok None
      | Ok columns =>
          match series data columns with
          | Ok [] => Ok None
          | Ok time_series => Ok (Some (sorted_by_date time_series))
          | Raise _ => Ok None
          end
      end
  end.

(** [float(str(value).replace(',', '').replace('$', ''))]. *)
Definition number_of (value : pyval) : option float :=
  float_of_str (remove_char "$" (remove_char "," (str value))).

(** [a / b] on floats. *)
Definition divide (a b : float) : res float :=
  if PrimFloat.eqb b 0 then Raise "float division by zero" else Ok (a / b)%float.

(** The values of column [col] along the series, those that are numbers. *)
Fixpoint column_values (col : string) (sorted_data : list (DateTime * pyval))
  : list float :=
  match sorted_data with
  | [] => []
  | (_, PyDict d) :: rest =>
      match number_of (default (PyInt 0) (dict_get d col)) with
      | Some val => val :: column_values col rest
      | None => column_values col rest
      end
  | _ :: rest => column_values col rest
  end.

(** The trend entry of a column with the values [first :: rest], [rest]
    not empty. *)
Definition trend_entry (col : string) (first : float) (rest : list float) : res pyval :=
  let last := List.last rest first in
  match
    if PrimFloat.ltb first last then
      match divide (last - first) first with
      | Ok q => Ok ("increasing", PyFloat (round2 (q * 100)))
      | Raise msg => Raise msg
      end
    else if PrimFloat.ltb last first then
      match divide (first - last) first with
      | Ok q => Ok ("decreasing", PyFloat (round2 (q * 100)))
      | Raise msg => Raise msg
      end
    else Ok ("stable", PyInt 0)
  with
  | Ok (direction, change_percent) =>
      Ok (PyDict
            [ ("column", PyStr col);
              ("direction", PyStr direction);
              ("change_percent", change_percent);
              ("start_value", PyFloat first);
              ("end_value", PyFloat last);
              ("data_points", PyInt (Z.of_nat (S (length rest)))) ])
  | Raise msg => Raise msg
  end.

Fixpoint column_trends (cols : list string) (sorted_data : list (DateTime * pyval))
  : res (list pyval) :=
  match cols with
  | [] => Ok []
  | col :: more =>
      match
        match column_values col sorted_data with
        | first :: (_ :: _) as rest =>
            match trend_entry col first rest with
            | Ok entry => Ok [entry]
            | Raise msg => Raise msg
            end
        | _ => Ok []
        end
      with
      | Ok entry =>
          match column_trends more sorted_data with
          | Ok entries => Ok (entry ++ entries)%list
          | Raise msg => Raise msg
          end
      | Raise msg => Raise msg
      end
  end.

(** [min(dates)] and [max(dates)]: the first of the least, the first of
    the greatest. *)
Definition earliest (first : DateTime) (rest : list (DateTime * pyval)) : DateTime :=
  fold_left (fun best item => if datetime_ltb item.1 best then item.1 else best) rest first.

Definition latest (first : DateTime) (rest : list (DateTime * pyval)) : DateTime :=
  fold_left (fun best item => if datetime_ltb best item.1 then item.1 else best) rest first.

Definition _analyze_time_series (time_series : list (DateTime * pyval)) (query : pyval)
  : res (list (string * pyval)) :=
  let sorted_data := sorted_by_date time_series in
  match
    match sorted_data with
    | [] => Ok []
    | (_, PyDict sample_data) :: _ =>
        let numeric_cols :=
          map fst
            (List.filter
               (fun kv => match number_of kv.2 with Some _ => true | None => false end)
               sample_data) in
        column_trends numeric_cols sorted_data
    | (_, v) :: _ => Raise ("'" +:+ type_name v +:+ "' object has no attribute 'items'")
    end
  with
  | Ok trends =>
      Ok [ ("trends", PyList trends);
           ("data_points", PyInt (Z.of_nat (length time_series)));
           ("date_range",
            PyDict
              match sorted_data with
              | [] => [ ("start", PyNone); ("end", PyNone) ]
              | (first, _) :: rest =>
                  [ ("start", PyStr (isoformat (earliest first rest)));
                    ("end", PyStr (isoformat (latest first rest))) ]
              end) ]
  | Raise msg => Raise msg
  end.

(** [trends.update(other)]. *)
Definition dict_update (d other : list (string * pyval)) : list (string * pyval) :=
  fold_left (fun d kv => dict_set d (fst kv) (snd kv)) other d.

Definition analyze_trends (query : pyval) : M pyval :=
  search_results <-
    call_search (PyStr (str query +:+ " timeline date time year month")) ["table"] 15;;
  let table_data := extract_table_data (default [] (search_results !! "table")) in
  time_series <- lift (_extract_time_series table_data);;
  let trends :=
    [ ("trends", PyList []);
      ("forecast", PyNone);
      ("seasonality", PyNone);
      ("anomalies", PyList []);
      ("confidence", PyFloat 0.5) ] in
  match time_series with
  | Some time_series =>
      analysis <- lift (_analyze_time_series time_series query);;
      ret (PyDict (dict_update trends analysis))
  | None => ret (PyDict trends)
  end.

End WithServices.

Section Comparison.
Context {svc : Services} {lib : Library}.

(** *** Confidence of an analysis *)

(** The cells of the records that read as numbers: the count that
    [_calculate_confidence] makes over [data[:10]]. *)
Fixpoint numeric_cells (records : list pyval) : res nat :=
  match records with
  | [] => Ok 0%nat
  | PyDict d :: rest =>
      match numeric_cells rest with
      | Ok n =>
          Ok (length
                (List.filter
                   (fun kv => match number_of kv.2 with Some _ => true | None => false end)
                   d) + n)%nat
      | Raise msg => Raise msg
      end
  | v :: _ => Raise ("'" +:+ type_name v +:+ "' object has no attribute 'values'")
  end.

Definition _calculate_confidence (data : list pyval) (analysis : pyval) : res float :=
  let confidence := 0.5%float in
  let confidence :=
    if (100 <? length data)%nat then (confidence + 0.2)%float
    else if (50 <? length data)%nat then (confidence + 0.1)%float
    else confidence in
  match
    match data with
    | [] => Ok 0%nat
    | _ => numeric_cells (take 10 data)
    end
  with
  | Raise msg => Raise msg
  | Ok numeric_count =>
      let confidence :=
        if (10 <? numeric_count)%nat then (confidence + 0.2)%float else confidence in
      match len analysis with
      | Raise msg => Raise msg
      | Ok analysis_len =>
          let confidence :=
            if (500 <? analysis_len)%nat then (confidence + 0.1)%float else confidence in
          Ok (py_min confidence 1.0)
      end
  end.

(** *** Comparing two datasets *)

Definition _perform_comparison (data_a data_b : list pyval) (query : pyval)
  : M (gmap string pyval) :=
  let sample (data : list pyval) :=
    match data with
    | [] => "No data"
    | _ => json_dumps (Some 2%nat) (PyList (take 3 data))
    end in
  let comparison_prompt :=
    join nl
      [ "";
        "        Compare these two datasets and answer: " +:+ str query;
        "        ";
        "        Dataset A: " +:+ str_nat (length data_a) +:+ " records";
        "        Sample: " +:+ sample data_a;
        "        ";
        "        Dataset B: " +:+ str_nat (length data_b) +:+ " records  ";
        "        Sample: " +:+ sample data_b;
        "        ";
        "        Provide:";
        "        1. Key differences";
        "        2. Similarities";
        "        3. Quantitative comparisons";
        "        4. Which dataset performs better (if applicable)";
        "        5. Recommendations";
        "        " ] in
  analysis <- call_generate comparison_prompt "";;
  ret ({[ "comparison" := PyStr analysis;
          "dataset_a_size" := PyInt (Z.of_nat (length data_a));
          "dataset_b_size" := PyInt (Z.of_nat (length data_b));
          "query" := query ]} : gmap string pyval).

Definition compare_datasets (query dataset_a_query dataset_b_query : pyval)
  : M (gmap string pyval) :=
  data_a_results <- call_search dataset_a_query ["table"] 10;;
  data_b_results <- call_search dataset_b_query ["table"] 10;;
  let data_a := extract_table_data (default [] (data_a_results !! "table")) in
  let data_b := extract_table_data (default [] (data_b_results !! "table")) in
  comparison <- _perform_comparison data_a data_b query;;
  ret comparison.

(** *** Analysing data *)

(** [columns.update(record.keys())] over the records. *)
Fixpoint columns_of (table_data : list pyval) : res (list string) :=
  match table_data with
  | [] => Ok []
  | record :: rest =>
      match keys record with
      | Ok columns =>
          match columns_of rest with
          | Ok more => Ok (columns ++ more)%list
          | Raise msg => Raise msg
          end
      | Raise msg => Raise msg
      end
  end.

Definition _build_analysis_context (table_data : list pyval)
    (text_docs : option (list Document)) : res string :=
  match
    match table_data with
    | [] => Ok []
    | _ =>
        let sample_size := Nat.min 5 (length table_data) in
        let context_parts :=
          (["TABLE DATA:"]
            ++ imap (fun i record =>
                      "Record " +:+ str_nat (i + 1) +:+ ": " +:+ json_dumps None record)
                (take sample_size table_data)
           ++ (if (sample_size <? length table_data)%nat
               then ["... and " +:+ str_nat (length table_data - sample_size)
                     +:+ " more records"]
               else []))%list in
        match columns_of table_data with
        | Ok columns =>
            Ok (context_parts
                ++ ["Available columns: " +:+ join ", " (set_to_list columns)])%list
        | Raise msg => Raise msg
        end
    end
  with
  | Raise msg => Raise msg
  | Ok context_parts =>
      let context_parts :=
        match text_docs with
        | None | Some [] => context_parts
        | Some text_docs =>
            (context_parts
             ++ [nl +:+ "TEXT CONTEXT:"]
             ++ imap (fun i doc =>
                        "Document " +:+ str_nat (i + 1) +:+ ": "
                        +:+ substring 0 200 (page_content doc) +:+ "...")
                  (take 3 text_docs))%list
        end in
      Ok (join nl context_parts)
  end.

Definition _analyze_trends (query : pyval) (data : list pyval) (context : string)
  : M string :=
  time_series <- lift (_extract_time_series data);;
  let trend_prompt :=
    join nl
      [ "";
        "        Analyze the following data for trends and patterns:";
        "        ";
        "        Query: " +:+ str query;
        "        ";
        "        Data Summary:";
        "        - Total records: " +:+ str_nat (length data);
        "        - Time series data available: "
          +:+ match time_series with Some (_ :: _) => "True" | _ => "False" end;
        "        ";
        "        Context: " +:+ context;
        "        ";
        "        Please provide a detailed trend analysis including:";
        "        1. Overall trends (increasing, decreasing, stable)";
        "        2. Seasonal patterns if any";
        "        3. Key inflection points";
        "        4. Rate of change";
        "        5. Statistical significance";
        "        ";
        "        Focus on answering the specific question while providing supporting evidence.";
        "        " ] in
  call_generate trend_prompt context.

Definition _analyze_comparisons (query : pyval) (data : list pyval) (context : string)
  : M string :=
  let comparison_prompt :=
    join nl
      [ "";
        "        Perform a comparative analysis of the data:";
        "        ";
        "        Query: " +:+ str query;
        "        ";
        "        Data available: " +:+ str_nat (length data) +:+ " records";
        "        Context: " +:+ context;
        "        ";
        "        Please provide:";
        "        1. Key differences between compared items";
        "        2. Percentage changes where applicable";
        "        3. Statistical significance of differences";
        "        4. Ranking if relevant";
        "        5. Recommendations based on comparison";
        "        ";
        "        Be specific and use actual numbers from the data.";
        "        " ] in
  call_generate comparison_prompt context.

Definition _general_analysis (query : pyval) (data : list pyval) (context : string)
  : M string :=
  let analysis_prompt :=
    join nl
      [ "";
        "        Analyze the data to answer the following question:";
        "        ";
        "        Question: " +:+ str query;
        "        ";
        "        Available data: " +:+ str_nat (length data) +:+ " records";
        "        Context: " +:+ context;
        "        ";
        "        Please provide:";
        "        1. Direct answer to the question";
        "        2. Supporting evidence from the data";
        "        3. Relevant calculations or metrics";
        "        4. Additional insights that might be valuable";
        "        5. Confidence level in the analysis";
        "        ";
        "        Be thorough but concise.";
        "        " ] in
  call_generate analysis_prompt context.

Section WithStatistics.
(** [self._calculate_basic_stats], which is numpy's work. *)
Variable _calculate_basic_stats : list pyval -> res pyval.

Definition _generate_summary (query : pyval) (data : list pyval) (context : string)
  : M string :=
  stats <- lift (_calculate_basic_stats data);;
  let summary_prompt :=
    join nl
      [ "";
        "        Generate a comprehensive summary of the data:";
        "        ";
        "        Query: " +:+ str query;
        "        ";
        "        Data Statistics:";
        "        " +:+ json_dumps (Some 2%nat) stats;
        "        ";
        "        Context: " +:+ context;
        "        ";
        "        Please provide:";
        "        1. Key metrics and totals";
        "        2. Average, median, and ranges";
        "        3. Notable patterns or outliers";
        "        4. Overall insights";
        "        5. Data quality assessment";
        "        ";
        "        Make it actionable and easy to understand.";
        "        " ] in
  call_generate summary_prompt context.

Definition analyze_data (query : pyval) (table_data : list pyval)
    (context_docs : option (list Document)) : M (gmap string pyval) :=
  query_type <- lift (classify_query_type query);;
  context <- lift (_build_analysis_context table_data context_docs);;
  analysis <-
    (if String.eqb query_type "trend_analysis"
     then _analyze_trends query table_data context
     else if String.eqb query_type "comparison"
     then _analyze_comparisons query table_data context
     else if String.eqb query_type "summary"
     then _generate_summary query table_data context
     else _general_analysis query table_data context);;
  confidence <- lift (_calculate_confidence table_data (PyStr analysis));;
  ret ({[ "analysis" := PyStr analysis;
          "query_type" := PyStr query_type;
          "data_points" := PyInt (Z.of_nat (length table_data));
          "confidence" := PyFloat confidence ]} : gmap string pyval).

End WithStatistics.

End Comparison.

End AnalyticsService.

(** ** [langchain_server/graphs/rag_graph.py] *)

Module RagGraph.

Record RAGState : Type := {
  query : pyval;
  retrieved_docs : gmap string (list Document);
  context : string;
  response : string;
  chart_data : pyval;
  metadata : gmap string pyval
}.

(** The stage has no handler: what [state["query"].lower()] raises goes
    to the caller. *)
Definition _analyze_query (state : RAGState) : res RAGState :=
  match lower_of (query state) with
  | Ok query =>
      let content_types := ["text"] in
      let content_types :=
        if any_in ["table"; "data"; "statistics"; "numbers"; "trend"; "chart"] query
        then (content_types ++ ["table"])%list else content_types in
      let content_types :=
        if any_in ["image"; "figure"; "diagram"; "photo"; "picture"] query
        then (content_types ++ ["image"])%list else content_types in
      Ok {| query := RagGraph.query state;
            retrieved_docs := retrieved_docs state;
            context := context state;
            response := response state;
            chart_data := chart_data state;
            metadata :=
              {[ "content_types" := PyList (map PyStr content_types);
                 "requires_charts" :=
                   PyBool (any_in ["trend"; "chart"; "graph"; "visualization"] query) ]} |}
  | Raise e => Raise e
  end.

End RagGraph.

(** ** [langchain_server/graphs/analytics_graph.py] *)

Module AnalyticsGraph.

Record AnalyticsState : Type := {
  query : pyval;
  analysis_type : string;
  raw_data : list pyval;
  processed_data : gmap string pyval;
  insights : list pyval;
  charts : pyval;
  recommendations : list pyval;
  confidence : float;
  error : string
}.

(** [state[field] = value], one function per field the stages assign. *)
Definition set_analysis_type (v : string) (s : AnalyticsState) : AnalyticsState :=
  {| query := query s; analysis_type := v; raw_data := raw_data s;
     processed_data := processed_data s; insights := insights s;
     charts := charts s; recommendations := recommendations s;
     confidence := confidence s; error := error s |}.

Definition set_raw_data (v : list pyval) (s : AnalyticsState) : AnalyticsState :=
  {| query := query s; analysis_type := analysis_type s; raw_data := v;
     processed_data := processed_data s; insights := insights s;
     charts := charts s; recommendations := recommendations s;
     confidence := confidence s; error := error s |}.

Definition set_processed_data (v : gmap string pyval) (s : AnalyticsState)
  : AnalyticsState :=
  {| query := query s; analysis_type := analysis_type s; raw_data := raw_data s;
     processed_data := v; insights := insights s;
     charts := charts s; recommendations := recommendations s;
     confidence := confidence s; error := error s |}.

Definition set_insights (v : list pyval) (s : AnalyticsState) : AnalyticsState :=
  {| query := query s; analysis_type := analysis_type s; raw_data := raw_data s;
     processed_data := processed_data s; insights := v;
     charts := charts s; recommendations := recommendations s;
     confidence := confidence s; error := error s |}.

Definition set_charts (v : pyval) (s : AnalyticsState) : AnalyticsState :=
  {| query := query s; analysis_type := analysis_type s; raw_data := raw_data s;
     processed_data := processed_data s; insights := insights s;
     charts := v; recommendations := recommendations s;
     confidence := confidence s; error := error s |}.

Definition set_recommendations (v : list pyval) (s : AnalyticsState)
  : AnalyticsState :=
  {| query := query s; analysis_type := analysis_type s; raw_data := raw_data s;
     processed_data := processed_data s; insights := insights s;
     charts := charts s; recommendations := v;
     confidence := confidence s; error := error s |}.

Definition set_confidence (v : float) (s : AnalyticsState) : AnalyticsState :=
  {| query := query s; analysis_type := analysis_type s; raw_data := raw_data s;
     processed_data := processed_data s; insights := insights s;
     charts := charts s; recommendations := recommendations s;
     confidence := v; error := error s |}.

Definition set_error (v : string) (s : AnalyticsState) : AnalyticsState :=
  {| query := query s; analysis_type := analysis_type s; raw_data := raw_data s;
     processed_data := processed_data s; insights := insights s;
     charts := charts s; recommendations := recommendations s;
     confidence := confidence s; error := v |}.

Section WithServices.
Context {svc : Services}.

(** The keys of every record, in order: what the generator
    [(d.keys() for d in data)] yields, or the [AttributeError] of the first
    record that is no dict. *)
Fixpoint all_keys (data : list pyval) : res (list string) :=
  match data with
  | [] => Ok []
  | d :: rest =>
      match keys d with
      | Ok ks =>
          match all_keys rest with
          | Ok more => Ok (ks ++ more)%list
          | Raise msg => Raise msg
          end
      | Raise msg => Raise msg
      end
  end.

Definition _calculate_basic_stats (data : list pyval) : res pyval :=
  match data with
  | [] => Ok (PyDict [])
  | sample_record :: _ =>
      match all_keys data with
      | Ok ks =>
          Ok (PyDict
                [ ("total_records", PyInt (Z.of_nat (length data)));
                  ("columns", PyList (map PyStr (set_to_list ks)));
                  ("sample_record", sample_record) ])
      | Raise msg => Raise msg
      end
  end.

Definition _process_trend_data (query : pyval) (data : list pyval)
  : M (gmap string pyval) :=
  trend_analysis <- AnalyticsService.analyze_trends query;;
  statistics <- lift (_calculate_basic_stats data);;
  ret ({[ "analysis" := PyStr ("Trend analysis reveals: " +:+ str trend_analysis);
          "trend_data" := trend_analysis;
          "statistics" := statistics ]} : gmap string pyval).

Definition _process_comparison_data (query : pyval) (data : list pyval)
  : M (gmap string pyval) :=
  let sample :=
    match data with [] => "No data" | _ => str (PyList (take 3 data)) end in
  let comparison_prompt :=
    join nl
      [ "";
        "        Perform a comparative analysis based on this query: " +:+ str query;
        "        ";
        "        Data available: " +:+ str_nat (length data) +:+ " records";
        "        Sample: " +:+ sample;
        "        ";
        "        Identify:";
        "        1. Key metrics being compared";
        "        2. Significant differences";
        "        3. Performance rankings";
        "        4. Statistical significance";
        "        " ] in
  analysis <- call_generate comparison_prompt "";;
  statistics <- lift (_calculate_basic_stats data);;
  ret ({[ "analysis" := PyStr analysis;
          "comparison_data" := PyList data;
          "statistics" := statistics ]} : gmap string pyval).

Definition _process_summary_data (query : pyval) (data : list pyval)
  : M (gmap string pyval) :=
  stats <- lift (_calculate_basic_stats data);;
  let summary_prompt :=
    join nl
      [ "";
        "        Create a comprehensive summary for: " +:+ str query;
        "        ";
        "        Data overview:";
        "        - Records: " +:+ str_nat (length data);
        "        - Statistics: " +:+ str stats;
        "        ";
        "        Provide:";
        "        1. Key highlights";
        "        2. Important patterns";
        "        3. Notable findings";
        "        4. Overall assessment";
        "        " ] in
  analysis <- call_generate summary_prompt "";;
  ret ({[ "analysis" := PyStr analysis;
          "summary_stats" := stats;
          "statistics" := stats ]} : gmap string pyval).

Definition _process_general_data (query : pyval) (data : list pyval)
  : M (gmap string pyval) :=
  let sample :=
    match data with [] => "No data" | _ => str (PyList (take 5 data)) end in
  let general_prompt :=
    join nl
      [ "";
        "        Analyze the data to answer: " +:+ str query;
        "        ";
        "        Available data: " +:+ str_nat (length data) +:+ " records";
        "        Sample data: " +:+ sample;
        "        ";
        "        Provide a thorough analysis addressing the query.";
        "        " ] in
  analysis <- call_generate general_prompt "";;
  statistics <- lift (_calculate_basic_stats data);;
  ret ({[ "analysis" := PyStr analysis;
          "data_overview" := PyDict [("record_count", PyInt (Z.of_nat (length data)))];
          "statistics" := statistics ]} : gmap string pyval).

Definition _classify_query (state : AnalyticsState) : M AnalyticsState :=
  try_except
    (let query := query state in
     analysis_type <- lift (AnalyticsService.classify_query_type query);;
     ret (set_analysis_type analysis_type state))
    (fun e => ret (set_error ("Query classification failed: " +:+ e) state)).

Definition _gather_data (state : AnalyticsState) : M AnalyticsState :=
  try_except
    (let query := query state in
     let analysis_type := analysis_type state in
     let '(content_types, k_per_type) :=
       if in_list analysis_type ["trend_analysis"; "comparison"]
       then (["table"; "text"], 15%nat)
       else if String.eqb analysis_type "summary"
       then (["text"; "table"; "image"], 10%nat)
       else (["text"; "table"], 8%nat) in
     search_results <- call_search query content_types k_per_type;;
     let table_data :=
       AnalyticsService.extract_table_data (default [] (search_results !! "table")) in
     ret (set_raw_data table_data state))
    (fun e => ret (set_error ("Data gathering failed: " +:+ e) state)).

Definition _process_data (state : AnalyticsState) : M AnalyticsState :=
  try_except
    (let query := query state in
     let raw_data := raw_data state in
     let analysis_type := analysis_type state in
     match raw_data with
     | [] =>
         ret (set_processed_data
                {[ "analysis" := PyStr "No relevant data found for analysis.";
                   "statistics" := PyDict [];
                   "summary" := PyStr "Insufficient data for meaningful analysis." ]}
                state)
     | _ =>
         processed_data <-
           (if String.eqb analysis_type "trend_analysis"
            then _process_trend_data query raw_data
            else if String.eqb analysis_type "comparison"
            then _process_comparison_data query raw_data
            else if String.eqb analysis_type "summary"
            then _process_summary_data query raw_data
            else _process_general_data query raw_data);;
         ret (set_processed_data processed_data state)
     end)
    (fun e => ret (set_error ("Data processing failed: " +:+ e) state)).

Definition _generate_insights (state : AnalyticsState) : M AnalyticsState :=
  try_except
    (let processed_data := processed_data state in
     let raw_data := raw_data state in
     insights <-
       match processed_data !! "analysis" with
       | Some analysis => AnalyticsService.extract_insights analysis raw_data
       | None => ret [PyStr "No insights could be generated from the available data."]
       end;;
     ret (set_insights insights state))
    (fun e => ret (set_error ("Insight generation failed: " +:+ e) state)).

Definition _create_visualizations (state : AnalyticsState) : M AnalyticsState :=
  try_except
    (let query := query state in
     let raw_data := raw_data state in
     let analysis_type := analysis_type state in
     let charts := PyDict [] in
     charts <-
       (if truthy (PyList raw_data) && in_list analysis_type ["trend_analysis"; "comparison"]
        then
          let table_docs :=
            [ {| page_content := "Table data: " +:+ str (PyList (take 5 raw_data));
                 metadata :=
                   {[ "content_type" := PyStr "table";
                      "table_data" := PyList raw_data;
                      "page_number" := PyInt 1 ]} |} ] in
          chart_result <- call_chart query table_docs;;
          ret (if truthy chart_result then chart_result else charts)
        else ret charts);;
     ret (set_charts charts state))
    (fun e => ret (set_error ("Visualization creation failed: " +:+ e) state)).

Definition _formulate_recommendations (state : AnalyticsState) : M AnalyticsState :=
  try_except
    (let analysis := default (PyStr "") (processed_data state !! "analysis") in
     let insights := insights state in
     let analysis_type := analysis_type state in
     joined <- lift (join_values "; " insights);;
     let recommendations_prompt :=
       join nl
         [ "";
           "            Based on this " +:+ analysis_type
             +:+ " analysis, provide 3-5 actionable recommendations:";
           "            ";
           "            Analysis: " +:+ str analysis;
           "            ";
           "            Key Insights: " +:+ joined;
           "            ";
           "            Provide specific, actionable recommendations that:";
           "            1. Address the findings";
           "            2. Are practical to implement";
           "            3. Have clear business value";
           "            4. Are prioritized by impact";
           "            ";
           "            Return as a JSON array of strings.";
           "            " ] in
     response <- call_generate recommendations_prompt "";;
     let recommendations :=
       match json_loads response with
       | Ok (PyList recommendations) => recommendations
       | Ok _ => [PyStr response]
       | Raise _ =>
           let recommendations :=
             filter (fun line => line <> "") (map strip (split nl response)) in
           map PyStr
             (take 5 (filter (fun rec => (10 < String.length rec)%nat) recommendations))
       end in
     ret (set_recommendations recommendations state))
    (fun e => ret (set_error ("Recommendation generation failed: " +:+ e) state)).

Definition _calculate_confidence (state : AnalyticsState) : M AnalyticsState :=
  try_except
    (let raw_data := raw_data state in
     let processed_data := processed_data state in
     let insights := insights state in
     let charts := charts state in
     let confidence := 0.5%float in
     let confidence :=
       if (50 <? length raw_data)%nat then (confidence + 0.2)%float
       else if (20 <? length raw_data)%nat then (confidence + 0.1)%float
       else confidence in
     analysis_len <- lift (len (default (PyStr "") (processed_data !! "analysis")));;
     let confidence :=
       if (200 <? analysis_len)%nat then (confidence + 0.1)%float else confidence in
     let confidence :=
       if (3 <=? length insights)%nat then (confidence + 0.1)%float else confidence in
     let confidence :=
       if truthy charts then (confidence + 0.1)%float else confidence in
     let analysis_type := analysis_type state in
     let confidence :=
       if in_list analysis_type ["trend_analysis"; "summary"]
       then (confidence + 0.05)%float else confidence in
     ret (set_confidence (py_min 1.0 confidence) state))
    (fun e => ret (set_error ("Confidence calculation failed: " +:+ e) state)).

Definition _handle_error (state : AnalyticsState) : M AnalyticsState :=
  let error_msg := error state in
  let state :=
    set_processed_data
      {[ "analysis" := PyStr ("Analytics processing encountered an error: " +:+ error_msg);
         "statistics" := PyDict [];
         "summary" := PyStr "Unable to complete analysis due to technical issues." ]}
      state in
  let state :=
    set_insights [PyStr "Analysis could not be completed due to technical issues."] state in
  let state := set_charts (PyDict []) state in
  let state :=
    set_recommendations [PyStr "Please try rephrasing your query or contact support."]
      state in
  let state := set_confidence 0.1%float state in
  ret state.

Definition _should_continue_after_classification (state : AnalyticsState) : string :=
  if truthy (PyStr (error state)) then "error" else "continue".

(** The graph [_build_graph] compiles: the stage a node runs, the entry
    point, and the edges.  [successor] gives the next node, or [None] for
    [END]; the edge out of [classify_query] is the conditional one, whose
    table sends the router's answer to a node. *)
Definition node_action (n : node) : AnalyticsState -> M AnalyticsState :=
  match n with
  | classify_query => _classify_query
  | gather_data => _gather_data
  | process_data => _process_data
  | generate_insights => _generate_insights
  | create_visualizations => _create_visualizations
  | formulate_recommendations => _formulate_recommendations
  | calculate_confidence => _calculate_confidence
  | handle_error => _handle_error
  end.

Definition entry_point : node := classify_query.

Definition conditional_edges : list (string * node) :=
  [ ("continue", gather_data); ("error", handle_error) ].

Fixpoint path_lookup (answer : string) (table : list (string * node)) : res node :=
  match table with
  | [] => Raise ("'" +:+ answer +:+ "'")
  | (key, target) :: rest =>
      if String.eqb key answer then Ok target else path_lookup answer rest
  end.

Definition successor (n : node) (state : AnalyticsState) : res (option node) :=
  match n with
  | classify_query =>
      match path_lookup (_should_continue_after_classification state) conditional_edges with
      | Ok target => Ok (Some target)
      | Raise msg => Raise msg
      end
  | gather_data => Ok (Some process_data)
  | process_data => Ok (Some generate_insights)
  | generate_insights => Ok (Some create_visualizations)
  | create_visualizations => Ok (Some formulate_recommendations)
  | formulate_recommendations => Ok (Some calculate_confidence)
  | calculate_confidence => Ok None
  | handle_error => Ok None
  end.

(** LangGraph runs one node per step and gives up with a
    [GraphRecursionError] after [recursion_limit] steps (25 unless
    configured). *)
Definition recursion_limit : nat := 25.

Fixpoint run (steps : nat) (n : node) (state : AnalyticsState) : M AnalyticsState :=
  match steps with
  | O => lift (Raise "Recursion limit of 25 reached without hitting a stop condition.")
  | S steps' =>
      _ <- emit (Enter n);;
      state' <- node_action n state;;
      next <- lift (successor n state');;
      match next with
      | Some n' => run steps' n' state'
      | None => ret state'
      end
  end.

(** [self.graph.ainvoke(initial_state)]. *)
Definition ainvoke (initial_state : AnalyticsState) : M AnalyticsState :=
  run recursion_limit entry_point initial_state.

Definition initial_state (query : pyval) (analysis_type : option string)
  : AnalyticsState :=
  {| query := query;
     analysis_type :=
       match analysis_type with
       | Some t => if truthy (PyStr t) then t else ""
       | None => ""
       end;
     raw_data := [];
     processed_data := ∅;
     insights := [];
     charts := PyDict [];
     recommendations := [];
     confidence := 0.0%float;
     error := "" |}.

Definition process_analytics_query (query : pyval) (analysis_type : option string)
  : M (gmap string pyval) :=
  let initial_state := initial_state query analysis_type in
  try_except
    (result <- ainvoke initial_state;;
     ret ({[ "query" := query;
             "analysis_type" := PyStr (AnalyticsGraph.analysis_type result);
             "analysis" := default (PyStr "") (processed_data result !! "analysis");
             "insights" := PyList (insights result);
             "charts" := charts result;
             "recommendations" := PyList (recommendations result);
             "confidence" := PyFloat (confidence result);
             "data_points" := PyInt (Z.of_nat (length (raw_data result)));
             "error" := PyStr (error result) ]} : gmap string pyval))
    (fun e =>
       ret ({[ "query" := query;
               "analysis" := PyStr ("Analytics processing failed: " +:+ e);
               "insights" := PyList [];
               "charts" := PyDict [];
               "recommendations" := PyList [];
               "confidence" := PyFloat 0.1;
               "data_points" := PyInt 0;
               "error" := PyStr e ]} : gmap string pyval)).

End WithServices.
End AnalyticsGraph.

(** ** The classifier as the specification words it

    A table of keyword sets in priority order; the first set with a keyword
    in the text gives the label, and an unmatched text gets the default. *)

Module ClassifierSpec.

Definition keyword_rules : list (list string * string) :=
  [ (["trend"; "over time"; "timeline"; "change"; "growth"], "trend_analysis");
    (["compare"; "vs"; "versus"; "difference"; "between"], "comparison");
    (["summary"; "overview"; "summarize"; "total"; "average"], "summary");
    (["predict"; "forecast"; "future"; "projection"], "prediction") ].

Fixpoint first_match (rules : list (list string * string)) (default text : string)
  : string :=
  match rules with
  | [] => default
  | (keywords, label) :: rest =>
      if any_in keywords text then label else first_match rest default text
  end.

End ClassifierSpec.

(** ** The confidence score as the specification words it

    Base 0.5, the five bonuses in the order they are listed, and the clamp
    to [0, 1].  The sum is taken left to right in binary64. *)

Module ConfidenceSpec.

Definition clamp01 (x : float) : float :=
  if PrimFloat.ltb x 0 then 0%float
  else if PrimFloat.ltb 1 x then 1%float
  else x.

Definition score (n_records narrative_len n_insights : nat) (has_chart : bool)
    (analysis_type : string) : float :=
  clamp01
    (0.5
     + (if (50 <? n_records)%nat then 0.2
        else if (20 <? n_records)%nat then 0.1 else 0)
     + (if (200 <? narrative_len)%nat then 0.1 else 0)
     + (if (3 <=? n_insights)%nat then 0.1 else 0)
     + (if has_chart then 0.1 else 0)
     + (if in_list analysis_type ["trend_analysis"; "summary"] then 0.05 else 0))%float.

End ConfidenceSpec.

(** ** The content types of AnalyzeQuery as the specification words them *)

Module RagSpec.

Definition content_types (query_lower : string) : gset string :=
  {["text"]}
  ∪ (if any_in ["table"; "data"; "statistics"; "numbers"; "trend"; "chart"] query_lower
     then {["table"]} else ∅)
  ∪ (if any_in ["image"; "figure"; "diagram"; "photo"; "picture"] query_lower
     then {["image"]} else ∅).

Definition requires_charts (query_lower : string) : bool :=
  any_in ["trend"; "chart"; "graph"; "visualization"] query_lower.

End RagSpec.

(** ** The step relation of the analytics workflow

    A configuration is the node about to run, the state it receives and the
    environment.  One step runs the node and follows its edge. *)

Module Workflow.
Import AnalyticsGraph.

Section WithServices.
Context {svc : Services}.

Definition config : Type := node * AnalyticsState * Env.

Definition enter (n : node) (env : Env) : Env :=
  {| world := world env; calls := (calls env ++ [Enter n])%list |}.

Inductive step : config -> config -> Prop :=
  | step_edge n state env state' env' n' :
      node_action n state (enter n env) = (Ok state', env') ->
      successor n state' = Ok (Some n') ->
      step (n, state, env) (n', state', env').

(** [state] is what node [n] receives in some run of the workflow. *)
Definition reaches (n : node) (state : AnalyticsState) (env : Env) : Prop :=
  exists query analysis_type env0,
    rtc step (entry_point, initial_state query analysis_type, env0) (n, state, env).

(** [k] steps of the engine from a configuration, as far as they go. *)
Fixpoint advance (k : nat) (c : config) : config :=
  match k with
  | O => c
  | S k' =>
      let '(n, state, env) := c in
      match node_action n state (enter n env) with
      | (Ok state', env') =>
          match successor n state' with
          | Ok (Some n') => advance k' (n', state', env')
          | _ => c
          end
      | _ => c
      end
  end.

(** The value a computation ended with, if it did not raise. *)
Definition outcome {A} (r : res A * Env) : option A :=
  match r.1 with
  | Ok a => Some a
  | Raise _ => None
  end.

(** *** Reading the event list *)

(** The nodes a list of events enters, in order. *)
Definition entered (evs : list event) : list node :=
  omap (fun ev => match ev with Enter n => Some n | _ => None end) evs.

(** The collaborator calls made while node [n] ran: what follows
    [Enter n] up to the next node entered. *)
Fixpoint until_enter (evs : list event) : list event :=
  match evs with
  | [] => []
  | Enter _ :: _ => []
  | ev :: rest => ev :: until_enter rest
  end.

Fixpoint during (n : node) (evs : list event) : list event :=
  match evs with
  | [] => []
  | Enter m :: rest => if decide (m = n) then until_enter rest else during n rest
  | _ :: rest => during n rest
  end.

Definition is_call (ev : event) : Prop :=
  match ev with Enter _ => False | _ => True end.

Definition is_search (ev : event) : Prop :=
  match ev with Search _ _ _ => True | _ => False end.

(** All that [m] adds to the event list satisfies [P]. *)
Definition emits_only (P : event -> Prop) {A} (m : M A) : Prop :=
  forall env, exists evs, calls (m env).2 = (calls env ++ evs)%list /\ Forall P evs.

(** *** Names for expressions of the stages

    Each of these is an expression a stage has inline; the lemmas
    [gather_data_eq], [process_data_eq], [create_visualizations_eq] and
    [calculate_confidence_eq] below show the stage in terms of them. *)

(** The narrative of a state: [processed_data.get("analysis", "")], and
    its length when it is text. *)
Definition narrative (state : AnalyticsState) : pyval :=
  default (PyStr "") (processed_data state !! "analysis").

Definition narrative_len (state : AnalyticsState) : nat :=
  match narrative state with
  | PyStr text => String.length text
  | _ => 0%nat
  end.

(** The retrieval breadth [_gather_data] chooses for an analysis type. *)
Definition breadth (analysis_type : string) : list string * nat :=
  if in_list analysis_type ["trend_analysis"; "comparison"]
  then (["table"; "text"], 15%nat)
  else if String.eqb analysis_type "summary"
  then (["text"; "table"; "image"], 10%nat)
  else (["text"; "table"], 8%nat).

(** What [_process_data] stores when there are no records. *)
Definition no_data : gmap string pyval :=
  {[ "analysis" := PyStr "No relevant data found for analysis.";
     "statistics" := PyDict [];
     "summary" := PyStr "Insufficient data for meaningful analysis." ]}.

(** The routine [_process_data] dispatches to. *)
Definition routine (analysis_type : string)
  : pyval -> list pyval -> M (gmap string pyval) :=
  if String.eqb analysis_type "trend_analysis" then _process_trend_data
  else if String.eqb analysis_type "comparison" then _process_comparison_data
  else if String.eqb analysis_type "summary" then _process_summary_data
  else _process_general_data.

(** The table document [_create_visualizations] wraps [raw_data] into, and
    the condition under which it calls the chart generator. *)
Definition table_document (raw_data : list pyval) : Document :=
  {| page_content := "Table data: " +:+ str (PyList (take 5 raw_data));
     metadata :=
       {[ "content_type" := PyStr "table";
          "table_data" := PyList raw_data;
          "page_number" := PyInt 1 ]} |}.

Definition charted (state : AnalyticsState) : bool :=
  truthy (PyList (raw_data state))
  && in_list (analysis_type state) ["trend_analysis"; "comparison"].

(** The sum [_calculate_confidence] builds, given the length of the
    narrative. *)
Definition weighed (state : AnalyticsState) (analysis_len : nat) : float :=
  let confidence := 0.5%float in
  let confidence :=
    if (50 <? length (raw_data state))%nat then (confidence + 0.2)%float
    else if (20 <? length (raw_data state))%nat then (confidence + 0.1)%float
    else confidence in
  let confidence :=
    if (200 <? analysis_len)%nat then (confidence + 0.1)%float else confidence in
  let confidence :=
    if (3 <=? length (insights state))%nat then (confidence + 0.1)%float else confidence in
  let confidence :=
    if truthy (charts state) then (confidence + 0.1)%float else confidence in
  let confidence :=
    if in_list (analysis_type state) ["trend_analysis"; "summary"]
    then (confidence + 0.05)%float else confidence in
  py_min 1.0 confidence.

(** *** Invariants *)

(** What a state carries as its narrative is text or nothing. *)
Definition narrative_is_text (state : AnalyticsState) : Prop :=
  processed_data state !! "analysis" = None
  \/ exists text, processed_data state !! "analysis" = Some (PyStr text).

(** The chart of a state is empty or a value that counts as true. *)
Definition chart_is_empty_or_true (state : AnalyticsState) : Prop :=
  charts state = PyDict [] \/ truthy (charts state) = true.

Definition in_unit_interval (x : float) : Prop :=
  PrimFloat.leb 0 x = true /\ PrimFloat.leb x 1 = true.

(** The nodes up to CreateVisualizations on the normal path. *)
Definition before_charts (n : node) : bool :=
  match n with
  | classify_query | gather_data | process_data | generate_insights
  | create_visualizations => true
  | _ => false
  end.

End WithServices.
End Workflow.

(** ** Test doubles

    Collaborators with no world: each answers from its arguments alone.
    They give the statements below their concrete runs. *)

Module Demo.

(** A reader of JSON arrays of plain string literals (no escapes), with
    blanks allowed between tokens; any other text is refused.  On the texts
    it accepts it agrees with [json.loads]. *)
Inductive mode : Type :=
  | Start                    (* before the opening bracket *)
  | Item (first : bool)      (* an element, or the closing bracket if [first] *)
  | Inside (acc : string)    (* inside a string literal *)
  | After                    (* after an element *)
  | Done.                    (* after the closing bracket *)

Fixpoint read_array (m : mode) (items : list pyval) (text : string) : res pyval :=
  match text with
  | EmptyString =>
      match m with
      | Done => Ok (PyList items)
      | _ => Raise "Expecting value"
      end
  | String c rest =>
      match m with
      | Start =>
          if isspace c then read_array Start items rest
          else if Ascii.eqb c "["%char then read_array (Item true) items rest
          else Raise "Expecting value"
      | Item first =>
          if isspace c then read_array (Item first) items rest
          else if Ascii.eqb c "034"%char then read_array (Inside EmptyString) items rest
          else if first && Ascii.eqb c "]"%char then read_array Done items rest
          else Raise "Expecting value"
      | Inside acc =>
          if Ascii.eqb c "034"%char then read_array After (items ++ [PyStr acc])%list rest
          else if Ascii.eqb c "\"%char then Raise "Expecting value"
          else read_array (Inside (acc +:+ String c EmptyString)) items rest
      | After =>
          if isspace c then read_array After items rest
          else if Ascii.eqb c ","%char then read_array (Item false) items rest
          else if Ascii.eqb c "]"%char then read_array Done items rest
          else Raise "Expecting ',' delimiter"
      | Done =>
          if isspace c then read_array Done items rest else Raise "Extra data"
      end
  end.

Definition read_json (text : string) : res pyval := read_array Start [] text.

(** A JSON array of the given plain strings, as [json.dumps] writes it. *)
Definition json_array (items : list string) : string :=
  "[" +:+ join ", " (map (fun s => dq +:+ s +:+ dq) items) +:+ "]".

Definition services
    (search : pyval -> list string -> nat -> res (gmap string (list Document)))
    (generate : string -> string -> res string)
    (chart : pyval -> list Document -> res pyval) : Services :=
  {| World := unit;
     search_multimodal := fun query content_types k w => (search query content_types k, w);
     generate_response := fun prompt context w => (generate prompt context, w);
     generate_chart_from_query := fun query docs w => (chart query docs, w);
     json_loads := read_json;
     repr := fun v => "<" +:+ type_name v +:+ ">";
     float_of_str := fun _ => None;
     set_to_list := remove_dups;
     round2 := fun x => x;
     DateTime := nat;
     strptime := fun _ _ => None;
     datetime_ltb := Nat.ltb;
     isoformat := fun _ => "1970-01-01T00:00:00" |}.

Definition env0 {svc : Services} (w : World) : Env := {| world := w; calls := [] |}.

(** A table document that carries [n] structured rows. *)
Definition row (i : nat) : pyval :=
  PyDict [("quarter", PyStr ("Q" +:+ str_nat i)); ("revenue", PyInt (Z.of_nat (100 * i)))].

Definition table_doc (n : nat) : Document :=
  {| page_content := "revenue table";
     metadata := {[ "table_data" := PyList (map row (seq 1 n)) ]} |}.

Definition search_tables (n : nat) (query : pyval) (content_types : list string)
    (k : nat) : res (gmap string (list Document)) :=
  Ok {[ "table" := [table_doc n] ]}.

(** *** Scenarios *)

Definition six_insights : string :=
  json_array ["Revenue grew"; "Costs fell"; "Margin rose"; "Q4 peaked"; "Churn eased";
              "Cash improved"].

Definition bar_chart : pyval := PyDict [("chart", PyStr "bar")].

(** Three structured rows in the index, a generator that answers a JSON
    array of six strings, a chart generator that answers a chart. *)
Definition normal : Services :=
  services (search_tables 3) (fun _ _ => Ok six_insights) (fun _ _ => Ok bar_chart).

(** An index with nothing in it. *)
Definition empty_index : Services :=
  services (fun _ _ _ => Ok ∅) (fun _ _ => Ok six_insights) (fun _ _ => Ok bar_chart).

(** An index that cannot be reached, and a generator that answers prose. *)
Definition offline_index : Services :=
  services (fun _ _ _ => Raise "index offline")
    (fun _ _ => Ok "Nothing to report.") (fun _ _ => Ok bar_chart).

(** A chart generator that raises. *)
Definition broken_charts : Services :=
  services (search_tables 3) (fun _ _ => Ok six_insights)
    (fun _ _ => Raise "renderer offline").

(** The first configuration of a run on [query]. *)
Definition start {svc : Services} (w : World) (query : string) : Workflow.config :=
  (AnalyticsGraph.entry_point, AnalyticsGraph.initial_state (PyStr query) None, env0 w).

End Demo.

(** ** The rest of [langchain_server/graphs/rag_graph.py] *)

Module MultimodalRAGGraph.

Section Pages.
Context {svc : Services}.

(** [doc.metadata.get("page_number", "Unknown")], as an f-string shows
    it. *)
Definition page_of (doc : Document) : string :=
  str (default (PyStr "Unknown") (metadata doc !! "page_number")).

End Pages.

Import RagGraph.

Definition set_retrieved_docs (v : gmap string (list Document)) (s : RAGState) : RAGState :=
  {| query := query s; retrieved_docs := v; context := context s;
     response := response s; chart_data := chart_data s; metadata := metadata s |}.

Definition set_context (v : string) (s : RAGState) : RAGState :=
  {| query := query s; retrieved_docs := retrieved_docs s; context := v;
     response := response s; chart_data := chart_data s; metadata := metadata s |}.

Definition set_response (v : string) (s : RAGState) : RAGState :=
  {| query := query s; retrieved_docs := retrieved_docs s; context := context s;
     response := v; chart_data := chart_data s; metadata := metadata s |}.

Definition set_chart_data (v : pyval) (s : RAGState) : RAGState :=
  {| query := query s; retrieved_docs := retrieved_docs s; context := context s;
     response := response s; chart_data := v; metadata := metadata s |}.

(** The dict [process_query] returns: its four keys. *)
Record QueryResult : Type := {
  result_response : string;
  result_chart_data : pyval;
  result_sources : list string;
  result_metadata : gmap string pyval
}.

(** The stages, by the names [_build_graph] adds them under. *)
Module Node.
Inductive t : Type :=
  | analyze_query
  | retrieve
  | generate_context
  | generate_response
  | generate_charts
  | finalize.
End Node.

Section WithServices.
Context {svc : Services} {lib : Library}.

(** The content types as the retrieval index takes them: the list of
    texts that AnalyzeQuery stores.  Another value is none the index's
    interface has; the stage is not run on one. *)
Fixpoint content_types_of (items : list pyval) : res (list string) :=
  match items with
  | [] => Ok []
  | PyStr s :: rest =>
      match content_types_of rest with
      | Ok more => Ok (s :: more)
      | Raise msg => Raise msg
      end
  | v :: _ => Raise ("content type of type '" +:+ type_name v +:+ "'")
  end.

Definition _retrieve_documents (state : RAGState) : M RAGState :=
  try_except
    (content_types <-
       lift match metadata state !! "content_types" with
            | Some (PyList content_types) => content_types_of content_types
            | Some v => Raise ("content types of type '" +:+ type_name v +:+ "'")
            | None => Raise "'content_types'"
            end;;
     retrieved_docs <- call_search (query state) content_types 5;;
     ret (set_retrieved_docs retrieved_docs state))
    (fun e => ret (set_retrieved_docs ∅ state)).

Definition _generate_context (state : RAGState) : M RAGState :=
  let context_parts :=
    flat_map
      (fun '(content_type, docs) =>
         match docs with
         | [] => []
         | _ =>
             (nl +:+ "=== " +:+ upper content_type +:+ " CONTENT ===")
             :: flat_map
                  (fun doc =>
                     [ nl +:+ "[" +:+ title content_type +:+ " from Page "
                         +:+ page_of doc +:+ "]";
                       page_content doc ])
                  docs
         end)
      (items (retrieved_docs state)) in
  ret (set_context (join nl context_parts) state).

(** The generator formats the prompt into its own text, so the query goes
    to it as [str] shows it: itself, when it is a text. *)
Definition _generate_response (state : RAGState) : M RAGState :=
  try_except
    (response <- call_generate (str (query state)) (context state);;
     ret (set_response response state))
    (fun e =>
       ret (set_response
              "I apologize, but I encountered an error while generating the response."
              state)).

Definition _generate_charts (state : RAGState) : M RAGState :=
  if negb (truthy (default (PyBool false) (metadata state !! "requires_charts")))
  then ret (set_chart_data (PyDict []) state)
  else
    try_except
      (let table_docs := default [] (retrieved_docs state !! "table") in
       match table_docs with
       | [] => ret (set_chart_data (PyDict []) state)
       | _ =>
           chart_data <- call_chart (query state) table_docs;;
           ret (set_chart_data chart_data state)
       end)
      (fun e => ret (set_chart_data (PyDict []) state)).

Definition _finalize_response (state : RAGState) : M RAGState :=
  let sources :=
    flat_map
      (fun '(content_type, docs) =>
         map (fun doc => "Page " +:+ page_of doc +:+ " (" +:+ content_type +:+ ")") docs)
      (items (retrieved_docs state)) in
  match sources with
  | [] => ret state
  | _ =>
      ret (set_response
             (response state +:+ nl +:+ nl +:+ "**Sources:** "
              +:+ join ", " (set_to_list sources))
             state)
  end.

(** The graph [_build_graph] compiles: a chain from the entry point
    [analyze_query] to [END]. *)
Definition stage_action (n : Node.t) : RAGState -> M RAGState :=
  match n with
  | Node.analyze_query => fun state => lift (_analyze_query state)
  | Node.retrieve => _retrieve_documents
  | Node.generate_context => _generate_context
  | Node.generate_response => _generate_response
  | Node.generate_charts => _generate_charts
  | Node.finalize => _finalize_response
  end.

Definition entry_point : Node.t := Node.analyze_query.

Definition successor (n : Node.t) : option Node.t :=
  match n with
  | Node.analyze_query => Some Node.retrieve
  | Node.retrieve => Some Node.generate_context
  | Node.generate_context => Some Node.generate_response
  | Node.generate_response => Some Node.generate_charts
  | Node.generate_charts => Some Node.finalize
  | Node.finalize => None
  end.

Fixpoint run (steps : nat) (n : Node.t) (state : RAGState) : M RAGState :=
  match steps with
  | O => lift (Raise "Recursion limit of 25 reached without hitting a stop condition.")
  | S steps' =>
      state' <- stage_action n state;;
      match successor n with
      | Some n' => run steps' n' state'
      | None => ret state'
      end
  end.

Definition ainvoke (initial_state : RAGState) : M RAGState :=
  run AnalyticsGraph.recursion_limit entry_point initial_state.

Definition process_query (query : pyval) : M QueryResult :=
  let initial_state :=
    {| query := query; retrieved_docs := ∅; context := ""; response := "";
       chart_data := PyDict []; metadata := ∅ |} in
  result <- ainvoke initial_state;;
  ret {| result_response := response result;
         result_chart_data := chart_data result;
         result_sources := map fst (items (retrieved_docs result));
         result_metadata := metadata result |}.

End WithServices.
End MultimodalRAGGraph.

(** ** [langchain_server/server.py]: the runnable around the RAG graph *)

Module Server.

(** What the runnable returns: the result of the graph, or a dict with the
    one key "error". *)
Inductive reply : Type :=
  | Answer (result : MultimodalRAGGraph.QueryResult)
  | Error (error : string).

Section WithServices.
Context {svc : Services} {lib : Library}.

(** [query_dict] has no annotation, and [query_dict.get] stands before
    the [try]: a value that is no dict raises there. *)
Definition process_query_runnable (query_dict : pyval) : M reply :=
  match query_dict with
  | PyDict d =>
      let query := default (PyStr "") (dict_get d "query") in
      if negb (truthy query) then ret (Error "No query provided")
      else
        try_except
          (result <- MultimodalRAGGraph.process_query query;;
           ret (Answer result))
          (fun e => ret (Error e))
  | v => lift (Raise ("'" +:+ type_name v +:+ "' object has no attribute 'get'"))
  end.

End WithServices.
End Server.

(** ** [app/services/vector_store.py] *)

Module VectorStore.

(** The three stores of a [MultimodalVectorStoreService]. *)
Inductive store : Type :=
  | text_store
  | table_store
  | image_store.

Section WithServices.
Context {svc : Services}.

(** *** [VectorStoreService] *)

Section WithBackend.
(** [settings.VECTOR_DB_TYPE], and [self.vector_store.similarity_search]
    of a store, with the filter when one is passed on. *)
Variable VECTOR_DB_TYPE : string.
Variable backend :
  store -> pyval -> nat -> option pyval -> World -> res (list Document) * World.

(** An error of the backend whose text has "400" or "500" in it counts as
    no result; any other error is raised again. *)
Definition similarity_search (self : store) (query : pyval) (k : nat)
    (filter_dict : pyval) (w : World) : res (list Document) * World :=
  match
    if truthy filter_dict && String.eqb (lower VECTOR_DB_TYPE) "chroma"
    then backend self query k (Some filter_dict) w
    else backend self query k None w
  with
  | (Ok results, w') => (Ok results, w')
  | (Raise e, w') =>
      if str_in "400" e || str_in "500" e then (Ok [], w') else (Raise e, w')
  end.

(** *** [MultimodalVectorStoreService] *)

Definition search_multimodal (query : pyval) (content_types : list string)
    (k_per_type : nat) (w : World) : res (gmap string (list Document)) * World :=
  let results : gmap string (list Document) := ∅ in
  match
    if in_list "text" content_types
    then
      match similarity_search text_store query k_per_type PyNone w with
      | (Ok found, w') => (Ok (<["text" := found]> results), w')
      | (Raise e, w') => (Raise e, w')
      end
    else (Ok results, w)
  with
  | (Raise e, w1) => (Raise e, w1)
  | (Ok results, w1) =>
      match
        if in_list "table" content_types
        then
          match similarity_search table_store query k_per_type PyNone w1 with
          | (Ok found, w') => (Ok (<["table" := found]> results), w')
          | (Raise e, w') => (Raise e, w')
          end
        else (Ok results, w1)
      with
      | (Raise e, w2) => (Raise e, w2)
      | (Ok results, w2) =>
          if in_list "image" content_types
          then
            match similarity_search image_store query k_per_type PyNone w2 with
            | (Ok found, w') => (Ok (<["image" := found]> results), w')
            | (Raise e, w') => (Raise e, w')
            end
          else (Ok results, w2)
      end
  end.

(** The services with this vector store as their retrieval index. *)
Definition indexed : Services :=
  Build_Services World search_multimodal generate_response generate_chart_from_query
    json_loads repr float_of_str set_to_list round2 DateTime strptime datetime_ltb
    isoformat.

End WithBackend.

(** One row of [_table_to_text]: the cells that count as true, as
    "key: value", with " | " between them. *)
Definition row_text (row : pyval) : res string :=
  match row with
  | PyDict d =>
      Ok (join " | "
            (map (fun kv => kv.1 +:+ ": " +:+ str kv.2)
               (List.filter (fun kv => truthy kv.2) d)))
  | v => Raise ("'" +:+ type_name v +:+ "' object has no attribute 'items'")
  end.

Fixpoint row_texts (rows : list pyval) : res (list string) :=
  match rows with
  | [] => Ok []
  | row :: rest =>
      match row_text row with
      | Ok text =>
          match row_texts rest with
          | Ok more => Ok (text :: more)
          | Raise msg => Raise msg
          end
      | Raise msg => Raise msg
      end
  end.

(** [table_data] is annotated as a list of dicts and arrives unchecked:
    a value that counts as false gives the empty text, another value that
    is no list raises where the first row is taken. *)
Definition _table_to_text (table_data : pyval) : res string :=
  if negb (truthy table_data) then Ok ""
  else
    match table_data with
    | PyList ((first :: _) as rows) =>
        match keys first with
        | Ok headers =>
            let text_parts := ["Table with columns: " +:+ join ", " headers] in
            match row_texts (take 10 rows) with
            | Ok rows => Ok (join nl (text_parts ++ rows))
            | Raise msg => Raise msg
            end
        | Raise msg => Raise msg
        end
    | PyStr _ => Raise "'str' object has no attribute 'keys'"
    | PyDict _ => Raise "0"
    | v => Raise ("'" +:+ type_name v +:+ "' object is not subscriptable")
    end.

(** [table[key]] for a table that should be a dict. *)
Definition field (table : pyval) (key : string) : res pyval :=
  match table with
  | PyDict d =>
      match dict_get d key with
      | Some v => Ok v
      | None => Raise ("'" +:+ key +:+ "'")
      end
  | PyList _ => Raise "list indices must be integers or slices, not str"
  | PyStr _ => Raise "string indices must be integers, not 'str'"
  | v => Raise ("'" +:+ type_name v +:+ "' object is not subscriptable")
  end.

Definition table_document (table : pyval) : res Document :=
  match field table "content" with
  | Raise msg => Raise msg
  | Ok content =>
      match _table_to_text content with
      | Raise msg => Raise msg
      | Ok table_text =>
          match field table "page_number" with
          | Raise msg => Raise msg
          | Ok page_number =>
              match field table "table_id" with
              | Raise msg => Raise msg
              | Ok table_id =>
                  match field table "extraction_method" with
                  | Raise msg => Raise msg
                  | Ok extraction_method =>
                      Ok {| page_content := table_text;
                            metadata :=
                              {[ "page_number" := page_number;
                                 "content_type" := PyStr "table";
                                 "table_id" := table_id;
                                 "extraction_method" := extraction_method;
                                 "source" := PyStr "pdf_table" ]} |}
                  end
              end
          end
      end
  end.

Fixpoint _process_tables_for_vectorization (tables : list pyval) : res (list Document) :=
  match tables with
  | [] => Ok []
  | table :: rest =>
      match table_document table with
      | Ok doc =>
          match _process_tables_for_vectorization rest with
          | Ok documents => Ok (doc :: documents)
          | Raise msg => Raise msg
          end
      | Raise msg => Raise msg
      end
  end.

End WithServices.
End VectorStore.

(** ** [app/utils/chart_generator.py] *)

Module ChartGenerator.

(** [s.split()]: the pieces of [s] between runs of blanks.  [cur] is the
    piece being read. *)
Fixpoint words_from (cur s : string) : list string :=
  match s with
  | EmptyString => match cur with EmptyString => [] | _ => [cur] end
  | String c r =>
      if isspace c
      then match cur with
           | EmptyString => words_from EmptyString r
           | _ => cur :: words_from EmptyString r
           end
      else words_from (cur +:+ String c EmptyString) r
  end.

Definition words (s : string) : list string := words_from EmptyString s.

(** [float(n)] for a count. *)
Fixpoint float_of_nat (n : nat) : float :=
  match n with
  | O => 0%float
  | S n' => (float_of_nat n' + 1)%float
  end.

Section WithServices.
Context {svc : Services} {lib : Library}.

(** One [part] of a row: a "key: value" cell is stored under its key, as
    the text it is. *)
Definition parse_cell (key_value_pairs : list (string * pyval)) (part : string)
  : res (list (string * pyval)) :=
  if str_in ":" part then
    match split1 ":" part with
    | [key; value] => Ok (dict_set key_value_pairs (strip key) (PyStr (strip value)))
    | _ => Raise "not enough values to unpack (expected 2, got 1)"
    end
  else Ok key_value_pairs.

Fixpoint parse_cells (key_value_pairs : list (string * pyval)) (parts : list string)
  : res (list (string * pyval)) :=
  match parts with
  | [] => Ok key_value_pairs
  | part :: rest =>
      match parse_cell key_value_pairs part with
      | Ok key_value_pairs' => parse_cells key_value_pairs' rest
      | Raise msg => Raise msg
      end
  end.

(** The body of the loop over lines: a line with a "|" whose first part
    has a ":" gives a row. *)
Definition parse_line (line : string) : list pyval :=
  if str_in "|" line then
    let parts := map strip (split "|" line) in
    if (2 <=? length parts)%nat then
      match parts with
      | first :: _ =>
          if str_in ":" first then
            match parse_cells [] parts with
            | Ok [] => []
            | Ok key_value_pairs => [PyDict key_value_pairs]
            | Raise _ => []
            end
          else []
      | [] => []
      end
    else []
  else [].

Definition _parse_table_content (content : string) : list pyval :=
  fold_left (fun data line => (data ++ parse_line line)%list) (split nl content) [].

(** [all_data.extend(data)]: the items of a list, the characters of a
    text, the keys of a dict; another value cannot be iterated. *)
Definition extend (all_data : list pyval) (data : pyval) : res (list pyval) :=
  match data with
  | PyList items => Ok (all_data ++ items)%list
  | PyStr text =>
      Ok (all_data
          ++ map (fun c => PyStr (String c EmptyString)) (list_ascii_of_string text))%list
  | PyDict d => Ok (all_data ++ map (fun kv => PyStr kv.1) d)%list
  | v => Raise ("'" +:+ type_name v +:+ "' object is not iterable")
  end.

Definition _extract_table_data (table_docs : list Document) : list pyval :=
  fold_left
    (fun all_data doc =>
       let data :=
         match metadata doc !! "table_data" with
         | Some data => data
         | None => PyList (_parse_table_content (page_content doc))
         end in
       if truthy data
       then match extend all_data data with
            | Ok all_data' => all_data'
            | Raise _ => all_data
            end
       else all_data)
    table_docs [].

(** [float(str(value).replace(',', '').replace('$', '').replace('%', ''))]. *)
Definition number_of (value : pyval) : option float :=
  float_of_str (remove_char "%" (remove_char "$" (remove_char "," (str value)))).

(** The counts of one column over the rows: the values that are numbers,
    and the values that are not [None]. *)
Fixpoint tally (column : string) (rows : list pyval) : res (nat * nat) :=
  match rows with
  | [] => Ok (0, 0)%nat
  | PyDict d :: rest =>
      match tally column rest with
      | Ok (numeric_count, total_count) =>
          match dict_get d column with
          | None | Some PyNone => Ok (numeric_count, total_count)
          | Some value =>
              Ok (match number_of value with
                  | Some _ => S numeric_count
                  | None => numeric_count
                  end, S total_count)
          end
      | Raise msg => Raise msg
      end
  | v :: _ => Raise ("'" +:+ type_name v +:+ "' object has no attribute 'get'")
  end.

Fixpoint numeric_among (columns : list string) (rows : list pyval) : res (list string) :=
  match columns with
  | [] => Ok []
  | column :: rest =>
      match tally column rows with
      | Ok (numeric_count, total_count) =>
          match numeric_among rest rows with
          | Ok more =>
              Ok (if (0 <? total_count)%nat
                     && PrimFloat.ltb 0.7 (float_of_nat numeric_count / float_of_nat total_count)
                  then column :: more else more)
          | Raise msg => Raise msg
          end
      | Raise msg => Raise msg
      end
  end.

Definition _identify_numeric_columns (data : list pyval) : res (list string) :=
  match data with
  | [] => Ok []
  | first :: _ =>
      match keys first with
      | Ok columns => numeric_among columns (take 10 data)
      | Raise msg => Raise msg
      end
  end.

Definition _generate_chart_title (query chart_type : string) : string :=
  let words := words query in
  let key_words :=
    List.filter
      (fun word =>
         (3 <? String.length word)%nat
         && negb (in_list (lower word)
                    ["what"; "show"; "tell"; "about"; "the"; "are"; "how"; "can"; "you"]))
      words in
  match key_words with
  | [] => title chart_type +:+ " Chart"
  | _ => title chart_type +:+ " Chart: " +:+ join " " (take 4 key_words)
  end.

Definition _analyze_query_for_chart_type (query : pyval) (data : list pyval)
  : res (list (string * pyval)) :=
  match lower_of query with
  | Raise msg => Raise msg
  | Ok query_lower =>
      match data with
      | [] => Ok [("chart_type", PyStr "bar"); ("title", PyStr "Data Visualization")]
      | first :: _ =>
          match keys first with
          | Raise msg => Raise msg
          | Ok columns =>
              match _identify_numeric_columns data with
              | Raise msg => Raise msg
              | Ok numeric_columns =>
                  let chart_type :=
                    if any_in ["trend"; "over time"; "timeline"; "progression"] query_lower
                    then "line"
                    else if any_in ["distribution"; "frequency"] query_lower
                    then "histogram"
                    else if any_in ["relationship"; "correlation"] query_lower
                    then "scatter"
                    else if any_in ["percentage"; "proportion"; "share"] query_lower
                    then "pie"
                    else "bar" in
                  let x_axis :=
                    match columns with
                    | x :: _ => PyStr x
                    | [] => PyNone
                    end in
                  let y_axis :=
                    match numeric_columns with
                    | y :: _ => PyStr y
                    | [] =>
                        match columns with
                        | _ :: y :: _ => PyStr y
                        | _ => PyNone
                        end
                    end in
                  Ok [ ("chart_type", PyStr chart_type);
                       ("x_axis", x_axis);
                       ("y_axis", y_axis);
                       ("title", PyStr (_generate_chart_title (str query) chart_type));
                       ("description", PyStr ("Chart showing " +:+ str query)) ]
              end
          end
      end
  end.

(** [_create_chart] and [_get_data_summary] are pandas and plotly at work:
    they are taken as they come. *)
Section WithPlotting.
Variable _create_chart : list pyval -> pyval -> World -> res pyval * World.
Variable _get_data_summary : list pyval -> res pyval.

Definition generate_chart_from_query (query : pyval) (table_docs : list Document)
    (w : World) : res pyval * World :=
  let table_data := _extract_table_data table_docs in
  match table_data with
  | [] => (Ok (PyDict []), w)
  | _ =>
      match _analyze_query_for_chart_type query table_data with
      | Raise _ => (Ok (PyDict []), w)
      | Ok chart_config =>
          match _create_chart table_data (PyDict chart_config) w with
          | (Raise _, w') => (Ok (PyDict []), w')
          | (Ok chart, w') =>
              match _get_data_summary table_data with
              | Raise _ => (Ok (PyDict []), w')
              | Ok data_summary =>
                  (Ok (PyDict [ ("chart", chart);
                                ("config", PyDict chart_config);
                                ("data_summary", data_summary) ]), w')
              end
          end
      end
  end.

(** The services with this chart generator as theirs. *)
Definition drawing : Services :=
  Build_Services World search_multimodal generate_response generate_chart_from_query
    json_loads repr float_of_str set_to_list round2 DateTime strptime datetime_ltb
    isoformat.

End WithPlotting.
End WithServices.
End ChartGenerator.

(** ** Counting collaborator calls *)

Module Calls.
Import AnalyticsGraph.

Section WithServices.
Context {svc : Services}.

(** How many of the events are calls of the retrieval index, of the text
    generator, of the chart generator. *)
Definition searches (evs : list event) : nat :=
  length (List.filter (fun ev => match ev with Search _ _ _ => true | _ => false end) evs).

Definition generations (evs : list event) : nat :=
  length (List.filter (fun ev => match ev with Generate _ _ => true | _ => false end) evs).

Definition charts_drawn (evs : list event) : nat :=
  length (List.filter (fun ev => match ev with Chart _ _ => true | _ => false end) evs).

(** [m] adds at most [s] searches, [g] generations and [c] charts to the
    event list, and at most [t] calls in all. *)
Definition spends (s g c t : nat) {A} (m : M A) : Prop :=
  forall env,
    exists evs,
      calls (m env).2 = (calls env ++ evs)%list
      /\ (searches evs <= s)%nat
      /\ (generations evs <= g)%nat
      /\ (charts_drawn evs <= c)%nat
      /\ (searches evs + generations evs + charts_drawn evs <= t)%nat.

(** What the stages from node [n] to the end of a run may spend. *)
Definition allowance (n : node) : nat * nat * nat * nat :=
  match n with
  | classify_query | gather_data => (2, 3, 1, 5)
  | process_data => (1, 3, 1, 4)
  | generate_insights => (0, 2, 1, 3)
  | create_visualizations => (0, 1, 1, 2)
  | formulate_recommendations => (0, 1, 0, 1)
  | calculate_confidence | handle_error => (0, 0, 0, 0)
  end%nat.

End WithServices.
End Calls.

(** ** Asking the generator *)

Module Asking.
Section WithServices.
Context {svc : Services}.

(** [m] asks the generator once, with [context] and a prompt that has
    [piece] in it, and returns its answer; when it raises, it has asked
    once or not at all. *)
Definition asks_once (context piece : string) (m : M string) : Prop :=
  forall env,
    match m env with
    | (Ok analysis, env') =>
        exists prompt,
          generate_response prompt context (world env) = (Ok analysis, world env')
          /\ calls env' = (calls env ++ [Generate prompt context])%list
          /\ embeds piece prompt
    | (Raise e, env') =>
        calls env' = calls env
        \/ exists prompt, calls env' = (calls env ++ [Generate prompt context])%list
    end.

End WithServices.
End Asking.

(** ** Time series and trends: the notions of their properties *)

Module Series.
Section WithServices.
Context {svc : Services}.

(** [a] is not after [b] in a series. *)
Definition not_after (a b : DateTime * pyval) : Prop := datetime_ltb b.1 a.1 = false.

(** A column whose trend cannot be computed: it has two values or more,
    the first is zero and the last is another number. *)
Definition starts_at_zero (values : list float) : bool :=
  match values with
  | first :: (_ :: _) as rest =>
      PrimFloat.eqb first 0
      && (PrimFloat.ltb first (List.last rest first)
          || PrimFloat.ltb (List.last rest first) first)
  | _ => false
  end.

(** A record with one date column, [col], and under it a text that
    [strptime] reads in one of the four formats. *)
Definition dated_under (col : string) (record : pyval) : Prop :=
  exists d text,
    record = PyDict d
    /\ List.filter (fun key => any_in ["date"; "time"; "year"; "month"; "day"] (lower key))
         (map fst d) = [col]
    /\ dict_get d col = Some (PyStr text)
    /\ is_Some (AnalyticsService.parse_date text ["%Y-%m-%d"; "%m/%d/%Y"; "%Y"; "%m/%Y"]).

End WithServices.
End Series.

Module RagRun.
Import RagGraph MultimodalRAGGraph.
Section WithServices.
Context {svc : Services} {lib : Library}.

(** The content types AnalyzeQuery selects for a query text, in the order
    it lists them. *)
Definition requested (query : string) : list string :=
  (["text"]
   ++ (if any_in ["table"; "data"; "statistics"; "numbers"; "trend"; "chart"] (lower query)
       then ["table"] else [])
   ++ (if any_in ["image"; "figure"; "diagram"; "photo"; "picture"] (lower query)
       then ["image"] else []))%list.

(** The state a run on [query] starts from, and the state AnalyzeQuery
    makes of it. *)
Definition initial (query : pyval) : RAGState :=
  {| query := query; retrieved_docs := ∅; context := ""; response := "";
     chart_data := PyDict []; metadata := ∅ |}.

Definition analyzed (query : string) : RAGState :=
  {| query := PyStr query; retrieved_docs := ∅; context := ""; response := "";
     chart_data := PyDict [];
     metadata :=
       {[ "content_types" := PyList (map PyStr (requested query));
          "requires_charts" := PyBool (RagSpec.requires_charts (lower query)) ]} |}.

(** The sources [_finalize_response] lists for the retrieved documents. *)
Definition sources_of (docs : gmap string (list Document)) : list string :=
  flat_map
    (fun '(content_type, docs) =>
       map (fun doc => "Page " +:+ page_of doc +:+ " (" +:+ content_type +:+ ")") docs)
    (items docs).

(** One source for each retrieved document, type by type in the order of
    the keys. *)
Definition source_per_document (docs : gmap string (list Document)) : list string :=
  flat_map
    (fun '(content_type, docs) =>
       map (fun doc => "Page " +:+ page_of doc +:+ " (" +:+ content_type +:+ ")") docs)
    (map_to_list docs).

(** [list(set(l))] as a set gives it: the elements of [l], each once. *)
Definition lists_a_set (f : list string -> list string) : Prop :=
  forall l, NoDup (f l) /\ forall x, x ∈ f l <-> x ∈ l.

(** The context [_generate_context] builds from the retrieved documents. *)
Definition context_of (docs : gmap string (list Document)) : string :=
  join nl
    (flat_map
       (fun '(content_type, docs) =>
          match docs with
          | [] => []
          | _ =>
              (nl +:+ "=== " +:+ upper content_type +:+ " CONTENT ===")
              :: flat_map
                   (fun doc =>
                      [ nl +:+ "[" +:+ title content_type +:+ " from Page "
                          +:+ page_of doc +:+ "]";
                        page_content doc ])
                   docs
          end)
       (items docs)).

(** What a failed generation is answered with. *)
Definition apology : string :=
  "I apologize, but I encountered an error while generating the response.".

(** The response with its sources, as [_finalize_response] leaves it. *)
Definition with_sources (answer : string) (docs : gmap string (list Document)) : string :=
  match sources_of docs with
  | [] => answer
  | sources => answer +:+ nl +:+ nl +:+ "**Sources:** " +:+ join ", " (set_to_list sources)
  end.

(** Whether [_generate_charts] calls the chart generator. *)
Definition draws (query : string) (docs : gmap string (list Document)) : bool :=
  RagSpec.requires_charts (lower query)
  && match default [] (docs !! "table") with [] => false | _ => true end.

(** The documents a run on [query] works with: what the search returns,
    or none when it raises. *)
Definition found (query : string) (env : Env) : gmap string (list Document) :=
  match (search_multimodal (PyStr query) (requested query) 5 (world env)).1 with
  | Ok docs => docs
  | Raise _ => ∅
  end.

(** The answer a run on [query] builds on: what the generator says when
    asked after the search, or the apology when it raises. *)
Definition answered (query : string) (env : Env) : string :=
  match
    (generate_response query (context_of (found query env))
       (search_multimodal (PyStr query) (requested query) 5 (world env)).2).1
  with
  | Ok answer => answer
  | Raise _ => apology
  end.

(** A run on a query text, stage by stage, with the handlers of the stages
    resolved. *)
Definition pipeline (query : string) : M QueryResult :=
  fun env =>
    let '(found, env1) := call_search (PyStr query) (requested query) 5 env in
    let docs := match found with Ok docs => docs | Raise _ => ∅ end in
    let '(said, env2) := call_generate query (context_of docs) env1 in
    let answer := match said with Ok answer => answer | Raise _ => apology end in
    let '(drawn, env3) :=
      if draws query docs
      then call_chart (PyStr query) (default [] (docs !! "table")) env2
      else (Ok (PyDict []), env2) in
    (Ok {| result_response := with_sources answer docs;
           result_chart_data := match drawn with Ok chart => chart | Raise _ => PyDict [] end;
           result_sources := map fst (items docs);
           result_metadata := RagGraph.metadata (analyzed query) |},
     env3).

End WithServices.
End RagRun.

(** ** Tables as text and back *)

Module TableText.
Section WithServices.
Context {svc : Services}.

(** No blank at either end. *)
Definition tidy (s : string) : bool :=
  String.eqb (lstrip s) s && String.eqb (rstrip s) s.

(** A cell that [_table_to_text] writes and [_parse_table_content] reads
    back: a text that is not empty under a key, neither with a blank at an
    end, a "|" or a line feed in it, and no ":" in the key. *)
Definition plain_cell (cell : string * pyval) : bool :=
  match cell.2 with
  | PyStr text =>
      negb (String.eqb text "") && tidy cell.1 && tidy text
      && negb (str_in "|" cell.1) && negb (str_in ":" cell.1) && negb (str_in nl cell.1)
      && negb (str_in "|" text) && negb (str_in nl text)
  | _ => false
  end.

(** A row of two plain cells or more, under different keys. *)
Definition plain_row (row : list (string * pyval)) : bool :=
  (2 <=? length row)%nat && forallb plain_cell row && bool_decide (NoDup (map fst row)).

(** A cell as it comes back: a text that [float] reads, once "," and "$"
    are gone, comes back as that number. *)
Definition read_back (cell : string * pyval) : string * pyval :=
  match cell.2 with
  | PyStr text =>
      (cell.1,
       match float_of_str (remove_char "$" (remove_char "," text)) with
       | Some f => PyFloat f
       | None => PyStr text
       end)
  | _ => cell
  end.

(** A cell as [_table_to_text] writes it. *)
Definition cell_text (cell : string * pyval) : string := cell.1 +:+ ": " +:+ str cell.2.

End WithServices.
End TableText.

(** ** More test doubles

    A library for ASCII text, a calendar of years, and a backend of the
    vector store that finds nothing. *)

Module Sample.

(** [c.upper()] for an ASCII character. *)
Definition upper_char (c : ascii) : ascii :=
  let n := nat_of_ascii c in
  if ((97 <=? n) && (n <=? 122))%nat then ascii_of_nat (n - 32)%nat else c.

Fixpoint ascii_upper (s : string) : string :=
  match s with
  | EmptyString => EmptyString
  | String c r => String (upper_char c) (ascii_upper r)
  end.

Definition is_letter (c : ascii) : bool :=
  let n := nat_of_ascii c in
  (((65 <=? n) && (n <=? 90)) || ((97 <=? n) && (n <=? 122)))%nat.

(** [s.title()] for ASCII text: a letter after a letter is lowered, any
    other letter is raised. *)
Fixpoint title_from (inside : bool) (s : string) : string :=
  match s with
  | EmptyString => EmptyString
  | String c r =>
      String (if is_letter c then (if inside then lower_char c else upper_char c) else c)
        (title_from (is_letter c) r)
  end.

Definition ascii_title (s : string) : string := title_from false s.

Definition library : Library :=
  {| upper := ascii_upper;
     title := ascii_title;
     json_dumps := fun _ v => "<" +:+ type_name v +:+ ">";
     items := map_to_list;
     items_entries := fun d => Permutation_refl (map_to_list d) |}.

(** [datetime.strptime(text, "%Y")] on four digits, as the year; every
    other format is refused. *)
Definition year (text fmt : string) : option nat :=
  if String.eqb fmt "%Y" && (String.length text =? 4)%nat
  then Nat.of_uint <$> NilEmpty.uint_of_string text
  else None.

(** The services of [Demo] with this calendar. *)
Definition yearly : Services :=
  {| World := unit;
     search_multimodal := fun query content_types k w => (Ok ∅, w);
     generate_response := fun prompt context w => (Ok Demo.six_insights, w);
     generate_chart_from_query := fun query docs w => (Ok Demo.bar_chart, w);
     json_loads := Demo.read_json;
     repr := fun v => "<" +:+ type_name v +:+ ">";
     float_of_str := fun _ => None;
     set_to_list := remove_dups;
     round2 := fun x => x;
     DateTime := nat;
     strptime := year;
     datetime_ltb := Nat.ltb;
     isoformat := fun _ => "1970-01-01T00:00:00" |}.

Definition record (year revenue : string) : pyval :=
  PyDict [("year", PyStr year); ("revenue", PyStr revenue)].

(** Two records, the later year first. *)
Definition two_years : list pyval := [record "2022" "120"; record "2021" "100"].

(** A state before FinalizeResponse: an answer, and two table documents
    without a page number. *)
Definition answered_twice : RagGraph.RAGState :=
  {| RagGraph.query := PyStr "list the tables";
     RagGraph.retrieved_docs := {[ "table" := [Demo.table_doc 1; Demo.table_doc 2] ]};
     RagGraph.context := "";
     RagGraph.response := "Two tables.";
     RagGraph.chart_data := PyDict [];
     RagGraph.metadata := ∅ |}.

(** A backend with empty stores. *)
Definition nothing_stored {svc : Services} (self : VectorStore.store) (query : pyval)
    (k : nat) (filter_dict : option pyval) (w : World) : res (list Document) * World :=
  (Ok [], w).

(** One table as [pdf_processor] hands it over, with two rows. *)
Definition quarters : pyval :=
  PyDict [ ("content",
            PyList [ PyDict [("quarter", PyStr "Q1"); ("revenue", PyStr "100")];
                     PyDict [("quarter", PyStr "Q2"); ("revenue", PyStr "120")] ]);
           ("page_number", PyInt 3);
           ("table_id", PyStr "table_3_0");
           ("extraction_method", PyStr "pdfplumber") ].

End Sample.


(* ================================================================== *)
(** * Properties *)

Import AnalyticsGraph Workflow.

(** ** Strings *)

Lemma append_assoc (a b c : string) : (a +:+ b) +:+ c = a +:+ (b +:+ c).
Proof.
  induction a as [|x a IH]; [reflexivity|].
  change (String x ((a +:+ b) +:+ c) = String x (a +:+ (b +:+ c))). now f_equal.
Qed.

Lemma embeds_refl piece : embeds piece piece.
Proof.
  exists "", "". change (piece = piece +:+ "").
  induction piece as [|x p IH]; [reflexivity|].
  change (String x p = String x (p +:+ "")). now f_equal.
Qed.

Lemma embeds_head piece rest : embeds piece (piece +:+ rest).
Proof. exists "", rest. reflexivity. Qed.

Lemma embeds_app_r piece a b : embeds piece b -> embeds piece (a +:+ b).
Proof.
  intros (pre & post & ->). exists (a +:+ pre), post. now rewrite append_assoc.
Qed.

Lemma embeds_app_l piece a b : embeds piece a -> embeds piece (a +:+ b).
Proof.
  intros (pre & post & ->). exists pre, (post +:+ b). now rewrite !append_assoc.
Qed.

Lemma startswith_append p s :
  startswith p s = true -> exists post, s = p +:+ post.
Proof.
  revert s. induction p as [|a p IH]; intros s Hs.
  - exists s. reflexivity.
  - destruct s as [|b s]; [discriminate|]. cbn in Hs.
    apply andb_true_iff in Hs. destruct Hs as [Hab Hs].
    apply Ascii.eqb_eq in Hab. subst b.
    destruct (IH _ Hs) as [post ->]. exists post. reflexivity.
Qed.

Lemma str_in_embeds piece text : str_in piece text = true -> embeds piece text.
Proof.
  induction text as [|c text IH]; intros Hin.
  - cbn in Hin. rewrite orb_false_r in Hin.
    destruct (startswith_append _ _ Hin) as [post ->]. apply embeds_head.
  - cbn [str_in] in Hin. apply orb_true_iff in Hin. destruct Hin as [Hs|Hin].
    + destruct (startswith_append _ _ Hs) as [post ->]. apply embeds_head.
    + apply (embeds_app_r piece (String c "") text). auto.
Qed.

Lemma startswith_refl p post : startswith p (p +:+ post) = true.
Proof.
  induction p as [|a p IH]; [reflexivity|].
  change (Ascii.eqb a a && startswith p (p +:+ post) = true).
  now rewrite Ascii.eqb_refl, IH.
Qed.

(** [str_in] is Python's [in] on strings: [needle] is in [hay] exactly
    when [hay] is [pre + needle + post]. *)
Lemma str_in_spec needle hay : str_in needle hay = true <-> embeds needle hay.
Proof.
  split; [apply str_in_embeds|].
  intros (pre & post & ->). induction pre as [|c pre IH].
  - change (str_in needle (needle +:+ post) = true).
    destruct (needle +:+ post) eqn:E; cbn [str_in]; rewrite <- E, startswith_refl;
      reflexivity.
  - change (str_in needle (String c (pre +:+ needle +:+ post)) = true).
    cbn [str_in]. rewrite IH. apply orb_true_r.
Qed.

(** The string functions on small inputs. *)
Example split_sentences :
  split ". " "Sales grew. Costs fell.  Done" = ["Sales grew"; "Costs fell"; " Done"].
Proof. reflexivity. Qed.

Example split_row : split "|" "a: 1|b: x|" = ["a: 1"; "b: x"; ""].
Proof. reflexivity. Qed.

Example split1_cell : split1 ":" "when: 10:30" = ["when"; " 10:30"].
Proof. reflexivity. Qed.

Example strip_blanks : strip "  a b  " = "a b".
Proof. reflexivity. Qed.

Example lower_mixed : lower "Trend OVER Time" = "trend over time".
Proof. reflexivity. Qed.

Example join_insights : join "; " ["a"; "b"; "c"] = "a; b; c".
Proof. reflexivity. Qed.

Example join_values_type_error :
  join_values "; " [PyStr "a"; PyInt 3]
  = Raise "sequence item 1: expected str instance, int found".
Proof. reflexivity. Qed.

(** Finds [piece] among the lines and the parts of a line that a template
    is joined from. *)
Ltac find_piece :=
  solve
    [ apply embeds_refl
    | apply embeds_head
    | apply embeds_app_l; find_piece
    | apply embeds_app_r; find_piece ].

(** ** The classifier and AnalyzeQuery *)

(** C5.  The query classifier is a function of the lower-cased query text
    alone: it is the first-match search through the keyword sets in the
    order trend_analysis, comparison, summary, prediction, with default
    general.  Two queries with the same lower-cased text get the same
    analysis type.  The query "trend over time vs last year" contains the
    comparison keyword "vs" and is still classified trend_analysis, the
    trend keywords being tested first. *)
Theorem classify_query_type_first_match :
  (forall query : string,
     AnalyticsService.classify_query_type (PyStr query)
     = Ok (ClassifierSpec.first_match ClassifierSpec.keyword_rules "general"
             (lower query)))
  /\ (forall q1 q2 : string,
        lower q1 = lower q2 ->
        AnalyticsService.classify_query_type (PyStr q1)
        = AnalyticsService.classify_query_type (PyStr q2))
  /\ any_in ["compare"; "vs"; "versus"; "difference"; "between"]
            (lower "trend over time vs last year") = true
  /\ AnalyticsService.classify_query_type (PyStr "trend over time vs last year")
     = Ok "trend_analysis".
Proof.
  split; [| split; [| split]].
  - intros query. unfold AnalyticsService.classify_query_type. cbn.
    repeat match goal with |- context [if ?b then _ else _] => destruct b end;
      reflexivity.
  - intros q1 q2 Hlow. unfold AnalyticsService.classify_query_type.
    cbn [lower_of]. now rewrite Hlow.
  - vm_compute. reflexivity.
  - vm_compute. reflexivity.
Qed.

(** C9.  AnalyzeQuery reads the query and nothing else.  On a query text
    it returns; the content types it selects are text, table exactly when
    the lower-cased query has one of the table keywords, and image exactly
    when it has one of the image keywords; [requires_charts] is true
    exactly when it has one of the chart keywords.  The other fields of the
    state stay as they are, and two states with the same query text get the
    same metadata. *)
Theorem analyze_query_selection :
  (forall state query,
     RagGraph.query state = PyStr query ->
     exists state' content_types,
       RagGraph._analyze_query state = Ok state'
       /\ RagGraph.metadata state' !! "content_types"
          = Some (PyList (map PyStr content_types))
       /\ list_to_set content_types = RagSpec.content_types (lower query)
       /\ NoDup content_types
       /\ (forall t,
             t ∈ content_types
             <-> t = "text"
                 \/ (t = "table"
                     /\ any_in ["table"; "data"; "statistics"; "numbers"; "trend"; "chart"]
                          (lower query) = true)
                 \/ (t = "image"
                     /\ any_in ["image"; "figure"; "diagram"; "photo"; "picture"]
                          (lower query) = true))
       /\ RagGraph.metadata state' !! "requires_charts"
          = Some (PyBool (RagSpec.requires_charts (lower query)))
       /\ RagGraph.query state' = RagGraph.query state
       /\ RagGraph.retrieved_docs state' = RagGraph.retrieved_docs state
       /\ RagGraph.context state' = RagGraph.context state
       /\ RagGraph.response state' = RagGraph.response state
       /\ RagGraph.chart_data state' = RagGraph.chart_data state)
  /\ (forall state1 state2 query,
        RagGraph.query state1 = PyStr query ->
        RagGraph.query state2 = PyStr query ->
        exists state1' state2',
          RagGraph._analyze_query state1 = Ok state1'
          /\ RagGraph._analyze_query state2 = Ok state2'
          /\ RagGraph.metadata state1' = RagGraph.metadata state2').
Proof.
  split.
  - intros state query Hq. unfold RagGraph._analyze_query, RagSpec.content_types,
      RagSpec.requires_charts.
    rewrite Hq. cbn [lower_of]. cbv zeta.
    destruct (any_in ["table"; "data"; "statistics"; "numbers"; "trend"; "chart"] _),
      (any_in ["image"; "figure"; "diagram"; "photo"; "picture"] _);
      eexists _, _; (split; [reflexivity|]);
      cbn [RagGraph.metadata RagGraph.query RagGraph.retrieved_docs RagGraph.response
             RagGraph.context RagGraph.chart_data];
      (split; [apply lookup_insert_eq|]);
      (split; [(vm_compute; reflexivity)|]);
      (split; [(cbn [app]; compute_done)|]);
      (split; [(intros t; cbn [app]; rewrite !elem_of_cons, elem_of_nil;
               split; intros Hm;
               repeat match goal with
                      | H : _ \/ _ |- _ => destruct H
                      | H : _ /\ _ |- _ => destruct H
                      | H : False |- _ => destruct H
                      | H : false = true |- _ => discriminate H
                      end; subst; auto 6)|]);
      (split; [(rewrite lookup_insert_ne by discriminate; apply lookup_singleton_eq)|]);
      auto 6.
  - intros state1 state2 query H1 H2. unfold RagGraph._analyze_query.
    rewrite H1, H2. cbn [lower_of]. cbv zeta. eexists _, _.
    split; [reflexivity|]. split; reflexivity.
Qed.

(** ** The stages of the analytics workflow *)

Section Stages.
Context {svc : Services}.

(** A stage is a [try] around a computation whose last step stores one
    field, with a handler that stores the error text: it ends with a state
    whatever the computation does. *)
Lemma stage_eq {A} (m : M A) (f : A -> AnalyticsState) (h : string -> AnalyticsState) env :
  try_except (x <- m;; ret (f x)) (fun e => ret (h e)) env
  = match m env with
    | (Ok x, env') => (Ok (f x), env')
    | (Raise e, env') => (Ok (h e), env')
    end.
Proof. unfold try_except, bind, ret. destruct (m env) as [[x|e] env']; reflexivity. Qed.

Lemma classify_query_eq state env :
  _classify_query state env
  = (Ok match AnalyticsService.classify_query_type (query state) with
        | Ok analysis_type => set_analysis_type analysis_type state
        | Raise e => set_error ("Query classification failed: " +:+ e) state
        end, env).
Proof.
  unfold _classify_query. rewrite stage_eq. unfold lift.
  destruct (AnalyticsService.classify_query_type (query state)); reflexivity.
Qed.

Lemma gather_data_eq state env :
  _gather_data state env
  = match call_search (query state) (breadth (analysis_type state)).1
            (breadth (analysis_type state)).2 env with
    | (Ok search_results, env') =>
        (Ok (set_raw_data
               (AnalyticsService.extract_table_data
                  (default [] (search_results !! "table"))) state), env')
    | (Raise e, env') => (Ok (set_error ("Data gathering failed: " +:+ e) state), env')
    end.
Proof.
  unfold _gather_data, breadth.
  destruct (in_list (analysis_type state) ["trend_analysis"; "comparison"]);
    [| destruct (String.eqb (analysis_type state) "summary")];
    cbv beta iota zeta; rewrite stage_eq; reflexivity.
Qed.

Lemma process_data_eq state env :
  _process_data state env
  = match raw_data state with
    | [] => (Ok (set_processed_data no_data state), env)
    | _ =>
        match routine (analysis_type state) (query state) (raw_data state) env with
        | (Ok processed, env') => (Ok (set_processed_data processed state), env')
        | (Raise e, env') => (Ok (set_error ("Data processing failed: " +:+ e) state), env')
        end
    end.
Proof.
  unfold _process_data, routine. destruct (raw_data state) as [|d ds].
  - reflexivity.
  - rewrite stage_eq.
    destruct (String.eqb (analysis_type state) "trend_analysis"); [reflexivity|].
    destruct (String.eqb (analysis_type state) "comparison"); [reflexivity|].
    destruct (String.eqb (analysis_type state) "summary"); reflexivity.
Qed.

Lemma generate_insights_eq state env :
  _generate_insights state env
  = match
      match processed_data state !! "analysis" with
      | Some analysis => AnalyticsService.extract_insights analysis (raw_data state)
      | None => ret [PyStr "No insights could be generated from the available data."]
      end env
    with
    | (Ok found, env') => (Ok (set_insights found state), env')
    | (Raise e, env') => (Ok (set_error ("Insight generation failed: " +:+ e) state), env')
    end.
Proof. unfold _generate_insights. now rewrite stage_eq. Qed.

Lemma create_visualizations_eq state env :
  _create_visualizations state env
  = if charted state then
      match call_chart (query state) [table_document (raw_data state)] env with
      | (Ok chart_result, env') =>
          (Ok (set_charts (if truthy chart_result then chart_result else PyDict [])
                 state), env')
      | (Raise e, env') =>
          (Ok (set_error ("Visualization creation failed: " +:+ e) state), env')
      end
    else (Ok (set_charts (PyDict []) state), env).
Proof.
  unfold _create_visualizations, charted, table_document, try_except, bind, ret.
  destruct (truthy (PyList (raw_data state))
            && in_list (analysis_type state) ["trend_analysis"; "comparison"]).
  - destruct (call_chart _ _ env) as [[r|e] env']; reflexivity.
  - reflexivity.
Qed.

Lemma calculate_confidence_eq state env :
  _calculate_confidence state env
  = match len (narrative state) with
    | Ok analysis_len => (Ok (set_confidence (weighed state analysis_len) state), env)
    | Raise e => (Ok (set_error ("Confidence calculation failed: " +:+ e) state), env)
    end.
Proof.
  unfold _calculate_confidence, weighed, narrative, try_except, bind, ret, lift.
  destruct (len _); reflexivity.
Qed.

Lemma formulate_recommendations_shape state env r env' :
  _formulate_recommendations state env = (r, env') ->
  (exists found, r = Ok (set_recommendations found state))
  \/ (exists e, r = Ok (set_error ("Recommendation generation failed: " +:+ e) state)).
Proof.
  unfold _formulate_recommendations, try_except, bind, lift, ret.
  destruct (join_values _ _) as [joined|e]; [| intros [= <- <-]; eauto].
  destruct (call_generate _ _ env) as [[response|e] env'']; intros [= <- <-]; eauto.
Qed.

Lemma routine_narrative analysis_type query data env processed env' :
  routine analysis_type query data env = (Ok processed, env') ->
  exists text, processed !! "analysis" = Some (PyStr text).
Proof.
  unfold routine.
  destruct (String.eqb analysis_type "trend_analysis");
    [| destruct (String.eqb analysis_type "comparison");
       [| destruct (String.eqb analysis_type "summary")]];
    unfold _process_trend_data, _process_comparison_data, _process_summary_data,
      _process_general_data, bind, lift, ret;
    repeat case_match; intros; simplify_eq;
    eexists; apply lookup_insert_eq.
Qed.

Lemma weighed_in_unit_interval state analysis_len :
  in_unit_interval (weighed state analysis_len).
Proof.
  unfold weighed, in_unit_interval.
  destruct (50 <? length (raw_data state))%nat, (20 <? length (raw_data state))%nat,
    (200 <? analysis_len)%nat, (3 <=? length (insights state))%nat,
    (truthy (charts state)), (in_list (analysis_type state) ["trend_analysis"; "summary"]);
    vm_compute; split; reflexivity.
Qed.

Lemma weighed_score state analysis_len :
  weighed state analysis_len
  = ConfidenceSpec.score (length (raw_data state)) analysis_len (length (insights state))
      (truthy (charts state)) (analysis_type state).
Proof.
  unfold weighed, ConfidenceSpec.score.
  destruct (50 <? length (raw_data state))%nat, (20 <? length (raw_data state))%nat,
    (200 <? analysis_len)%nat, (3 <=? length (insights state))%nat,
    (truthy (charts state)), (in_list (analysis_type state) ["trend_analysis"; "summary"]);
    vm_compute; reflexivity.
Qed.

(** Every stage ends with a state. *)
Lemma node_action_total n state env :
  exists state' env', node_action n state env = (Ok state', env').
Proof.
  destruct n; cbn [node_action].
  - rewrite classify_query_eq; eauto.
  - rewrite gather_data_eq. destruct (call_search _ _ _ env) as [[]]; eauto.
  - rewrite process_data_eq. destruct (raw_data state); eauto.
    destruct (routine _ _ _ env) as [[]]; eauto.
  - rewrite generate_insights_eq. match goal with |- context [match ?m env with _ => _ end] => destruct (m env) as [[]] end; eauto.
  - rewrite create_visualizations_eq. destruct (charted state); eauto.
    destruct (call_chart _ _ env) as [[]]; eauto.
  - destruct (_formulate_recommendations state env) as [r env'] eqn:E.
    destruct (formulate_recommendations_shape _ _ _ _ E) as [[? ->]|[? ->]]; eauto.
  - rewrite calculate_confidence_eq. destruct (len _); eauto.
  - unfold _handle_error, ret. eauto.
Qed.

(** The fields a stage leaves alone. *)
Lemma node_action_frame n state env state' env' :
  node_action n state env = (Ok state', env') ->
  query state' = query state
  /\ (n <> calculate_confidence -> n <> handle_error ->
      confidence state' = confidence state)
  /\ (n <> create_visualizations -> n <> handle_error ->
      charts state' = charts state)
  /\ (n <> process_data -> n <> handle_error ->
      processed_data state' = processed_data state)
  /\ (n <> classify_query -> analysis_type state' = analysis_type state)
  /\ (n <> gather_data -> raw_data state' = raw_data state).
Proof.
  destruct n; cbn [node_action].
  - rewrite classify_query_eq. intros [= <- <-]. destruct (AnalyticsService.classify_query_type _); cbn; tauto.
  - rewrite gather_data_eq. destruct (call_search _ _ _ env) as [[]];
      intros [= <- <-]; cbn; tauto.
  - rewrite process_data_eq. destruct (raw_data state) eqn:E.
    + intros [= <- <-]; cbn; tauto.
    + destruct (routine _ _ _ env) as [[]]; intros [= <- <-]; cbn; tauto.
  - rewrite generate_insights_eq.
    match goal with |- context [match ?m env with _ => _ end] => destruct (m env) as [[]] end;
      intros [= <- <-]; cbn; tauto.
  - rewrite create_visualizations_eq. destruct (charted state).
    + destruct (call_chart _ _ env) as [[]]; intros [= <- <-]; cbn; tauto.
    + intros [= <- <-]; cbn; tauto.
  - intros E. destruct (formulate_recommendations_shape _ _ _ _ E) as [[? [= ->]]|[? [= ->]]];
      cbn; tauto.
  - rewrite calculate_confidence_eq. destruct (len _); intros [= <- <-]; cbn; tauto.
  - unfold _handle_error, ret. intros [= <- <-]; cbn; tauto.
Qed.

Lemma node_action_confidence n state env state' env' :
  in_unit_interval (confidence state) ->
  node_action n state env = (Ok state', env') ->
  in_unit_interval (confidence state').
Proof.
  intros Hc E.
  destruct (decide (n = calculate_confidence)) as [->|Hn1].
  - cbn [node_action] in E. rewrite calculate_confidence_eq in E.
    destruct (len _); injection E as <- <-; cbn; auto using weighed_in_unit_interval.
  - destruct (decide (n = handle_error)) as [->|Hn2].
    + cbn [node_action] in E. unfold _handle_error, ret in E. injection E as <- <-.
      cbn. split; reflexivity.
    + apply node_action_frame in E. destruct E as (_ & -> & _); auto.
Qed.

Lemma node_action_narrative n state env state' env' :
  narrative_is_text state ->
  node_action n state env = (Ok state', env') ->
  narrative_is_text state'.
Proof.
  intros Hn E.
  destruct (decide (n = process_data)) as [->|Hn1].
  - cbn [node_action] in E. rewrite process_data_eq in E.
    destruct (raw_data state) as [|d ds].
    + injection E as <- <-. right. eexists. reflexivity.
    + destruct (routine _ _ _ env) as [[processed|e] env''] eqn:R; injection E as <- <-.
      * right. exact (routine_narrative _ _ _ _ _ _ R).
      * exact Hn.
  - destruct (decide (n = handle_error)) as [->|Hn2].
    + cbn [node_action] in E. unfold _handle_error, ret in E. injection E as <- <-.
      right. eexists. reflexivity.
    + apply node_action_frame in E. destruct E as (_ & _ & _ & Hp & _).
      unfold narrative_is_text. rewrite Hp; auto.
Qed.

(** *** What a computation adds to the event list *)

Lemma emits_only_ret P {A} (a : A) : emits_only P (ret a).
Proof. intros env. exists []. cbn. rewrite app_nil_r. auto. Qed.

Lemma emits_only_lift P {A} (r : res A) : emits_only P (lift r).
Proof. intros env. exists []. cbn. rewrite app_nil_r. auto. Qed.

Lemma emits_only_bind P {A B} (m : M A) (k : A -> M B) :
  emits_only P m -> (forall a, emits_only P (k a)) -> emits_only P (bind m k).
Proof.
  intros Hm Hk env. unfold bind. destruct (Hm env) as (evs1 & E1 & F1).
  destruct (m env) as [[a|e] env1]; cbn in *.
  - destruct (Hk a env1) as (evs2 & E2 & F2). exists (evs1 ++ evs2)%list.
    rewrite E2, E1, app_assoc. split; [reflexivity | by apply Forall_app].
  - exists evs1. auto.
Qed.

Lemma emits_only_try P {A} (body : M A) (handler : string -> M A) :
  emits_only P body -> (forall e, emits_only P (handler e)) ->
  emits_only P (try_except body handler).
Proof.
  intros Hm Hk env. unfold try_except. destruct (Hm env) as (evs1 & E1 & F1).
  destruct (body env) as [[a|e] env1]; cbn in *.
  - exists evs1. auto.
  - destruct (Hk e env1) as (evs2 & E2 & F2). exists (evs1 ++ evs2)%list.
    rewrite E2, E1, app_assoc. split; [reflexivity | by apply Forall_app].
Qed.

Lemma emits_only_search (P : event -> Prop) query content_types k :
  P (Search query content_types k) -> emits_only P (call_search query content_types k).
Proof.
  intros HP env. exists [Search query content_types k]. unfold call_search.
  destruct (search_multimodal _ _ _ _); cbn. auto.
Qed.

Lemma emits_only_generate (P : event -> Prop) prompt context :
  P (Generate prompt context) -> emits_only P (call_generate prompt context).
Proof.
  intros HP env. exists [Generate prompt context]. unfold call_generate.
  destruct (generate_response _ _ _); cbn. auto.
Qed.

Lemma emits_only_chart (P : event -> Prop) query docs :
  P (Chart query docs) -> emits_only P (call_chart query docs).
Proof.
  intros HP env. exists [Chart query docs]. unfold call_chart.
  destruct (generate_chart_from_query _ _ _); cbn. auto.
Qed.

Ltac emits :=
  repeat first
    [ apply emits_only_ret
    | apply emits_only_lift
    | apply emits_only_bind; [| intros ?]
    | apply emits_only_try; [| intros ?]
    | apply emits_only_search; done
    | apply emits_only_generate; done
    | apply emits_only_chart; done
    | match goal with
      | |- emits_only _ (match ?x with _ => _ end) => destruct x
      end
    | progress cbv zeta ].

(** A stage calls collaborators; entering a node is the engine's doing. *)
Lemma node_action_calls n state : emits_only is_call (node_action n state).
Proof.
  destruct n; cbn [node_action];
    unfold _classify_query, _gather_data, _process_data, _generate_insights,
      _create_visualizations, _formulate_recommendations, _calculate_confidence,
      _handle_error, _process_trend_data, _process_comparison_data,
      _process_summary_data, _process_general_data,
      AnalyticsService.extract_insights, AnalyticsService.analyze_trends;
    emits.
Qed.

(** The trend routine reaches the retrieval index and nothing else. *)
Lemma process_trend_data_searches query data :
  emits_only is_search (_process_trend_data query data).
Proof.
  unfold _process_trend_data, AnalyticsService.analyze_trends. emits.
Qed.

Lemma entered_app evs1 evs2 : entered (evs1 ++ evs2) = (entered evs1 ++ entered evs2)%list.
Proof. unfold entered. apply omap_app. Qed.

Lemma entered_calls evs : Forall is_call evs -> entered evs = [].
Proof.
  induction 1 as [|ev evs Hev _ IH]; [reflexivity|].
  destruct ev; cbn in *; [contradiction | exact IH ..].
Qed.

Lemma node_action_entered n state env :
  entered (calls (node_action n state env).2) = entered (calls env).
Proof.
  destruct (node_action_calls n state env) as (evs & -> & F).
  rewrite entered_app, (entered_calls _ F), app_nil_r. reflexivity.
Qed.

(** *** One step of the engine *)

Lemma run_step k n state env state' env' :
  node_action n state (enter n env) = (Ok state', env') ->
  run (S k) n state env
  = match successor n state' with
    | Ok (Some n') => run k n' state' env'
    | Ok None => (Ok state', env')
    | Raise e => (Raise e, env')
    end.
Proof.
  intros E. cbn [run]. unfold bind, emit, lift. fold (enter n env). rewrite E.
  destruct (successor n state') as [[n'|]|e]; reflexivity.
Qed.

(** A property of the state that every stage keeps holds at the end of
    every run that ends with a state. *)
Lemma run_invariant (P : AnalyticsState -> Prop) :
  (forall n state env state' env',
     P state -> node_action n state env = (Ok state', env') -> P state') ->
  forall k n state env final env',
    P state -> run k n state env = (Ok final, env') -> P final.
Proof.
  intros Hstep. induction k as [|k IH]; intros n state env final env' HP E.
  - discriminate E.
  - destruct (node_action_total n state (enter n env)) as (state1 & env1 & E1).
    rewrite (run_step _ _ _ _ _ _ E1) in E.
    assert (P state1) by eauto.
    destruct (successor n state1) as [[n'|]|e]; [eauto | | discriminate].
    injection E as <- <-. assumption.
Qed.

(** A property of configurations that holds at the start and that every
    step keeps holds wherever a run gets. *)
Lemma reaches_ind (Q : node -> AnalyticsState -> Prop) :
  (forall query analysis_type, Q entry_point (initial_state query analysis_type)) ->
  (forall n state env state' env' n',
     Q n state -> step (n, state, env) (n', state', env') -> Q n' state') ->
  forall n state env, reaches n state env -> Q n state.
Proof.
  intros Hinit Hstep n state env (query & analysis_type & env0 & Hrtc).
  change (Q (n, state, env).1.1 (n, state, env).1.2).
  revert Hrtc. generalize (n, state, env).
  apply (rtc_ind_r (fun c : config => Q c.1.1 c.1.2)); cbn.
  - apply Hinit.
  - intros [[n1 state1] env1] [[n2 state2] env2] _ Hs HQ. cbn in *.
    exact (Hstep _ _ _ _ _ _ HQ Hs).
Qed.

Lemma advance_steps k c : rtc step c (advance k c).
Proof.
  revert c. induction k as [|k IH]; intros [[n state] env]; cbn [advance]; [reflexivity|].
  destruct (node_action n state (enter n env)) as [[state'|e] env'] eqn:E; [|reflexivity].
  destruct (successor n state') as [[n'|]|e] eqn:Es; try reflexivity.
  eapply rtc_l; [exact (step_edge _ _ _ _ _ _ E Es) | apply IH].
Qed.

Lemma advance_reaches k query analysis_type env0 :
  reaches (advance k (entry_point, initial_state query analysis_type, env0)).1.1
          (advance k (entry_point, initial_state query analysis_type, env0)).1.2
          (advance k (entry_point, initial_state query analysis_type, env0)).2.
Proof.
  exists query, analysis_type, env0.
  destruct (advance k _) as [[n state] env] eqn:E. cbn. rewrite <- E. apply advance_steps.
Qed.

(** *** The claims *)

(** C1.  When classification raises, ClassifyQuery stores the error text,
    the router answers "error" and the graph goes to HandleError; the run
    ends there with the fixed fallback fields and confidence 0.1, and the
    entry point returns them without raising.  No collaborator is called. *)
Theorem classification_failure_handled query analysis_type env e :
  AnalyticsService.classify_query_type query = Raise e ->
  exists state1 final result,
    _classify_query (initial_state query analysis_type) (enter classify_query env)
    = (Ok state1, enter classify_query env)
    /\ error state1 = "Query classification failed: " +:+ e
    /\ error state1 <> ""
    /\ _should_continue_after_classification state1 = "error"
    /\ successor classify_query state1 = Ok (Some handle_error)
    /\ ainvoke (initial_state query analysis_type) env
       = (Ok final, enter handle_error (enter classify_query env))
    /\ processed_data final !! "analysis"
       = Some (PyStr ("Analytics processing encountered an error: " +:+ error state1))
    /\ insights final
       = [PyStr "Analysis could not be completed due to technical issues."]
    /\ charts final = PyDict []
    /\ recommendations final
       = [PyStr "Please try rephrasing your query or contact support."]
    /\ confidence final = 0.1%float
    /\ process_analytics_query query analysis_type env
       = (Ok result, enter handle_error (enter classify_query env))
    /\ result !! "analysis"
       = Some (PyStr ("Analytics processing encountered an error: " +:+ error state1))
    /\ result !! "insights"
       = Some (PyList [PyStr "Analysis could not be completed due to technical issues."])
    /\ result !! "charts" = Some (PyDict [])
    /\ result !! "recommendations"
       = Some (PyList [PyStr "Please try rephrasing your query or contact support."])
    /\ result !! "confidence" = Some (PyFloat 0.1).
Proof.
  intros E.
  set (state0 := initial_state query analysis_type).
  set (state1 := set_error ("Query classification failed: " +:+ e) state0).
  assert (E1 : _classify_query state0 (enter classify_query env)
               = (Ok state1, enter classify_query env)).
  { rewrite classify_query_eq. unfold state0, initial_state at 1. cbn [AnalyticsGraph.query]. rewrite E. reflexivity. }
  assert (Hroute : successor classify_query state1 = Ok (Some handle_error)) by reflexivity.
  assert (Erun : ainvoke state0 env
                 = (Ok (set_confidence 0.1
                          (set_recommendations
                             [PyStr "Please try rephrasing your query or contact support."]
                             (set_charts (PyDict [])
                                (set_insights
                                   [PyStr "Analysis could not be completed due to technical issues."]
                                   (set_processed_data
                                      {[ "analysis" := PyStr ("Analytics processing encountered an error: " +:+ error state1);
                                         "statistics" := PyDict [];
                                         "summary" := PyStr "Unable to complete analysis due to technical issues." ]}
                                      state1))))),
                    enter handle_error (enter classify_query env))).
  { unfold ainvoke, recursion_limit, entry_point.
    rewrite (run_step _ classify_query _ _ _ _ E1), Hroute.
    rewrite (run_step _ handle_error _ _ _ _ eq_refl). reflexivity. }
  eexists state1, _, _.
  split; [exact E1|]. split; [reflexivity|]. split; [discriminate|].
  split; [reflexivity|]. split; [exact Hroute|]. split; [exact Erun|].
  split; [apply lookup_insert_eq|]. do 4 (split; [reflexivity|]).
  split.
  { unfold process_analytics_query, try_except, bind, ret. fold state0.
    rewrite Erun. reflexivity. }
  cbn [processed_data set_confidence set_recommendations set_charts set_insights
         set_processed_data insights charts recommendations confidence].
  rewrite lookup_insert_eq. cbn [default].
  repeat split; by simplify_map_eq.
Qed.


(** C2.  The entry point returns a result for every query and every
    behaviour of the collaborators, and the confidence it reports lies in
    [0, 1]: a stage that fails stores its error and the run goes on, and
    an exception out of the graph itself is turned into a result with
    confidence 0.1. *)
Theorem process_analytics_query_never_raises query analysis_type env :
  exists result env' c,
    process_analytics_query query analysis_type env = (Ok result, env')
    /\ result !! "confidence" = Some (PyFloat c)
    /\ PrimFloat.leb 0 c = true
    /\ PrimFloat.leb c 1 = true.
Proof.
  unfold process_analytics_query, try_except, bind, ret.
  destruct (ainvoke (initial_state query analysis_type) env) as [[final|e] env'] eqn:E.
  - assert (Hc : in_unit_interval (confidence final)).
    { unfold ainvoke in E.
      refine (run_invariant (fun s => in_unit_interval (confidence s)) _ _ _ _ _ _ _ _ E).
      - intros n state env1 state' env1' Hs Ea. exact (node_action_confidence _ _ _ _ _ Hs Ea).
      - split; reflexivity. }
    destruct Hc as [Hlo Hhi].
    eexists _, env', (confidence final). split; [reflexivity|].
    split; [by simplify_map_eq | auto].
  - eexists _, env', 0.1%float. split; [reflexivity|].
    split; [by simplify_map_eq | split; reflexivity].
Qed.

(** Entering a node and running its stage ends with a state, and adds the
    node, and only it, to the nodes entered. *)
Lemma stage_runs n state env :
  exists state' env',
    node_action n state (enter n env) = (Ok state', env')
    /\ entered (calls env') = (entered (calls env) ++ [n])%list.
Proof.
  destruct (node_action_total n state (enter n env)) as (state' & env' & E).
  exists state', env'. split; [exact E|].
  pose proof (node_action_entered n state (enter n env)) as He.
  rewrite E in He. cbn [snd] in He. rewrite He. unfold enter. cbn [calls].
  rewrite entered_app. reflexivity.
Qed.

(** A run whose classification returns goes through the seven stages of
    the normal path, in order, and ends with a state. *)
Lemma run_continue query analysis_type env t :
  AnalyticsService.classify_query_type query = Ok t ->
  exists final env',
    ainvoke (initial_state query analysis_type) env = (Ok final, env')
    /\ entered (calls env')
       = (entered (calls env)
          ++ [classify_query; gather_data; process_data; generate_insights;
              create_visualizations; formulate_recommendations;
              calculate_confidence])%list.
Proof.
  intros E. unfold ainvoke, recursion_limit, entry_point.
  set (state0 := initial_state query analysis_type).
  assert (E1 : node_action classify_query state0 (enter classify_query env)
               = (Ok (set_analysis_type t state0), enter classify_query env)).
  { cbn [node_action]. rewrite classify_query_eq. unfold state0, initial_state at 1.
    cbn [AnalyticsGraph.query]. rewrite E. reflexivity. }
  rewrite (run_step _ classify_query _ _ _ _ E1).
  change (successor classify_query (set_analysis_type t state0))
    with (Ok (A:=option node) (Some gather_data)). cbv iota.
  destruct (stage_runs gather_data (set_analysis_type t state0) (enter classify_query env))
    as (state2 & env2 & E2 & T2).
  rewrite (run_step _ gather_data _ _ _ _ E2). cbn [successor].
  destruct (stage_runs process_data state2 env2) as (state3 & env3 & E3 & T3).
  rewrite (run_step _ process_data _ _ _ _ E3). cbn [successor].
  destruct (stage_runs generate_insights state3 env3) as (state4 & env4 & E4 & T4).
  rewrite (run_step _ generate_insights _ _ _ _ E4). cbn [successor].
  destruct (stage_runs create_visualizations state4 env4) as (state5 & env5 & E5 & T5).
  rewrite (run_step _ create_visualizations _ _ _ _ E5). cbn [successor].
  destruct (stage_runs formulate_recommendations state5 env5) as (state6 & env6 & E6 & T6).
  rewrite (run_step _ formulate_recommendations _ _ _ _ E6). cbn [successor].
  destruct (stage_runs calculate_confidence state6 env6) as (state7 & env7 & E7 & T7).
  rewrite (run_step _ calculate_confidence _ _ _ _ E7). cbn [successor].
  exists state7, env7. split; [reflexivity|].
  rewrite T7, T6, T5, T4, T3, T2. unfold enter. cbn [calls].
  rewrite entered_app. cbn. rewrite <- !app_assoc. reflexivity.
Qed.


Lemma reaches_narrative n state env :
  reaches n state env -> narrative_is_text state.
Proof.
  apply (reaches_ind (fun _ s => narrative_is_text s)).
  - intros query analysis_type. left. reflexivity.
  - intros n1 s1 env1 s2 env2 n2 Hs Hstep. inversion Hstep; subst.
    eapply node_action_narrative; eassumption.
Qed.

Lemma node_action_chart n state env state' env' :
  chart_is_empty_or_true state ->
  node_action n state env = (Ok state', env') ->
  chart_is_empty_or_true state'.
Proof.
  intros Hc E.
  destruct (decide (n = create_visualizations)) as [->|Hn1].
  - cbn [node_action] in E. rewrite create_visualizations_eq in E.
    destruct (charted state).
    + destruct (call_chart _ _ env) as [[chart_result|e] env'']; injection E as <- <-.
      * unfold chart_is_empty_or_true. cbn [charts set_charts].
        destruct (truthy chart_result) eqn:Et; [right; exact Et | left; reflexivity].
      * exact Hc.
    + injection E as <- <-. left. reflexivity.
  - destruct (decide (n = handle_error)) as [->|Hn2].
    + cbn [node_action] in E. unfold _handle_error, ret in E. injection E as <- <-.
      left. reflexivity.
    + apply node_action_frame in E. destruct E as (_ & _ & Hch & _).
      unfold chart_is_empty_or_true. rewrite Hch; auto.
Qed.

Lemma reaches_chart n state env :
  reaches n state env -> chart_is_empty_or_true state.
Proof.
  apply (reaches_ind (fun _ s => chart_is_empty_or_true s)).
  - intros query analysis_type. left. reflexivity.
  - intros n1 s1 env1 s2 env2 n2 Hs Hstep. inversion Hstep; subst.
    eapply node_action_chart; eassumption.
Qed.

Lemma reaches_no_chart n state env :
  reaches n state env -> before_charts n = true -> charts state = PyDict [].
Proof.
  apply (reaches_ind (fun n s => before_charts n = true -> charts s = PyDict [])).
  - reflexivity.
  - intros n1 s1 env1 s2 env2 n2 Hs Hstep Hb. inversion Hstep as [? ? ? ? ? ? Ea Esucc]; subst.
    apply node_action_frame in Ea. destruct Ea as (_ & _ & Hc & _).
    destruct n1; cbn in Esucc;
      try (destruct (_should_continue_after_classification s2 =? "continue")%string);
      try (destruct (_should_continue_after_classification s2 =? "error")%string);
      simplify_eq; try discriminate Hb; rewrite Hc by discriminate; apply Hs; reflexivity.
Qed.

(** C3.  For a state that reaches CalculateConfidence the stage stores
    the score of the specification: 0.5, plus 0.2 above 50 records or 0.1
    above 20, plus 0.1 for a narrative of more than 200 characters, plus
    0.1 for three insights or more, plus 0.1 for a chart, plus 0.05 for
    trend_analysis and summary, clamped to [0, 1]; the state has a chart
    exactly when its chart is not the empty one.  The score does not
    decrease when the number of records grows and the rest is fixed. *)
Theorem calculate_confidence_score state env0 env :
  reaches calculate_confidence state env0 ->
  _calculate_confidence state env
  = (Ok (set_confidence
           (ConfidenceSpec.score (length (raw_data state)) (narrative_len state)
              (length (insights state)) (truthy (charts state)) (analysis_type state))
           state), env)
  /\ (truthy (charts state) = true <-> charts state <> PyDict [])
  /\ (forall n1 n2 narrative_len n_insights has_chart analysis_type,
        (n1 <= n2)%nat ->
        PrimFloat.leb
          (ConfidenceSpec.score n1 narrative_len n_insights has_chart analysis_type)
          (ConfidenceSpec.score n2 narrative_len n_insights has_chart analysis_type)
        = true).
Proof.
  intros Hr. split; [|split].
  - rewrite calculate_confidence_eq. unfold narrative_len.
    destruct (reaches_narrative _ _ _ Hr) as [Hn|[text Hn]];
      unfold narrative; rewrite Hn; unfold default, from_option, id; cbn [len]; rewrite weighed_score; reflexivity.
  - destruct (reaches_chart _ _ _ Hr) as [Hc|Hc]; rewrite Hc.
    + split; [discriminate | intros Hne; contradiction].
    + split; [intros _ Hd; rewrite Hd in Hc; discriminate Hc | reflexivity].
  - intros n1 n2 L I c t Hle. unfold ConfidenceSpec.score.
    destruct (Nat.ltb_spec 50 n1), (Nat.ltb_spec 20 n1),
      (Nat.ltb_spec 50 n2), (Nat.ltb_spec 20 n2); try lia;
      destruct (200 <? L)%nat, (3 <=? I)%nat, c,
        (in_list t ["trend_analysis"; "summary"]); vm_compute; reflexivity.
Qed.


Lemma charted_iff state :
  charted state = true
  <-> raw_data state <> []
      /\ (analysis_type state = "trend_analysis" \/ analysis_type state = "comparison").
Proof.
  unfold charted, in_list. cbn [truthy existsb]. rewrite orb_false_r.
  rewrite andb_true_iff, orb_true_iff, !String.eqb_eq.
  destruct (raw_data state); split; intros [? ?]; split; congruence.
Qed.

(** C7.  On a state that reaches CreateVisualizations: the chart generator
    is called, once and with the query and one table document made of
    [raw_data], exactly when [raw_data] is non-empty and the analysis type
    is trend_analysis or comparison; otherwise nothing is called and the
    chart is empty.  When the call raises, the chart is empty (and the
    error is stored); when it returns, the chart is the value returned, or
    empty if that value is falsy. *)
Theorem create_visualizations_chart state env0 env :
  reaches create_visualizations state env0 ->
  (charted state = true
   <-> raw_data state <> []
       /\ (analysis_type state = "trend_analysis" \/ analysis_type state = "comparison"))
  /\ (charted state = false ->
      _create_visualizations state env = (Ok (set_charts (PyDict []) state), env))
  /\ (analysis_type state <> "trend_analysis" ->
      analysis_type state <> "comparison" ->
      _create_visualizations state env = (Ok (set_charts (PyDict []) state), env))
  /\ (charted state = true ->
      exists state' env',
        _create_visualizations state env = (Ok state', env')
        /\ calls env'
           = (calls env ++ [Chart (query state) [table_document (raw_data state)]])%list
        /\ match generate_chart_from_query (query state)
                   [table_document (raw_data state)] (world env) with
           | (Ok chart_result, _) =>
               state'
               = set_charts (if truthy chart_result then chart_result else PyDict [])
                   state
           | (Raise e, _) =>
               state' = set_error ("Visualization creation failed: " +:+ e) state
               /\ charts state' = PyDict []
           end).
Proof.
  intros Hr. pose proof (reaches_no_chart _ _ _ Hr eq_refl) as Hc.
  pose proof (charted_iff state) as Hiff.
  split; [exact Hiff|]. split; [|split].
  - intros Hf. rewrite create_visualizations_eq, Hf. reflexivity.
  - intros H1 H2. rewrite create_visualizations_eq.
    destruct (charted state) eqn:Hch; [|reflexivity].
    destruct Hiff as [Hi _]. destruct (Hi eq_refl) as [_ [?|?]]; contradiction.
  - intros Ht. rewrite create_visualizations_eq, Ht. unfold call_chart.
    destruct (generate_chart_from_query _ _ (world env)) as [[chart_result|e] w];
      eexists _, _; (split; [reflexivity|]); (split; [reflexivity|]); auto.
Qed.


(** With a narrative in the processed data, GenerateInsights asks the
    generator once, whatever becomes of the answer. *)
Lemma generate_insights_asks state env analysis :
  processed_data state !! "analysis" = Some analysis ->
  exists prompt,
    calls (_generate_insights state env).2 = (calls env ++ [Generate prompt ""])%list.
Proof.
  intros Ha. rewrite generate_insights_eq, Ha.
  unfold AnalyticsService.extract_insights, bind, call_generate, ret, lift.
  match goal with
  | |- context [generate_response ?p "" (world env)] =>
      exists p; destruct (generate_response p "" (world env)) as [[response|e] w]
  end; [|reflexivity].
  destruct (json_loads response) as [[]|];
    try destruct (AnalyticsService._extract_insights_fallback analysis); reflexivity.
Qed.

(** C4 (as amended).  With an empty [raw_data], as an empty retrieval
    result leaves it, ProcessData stores the fixed narrative and calls no
    collaborator.  GenerateInsights then finds a narrative and asks the
    generator for insights of it: they are the JSON list it answers, or its
    answer as one item when the JSON is no list, or the keyword fallback of
    the fixed narrative, which is empty, when the answer is no JSON; when
    the generator raises, the error is stored.  GenerateInsights stores
    the fixed insight "No insights could be generated from the available
    data." with no collaborator called exactly for a state whose processed
    data has no narrative; with a narrative it asks the generator once. *)
Theorem no_data_narrative_then_insights state env :
  raw_data state = [] ->
  exists prompt,
    _process_data state env = (Ok (set_processed_data no_data state), env)
    /\ narrative (set_processed_data no_data state)
       = PyStr "No relevant data found for analysis."
    /\ embeds "No relevant data found for analysis." prompt
    /\ (forall env1, exists state2 env2,
          _generate_insights (set_processed_data no_data state) env1 = (Ok state2, env2)
          /\ calls env2 = (calls env1 ++ [Generate prompt ""])%list
          /\ match generate_response prompt "" (world env1) with
             | (Ok response, _) =>
                 state2
                 = set_insights
                     match json_loads response with
                     | Ok (PyList items) => items
                     | Ok _ => [PyStr response]
                     | Raise _ => []
                     end
                     (set_processed_data no_data state)
             | (Raise e, _) =>
                 state2
                 = set_error ("Insight generation failed: " +:+ e)
                     (set_processed_data no_data state)
             end)
    /\ (forall other env1,
          processed_data other !! "analysis" = None
          <-> _generate_insights other env1
              = (Ok (set_insights
                       [PyStr "No insights could be generated from the available data."]
                       other), env1))
    /\ (forall other env1 analysis,
          processed_data other !! "analysis" = Some analysis ->
          exists prompt1,
            calls (_generate_insights other env1).2
            = (calls env1 ++ [Generate prompt1 ""])%list)
    /\ (forall state0 env0 w,
          search_multimodal (query state0) (breadth (analysis_type state0)).1
            (breadth (analysis_type state0)).2 (world env0) = (Ok ∅, w) ->
          exists env', _gather_data state0 env0 = (Ok (set_raw_data [] state0), env')).
Proof.
  intros Hempty. eexists.
  split; [rewrite process_data_eq, Hempty; reflexivity|].
  split; [reflexivity|].
  refine ((fun P => conj (proj1 P) (conj (proj2 P) _)) _).
  - split; [|split].
    + intros other env1. split.
      * intros Hnone. rewrite generate_insights_eq, Hnone. reflexivity.
      * intros E. destruct (processed_data other !! "analysis") as [analysis|] eqn:Ha;
          [|reflexivity].
        destruct (generate_insights_asks other env1 analysis Ha) as [prompt1 Hc].
        rewrite E in Hc. cbn [snd] in Hc.
        apply (f_equal (@length event)) in Hc. rewrite length_app in Hc. cbn in Hc. lia.
    + exact (fun other env1 analysis => generate_insights_asks other env1 analysis).
    + intros state0 env0 w Es. rewrite gather_data_eq. unfold call_search. rewrite Es.
      eexists. reflexivity.
  - split; cycle 1.
    + intros env1. rewrite generate_insights_eq.
      change (processed_data (set_processed_data no_data state) !! "analysis")
        with (Some (PyStr "No relevant data found for analysis.")).
      cbv iota. unfold AnalyticsService.extract_insights, bind, call_generate, ret, lift.
      cbn [raw_data set_processed_data]. rewrite Hempty.
      change (AnalyticsService._extract_insights_fallback
                (PyStr "No relevant data found for analysis."))
        with (Ok (A:=list pyval) []).
      match goal with
      | |- context [generate_response ?p "" (world env1)] =>
          destruct (generate_response p "" (world env1)) as [[response|e] w] eqn:Eg
      end.
      * exists (set_insights
                  match json_loads response with
                  | Ok (PyList items) => items
                  | Ok _ => [PyStr response]
                  | Raise _ => []
                  end (set_processed_data no_data state)).
        eexists. split; [destruct (json_loads response) as [[]|]; reflexivity|].
        split; [reflexivity|]. rewrite Eg. reflexivity.
      * eexists _, _. split; [reflexivity|]. split; [reflexivity|].
        rewrite Eg. reflexivity.
    + apply str_in_embeds. vm_compute. reflexivity.
Qed.


Lemma routine_general t :
  t <> "trend_analysis" -> t <> "comparison" -> t <> "summary" ->
  routine t = _process_general_data.
Proof.
  intros H1 H2 H3. unfold routine.
  apply String.eqb_neq in H1, H2, H3. now rewrite H1, H2, H3.
Qed.

(** The basic statistics raise exactly on data with a record that is no
    dict. *)
Lemma all_keys_raises data :
  (exists e, all_keys data = Raise e)
  <-> Exists (fun record => forall d, record <> PyDict d) data.
Proof.
  induction data as [|record data IH]; cbn [all_keys].
  - split; [intros [e [=]] | intros H; inversion H].
  - destruct record; cbn [keys];
      try (split; [intros _; apply Exists_cons_hd; discriminate | intros _; eauto]).
    destruct (all_keys data) as [more|e].
    + split; [intros [e [=]]|].
      intros H. inversion H as [? ? Hd|? ? Hrest]; subst.
      * now destruct (Hd d).
      * apply IH in Hrest. destruct Hrest as [e [=]].
    + split; [|eauto]. intros _. apply Exists_cons_tl, IH. eauto.
Qed.

Lemma calculate_basic_stats_raises data :
  (exists e, _calculate_basic_stats data = Raise e)
  <-> Exists (fun record => forall d, record <> PyDict d) data.
Proof.
  rewrite <- all_keys_raises. unfold _calculate_basic_stats.
  destruct data as [|record data].
  - split; intros [e [=]].
  - destruct (all_keys (record :: data)) as [ks|e];
      (split; [intros [e' [=]]; eauto | intros [e' [=]]; eauto]).
Qed.

(** A trend report costs one search, whatever comes of it. *)
Lemma analyze_trends_searches_once query env :
  calls (AnalyticsService.analyze_trends query env).2
  = (calls env
     ++ [Search (PyStr (str query +:+ " timeline date time year month")) ["table"] 15])%list.
Proof.
  unfold AnalyticsService.analyze_trends, bind, call_search, lift, ret.
  destruct (search_multimodal _ _ _ (world env)) as [[search_results|e] w];
    [|reflexivity].
  destruct (AnalyticsService._extract_time_series _) as [[time_series|]|e];
    try reflexivity.
  destruct (AnalyticsService._analyze_time_series time_series query); reflexivity.
Qed.

(** C6 (as amended).  On a state with records, ProcessData runs the
    routine of the analysis type.  The basic statistics of the records
    can be computed exactly when every record is a dict.  When they can,
    the comparison, summary and general routines (general for every
    other type) call the generator once, with a prompt of their own that
    has the query, a line with the record count and a line with sample
    records in it: the first three records for comparison, the basic
    statistics, which hold the first record, for summary, the first five
    for general; the answer becomes the narrative, and when the generator
    raises the error is stored.  The trend_analysis routine calls no
    generator: it searches the retrieval index once more, for the query
    followed by " timeline date time year month", and its narrative is
    "Trend analysis reveals: " followed by the report that [analyze_trends]
    returns; when that raises, the error is stored.  When the statistics
    cannot be computed, the summary routine fails before it calls the
    generator, the comparison and general routines after their one call
    and the trend routine after its search: the error is stored and no
    narrative. *)
Theorem process_data_routines state env :
  raw_data state <> [] ->
  ((exists e, _calculate_basic_stats (raw_data state) = Raise e)
   <-> Exists (fun record => forall d, record <> PyDict d) (raw_data state))
  /\ (analysis_type state = "trend_analysis" ->
      exists state',
        _process_data state env
        = (Ok state', (AnalyticsService.analyze_trends (query state) env).2)
        /\ calls (AnalyticsService.analyze_trends (query state) env).2
           = (calls env
              ++ [Search (PyStr (str (query state) +:+ " timeline date time year month"))
                    ["table"] 15])%list
        /\ match
             (AnalyticsService.analyze_trends (query state) env).1,
             _calculate_basic_stats (raw_data state)
           with
           | Ok report, Ok statistics =>
               state'
               = set_processed_data
                   {[ "analysis" := PyStr ("Trend analysis reveals: " +:+ str report);
                      "trend_data" := report;
                      "statistics" := statistics ]} state
               /\ narrative state' = PyStr ("Trend analysis reveals: " +:+ str report)
           | Ok _, Raise e | Raise e, _ =>
               state' = set_error ("Data processing failed: " +:+ e) state
           end)
  /\ (analysis_type state = "comparison" ->
      exists prompt state' env',
        embeds ("        Perform a comparative analysis based on this query: "
                +:+ str (query state)) prompt
        /\ embeds ("        Data available: " +:+ str_nat (length (raw_data state))
                   +:+ " records") prompt
        /\ embeds ("        Sample: " +:+ str (PyList (take 3 (raw_data state)))) prompt
        /\ _process_data state env = (Ok state', env')
        /\ calls env' = (calls env ++ [Generate prompt ""])%list
        /\ match
             generate_response prompt "" (world env),
             _calculate_basic_stats (raw_data state)
           with
           | (Ok analysis, w), Ok statistics =>
               world env' = w
               /\ state'
                  = set_processed_data
                      {[ "analysis" := PyStr analysis;
                         "comparison_data" := PyList (raw_data state);
                         "statistics" := statistics ]} state
               /\ narrative state' = PyStr analysis
           | (Ok _, w), Raise e | (Raise e, w), _ =>
               world env' = w
               /\ state' = set_error ("Data processing failed: " +:+ e) state
           end)
  /\ (analysis_type state = "summary" ->
      match _calculate_basic_stats (raw_data state) with
      | Raise e =>
          _process_data state env
          = (Ok (set_error ("Data processing failed: " +:+ e) state), env)
      | Ok stats =>
          exists prompt state' env' columns sample,
            embeds ("        Create a comprehensive summary for: " +:+ str (query state))
              prompt
            /\ embeds ("        - Records: " +:+ str_nat (length (raw_data state))) prompt
            /\ embeds ("        - Statistics: " +:+ str stats) prompt
            /\ stats
               = PyDict [ ("total_records", PyInt (Z.of_nat (length (raw_data state))));
                          ("columns", columns);
                          ("sample_record", sample) ]
            /\ head (raw_data state) = Some sample
            /\ _process_data state env = (Ok state', env')
            /\ calls env' = (calls env ++ [Generate prompt ""])%list
            /\ match generate_response prompt "" (world env) with
               | (Ok analysis, w) =>
                   world env' = w
                   /\ state'
                      = set_processed_data
                          {[ "analysis" := PyStr analysis;
                             "summary_stats" := stats;
                             "statistics" := stats ]} state
                   /\ narrative state' = PyStr analysis
               | (Raise e, w) =>
                   world env' = w
                   /\ state' = set_error ("Data processing failed: " +:+ e) state
               end
      end)
  /\ (analysis_type state <> "trend_analysis" ->
      analysis_type state <> "comparison" ->
      analysis_type state <> "summary" ->
      exists prompt state' env',
        embeds ("        Analyze the data to answer: " +:+ str (query state)) prompt
        /\ embeds ("        Available data: " +:+ str_nat (length (raw_data state))
                   +:+ " records") prompt
        /\ embeds ("        Sample data: " +:+ str (PyList (take 5 (raw_data state))))
             prompt
        /\ _process_data state env = (Ok state', env')
        /\ calls env' = (calls env ++ [Generate prompt ""])%list
        /\ match
             generate_response prompt "" (world env),
             _calculate_basic_stats (raw_data state)
           with
           | (Ok analysis, w), Ok statistics =>
               world env' = w
               /\ state'
                  = set_processed_data
                      {[ "analysis" := PyStr analysis;
                         "data_overview" :=
                           PyDict [("record_count",
                                    PyInt (Z.of_nat (length (raw_data state))))];
                         "statistics" := statistics ]} state
               /\ narrative state' = PyStr analysis
           | (Ok _, w), Raise e | (Raise e, w), _ =>
               world env' = w
               /\ state' = set_error ("Data processing failed: " +:+ e) state
           end).
Proof.
  intros Hdata. split; [apply calculate_basic_stats_raises|].
  destruct (raw_data state) as [|d ds] eqn:Ed; [contradiction|].
  assert (Hn : forall (analysis : string) (rest : gmap string pyval),
             narrative (set_processed_data (<["analysis" := PyStr analysis]> rest) state)
             = PyStr analysis).
  { intros analysis rest. unfold narrative. cbn [processed_data set_processed_data].
    now rewrite lookup_insert_eq. }
  split; [|split; [|split]].
  - intros Ht. rewrite process_data_eq, Ed, Ht.
    change (routine "trend_analysis") with _process_trend_data.
    pose proof (analyze_trends_searches_once (query state) env) as Hc.
    unfold _process_trend_data, bind, lift, ret.
    destruct (AnalyticsService.analyze_trends (query state) env) as [[report|e] env1];
      cbn [fst snd] in *;
      [destruct (_calculate_basic_stats (d :: ds)) as [statistics|e]|];
      eexists; (split; [reflexivity|]); (split; [exact Hc|]);
      [split; [reflexivity | apply Hn] | reflexivity | reflexivity].
  - intros Ht. rewrite process_data_eq, Ed, Ht.
    change (routine "comparison") with _process_comparison_data.
    unfold _process_comparison_data, bind, call_generate, lift, ret.
    match goal with
    | |- context [generate_response ?p "" (world env)] =>
        exists p; destruct (generate_response p "" (world env)) as [[analysis|e] w]
    end;
      [destruct (_calculate_basic_stats (d :: ds)) as [statistics|e]|];
      eexists _, _; (split; [cbn [join]; find_piece|]);
      (split; [cbn [join]; find_piece|]); (split; [cbn [join]; find_piece|]);
      (split; [reflexivity|]); (split; [reflexivity|]); (split; [reflexivity|]);
      [split; [reflexivity | apply Hn] | reflexivity | reflexivity].
  - intros Ht. rewrite process_data_eq, Ed, Ht.
    change (routine "summary") with _process_summary_data.
    unfold _process_summary_data, bind, call_generate, lift, ret.
    destruct (_calculate_basic_stats (d :: ds)) as [stats|e] eqn:Es; [|reflexivity].
    assert (Hshape : exists columns,
               stats = PyDict [ ("total_records", PyInt (Z.of_nat (length (d :: ds))));
                                ("columns", columns); ("sample_record", d) ]).
    { revert Es. unfold _calculate_basic_stats.
      destruct (all_keys (d :: ds)); intros [= <-]. eauto. }
    destruct Hshape as [columns Hshape].
    match goal with
    | |- context [generate_response ?p "" (world env)] =>
        exists p; destruct (generate_response p "" (world env)) as [[analysis|e] w]
    end;
      eexists _, _, columns, d; (split; [cbn [join]; find_piece|]);
      (split; [cbn [join]; find_piece|]); (split; [cbn [join]; find_piece|]);
      (split; [exact Hshape|]); (split; [reflexivity|]);
      (split; [reflexivity|]); (split; [reflexivity|]); (split; [reflexivity|]);
      [split; [reflexivity | apply Hn] | reflexivity].
  - intros H1 H2 H3. rewrite process_data_eq, Ed, (routine_general _ H1 H2 H3).
    unfold _process_general_data, bind, call_generate, lift, ret.
    match goal with
    | |- context [generate_response ?p "" (world env)] =>
        exists p; destruct (generate_response p "" (world env)) as [[analysis|e] w]
    end;
      [destruct (_calculate_basic_stats (d :: ds)) as [statistics|e]|];
      eexists _, _; (split; [cbn [join]; find_piece|]);
      (split; [cbn [join]; find_piece|]); (split; [cbn [join]; find_piece|]);
      (split; [reflexivity|]); (split; [reflexivity|]); (split; [reflexivity|]);
      [split; [reflexivity | apply Hn] | reflexivity | reflexivity].
Qed.

End Stages.

(** ** Runs with the test doubles *)

Import Demo.

(** C10.  HandleError follows ClassifyQuery and nothing else, and only
    with an error stored.  A run whose classification returns enters the
    seven stages of the normal path in order and never HandleError,
    whatever its later stages do.  One of them may store an error on the
    way: with a retrieval index that raises, the run still goes through all
    seven stages, and its final state has the error of GatherData next to
    the narrative, the recommendations and the confidence the later stages
    produced. *)
Theorem handle_error_only_after_classification :
  (forall (S : Services) n state env state' env',
     step (n, state, env) (handle_error, state', env') ->
     n = classify_query /\ error state' <> "")
  /\ (forall (S : Services) query analysis_type env t,
        AnalyticsService.classify_query_type query = Ok t ->
        exists final env',
          ainvoke (initial_state query analysis_type) env = (Ok final, env')
          /\ entered (calls env')
             = (entered (calls env)
                ++ [classify_query; gather_data; process_data; generate_insights;
                    create_visualizations; formulate_recommendations;
                    calculate_confidence])%list)
  /\ (exists final env',
        AnalyticsService.classify_query_type (PyStr "show revenue") = Ok "general"
        /\ ainvoke (svc := offline_index) (initial_state (PyStr "show revenue") None)
             (Demo.env0 (svc := offline_index) tt)
           = (Ok final, env')
        /\ entered (calls env')
           = [classify_query; gather_data; process_data; generate_insights;
              create_visualizations; formulate_recommendations; calculate_confidence]
        /\ error final = "Data gathering failed: index offline"
        /\ narrative final = PyStr "No relevant data found for analysis."
        /\ recommendations final = [PyStr "Nothing to report."]
        /\ confidence final = 0.5%float).
Proof.
  split; [|split].
  - intros S n state env state' env' Hstep.
    inversion Hstep as [? ? ? ? ? ? Ea Es]; subst.
    destruct n; cbn in Es; try discriminate Es.
    split; [reflexivity|].
    unfold _should_continue_after_classification in Es. cbn [truthy] in Es.
    destruct (error state'); [discriminate Es | discriminate].
  - intros S query analysis_type env t E.
    exact (run_continue query analysis_type env t E).
  - assert (H1 : entered (calls (ainvoke (svc := offline_index)
                                   (initial_state (PyStr "show revenue") None)
                                   (Demo.env0 (svc := offline_index) tt)).2)
                 = [classify_query; gather_data; process_data; generate_insights;
                    create_visualizations; formulate_recommendations;
                    calculate_confidence]) by (vm_compute; reflexivity).
    assert (H2 : (fun s => (error s, narrative s, recommendations s, confidence s))
                   <$> outcome (ainvoke (svc := offline_index)
                                  (initial_state (PyStr "show revenue") None)
                                  (Demo.env0 (svc := offline_index) tt))
                 = Some ("Data gathering failed: index offline",
                         PyStr "No relevant data found for analysis.",
                         [PyStr "Nothing to report."], 0.5%float))
      by (vm_compute; reflexivity).
    destruct (ainvoke _ _) as [[final|e] env']; [|discriminate H2].
    injection H2 as E1 E2 E3 E4. exists final, env'. auto 10.
Qed.

(** C8.  The two fallbacks keep at most five items, but a JSON list is
    stored as it comes: when the generator answers a JSON array of six
    strings, the run ends with six insights and six recommendations. *)
Theorem json_list_is_not_capped :
  (forall (S : Services) analysis found,
     AnalyticsService._extract_insights_fallback analysis = Ok found ->
     (length found <= 5)%nat)
  /\ json_loads (Services := normal) six_insights
     = Ok (PyList (map PyStr ["Revenue grew"; "Costs fell"; "Margin rose"; "Q4 peaked";
                              "Churn eased"; "Cash improved"]))
  /\ (exists final env',
        ainvoke (svc := normal) (initial_state (PyStr "Compare Q1 vs Q2 revenue") None)
          (Demo.env0 (svc := normal) tt)
        = (Ok final, env')
        /\ error final = ""
        /\ length (insights final) = 6%nat
        /\ length (recommendations final) = 6%nat).
Proof.
  split; [|split].
  - intros S analysis found. unfold AnalyticsService._extract_insights_fallback.
    destruct analysis; try discriminate. intros [= <-].
    rewrite length_map, length_take. lia.
  - vm_compute. reflexivity.
  - assert (H2 : (fun s => (error s, length (insights s), length (recommendations s)))
                   <$> outcome (ainvoke (svc := normal)
                                  (initial_state (PyStr "Compare Q1 vs Q2 revenue") None)
                                  (Demo.env0 (svc := normal) tt))
                 = Some ("", 6%nat, 6%nat)) by (vm_compute; reflexivity).
    destruct (ainvoke _ _) as [[final|e] env']; [|discriminate H2].
    injection H2 as E1 E2 E3. exists final, env'. auto.
Qed.

(** C1 on a run: the caller passes [None] for the query, the classifier
    raises on it, and the run ends in HandleError. *)
Lemma classification_failure_handled_witness :
  AnalyticsService.classify_query_type PyNone
  = Raise "'NoneType' object has no attribute 'lower'"
  /\ exists final result,
       ainvoke (svc := normal) (initial_state PyNone None) (Demo.env0 (svc := normal) tt)
       = (Ok final,
          enter (svc := normal) handle_error
            (enter classify_query (Demo.env0 (svc := normal) tt)))
       /\ processed_data final !! "analysis"
          = Some (PyStr ("Analytics processing encountered an error: "
                         +:+ "Query classification failed: "
                         +:+ "'NoneType' object has no attribute 'lower'"))
       /\ confidence final = 0.1%float
       /\ process_analytics_query (svc := normal) PyNone None
            (Demo.env0 (svc := normal) tt)
          = (Ok result,
             enter (svc := normal) handle_error
               (enter classify_query (Demo.env0 (svc := normal) tt)))
       /\ result !! "confidence" = Some (PyFloat 0.1).
Proof.
  split; [reflexivity|].
  destruct (classification_failure_handled (svc := normal)
              PyNone None (Demo.env0 (svc := normal) tt)
              "'NoneType' object has no attribute 'lower'" eq_refl)
    as (state1 & final & result & _ & Ee & _ & _ & _ & Erun & En & _ & _ & _ & Ec
        & Eq & _ & _ & _ & _ & Er).
  exists final, result. rewrite Ee in En. auto 10.
Defined.

(** C3 on a run: three rows, six insights and a chart for a comparison
    query give 0.5 + 0.1 + 0.1. *)
Lemma calculate_confidence_score_witness :
  reaches (svc := normal) calculate_confidence
    (advance 6 (start (svc := normal) tt "Compare Q1 vs Q2 revenue")).1.2
    (advance 6 (start (svc := normal) tt "Compare Q1 vs Q2 revenue")).2
  /\ confidence
       <$> outcome
             (_calculate_confidence (svc := normal)
                (advance 6 (start (svc := normal) tt "Compare Q1 vs Q2 revenue")).1.2
                (advance 6 (start (svc := normal) tt "Compare Q1 vs Q2 revenue")).2)
     = Some (0.5 + 0.1 + 0.1)%float.
Proof.
  assert (Hn : (advance 6 (start (svc := normal) tt "Compare Q1 vs Q2 revenue")).1.1
               = calculate_confidence) by (vm_compute; reflexivity).
  pose proof (advance_reaches (svc := normal) 6 (PyStr "Compare Q1 vs Q2 revenue") None
                (Demo.env0 (svc := normal) tt)) as Hr.
  change (entry_point, initial_state (PyStr "Compare Q1 vs Q2 revenue") None,
          Demo.env0 (svc := normal) tt)
    with (start (svc := normal) tt "Compare Q1 vs Q2 revenue") in Hr.
  rewrite Hn in Hr. split; [exact Hr|].
  rewrite (proj1 (calculate_confidence_score _ _ _ Hr)).
  vm_compute. reflexivity.
Defined.

(** C7 on a run: a comparison query over three rows reaches
    CreateVisualizations, the chart generator is called and raises, and
    the chart stays empty. *)
Lemma create_visualizations_chart_witness :
  reaches (svc := broken_charts) create_visualizations
    (advance 4 (start (svc := broken_charts) tt "Compare Q1 vs Q2 revenue")).1.2
    (advance 4 (start (svc := broken_charts) tt "Compare Q1 vs Q2 revenue")).2
  /\ charted (advance 4 (start (svc := broken_charts) tt "Compare Q1 vs Q2 revenue")).1.2
     = true
  /\ exists state' env',
       _create_visualizations (svc := broken_charts)
         (advance 4 (start (svc := broken_charts) tt "Compare Q1 vs Q2 revenue")).1.2
         (advance 4 (start (svc := broken_charts) tt "Compare Q1 vs Q2 revenue")).2
       = (Ok state', env')
       /\ error state' = "Visualization creation failed: renderer offline"
       /\ charts state' = PyDict [].
Proof.
  assert (Hn : (advance 4 (start (svc := broken_charts) tt "Compare Q1 vs Q2 revenue")).1.1
               = create_visualizations) by (vm_compute; reflexivity).
  assert (Hc : charted
                 (advance 4 (start (svc := broken_charts) tt "Compare Q1 vs Q2 revenue")).1.2
               = true) by (vm_compute; reflexivity).
  pose proof (advance_reaches (svc := broken_charts) 4 (PyStr "Compare Q1 vs Q2 revenue") None
                (Demo.env0 (svc := broken_charts) tt)) as Hr.
  change (entry_point, initial_state (PyStr "Compare Q1 vs Q2 revenue") None,
          Demo.env0 (svc := broken_charts) tt)
    with (start (svc := broken_charts) tt "Compare Q1 vs Q2 revenue") in Hr.
  rewrite Hn in Hr. split; [exact Hr|]. split; [exact Hc|].
  destruct (create_visualizations_chart _ _
              (advance 4 (start (svc := broken_charts) tt "Compare Q1 vs Q2 revenue")).2 Hr)
    as (_ & _ & _ & Hcall).
  destruct (Hcall Hc) as (state' & env' & E & _ & Hres).
  exists state', env'. split; [exact E|].
  change (state' = set_error ("Visualization creation failed: " +:+ "renderer offline")
                     (advance 4 (start (svc := broken_charts) tt
                                   "Compare Q1 vs Q2 revenue")).1.2
          /\ charts state' = PyDict []) in Hres.
  destruct Hres as [-> Hch]. split; [reflexivity | exact Hch].
Defined.

(** C4 on a state: the initial state has no records. *)
Lemma no_data_narrative_then_insights_witness :
  raw_data (initial_state (PyStr "show revenue") None) = []
  /\ _process_data (svc := empty_index) (initial_state (PyStr "show revenue") None)
       (Demo.env0 (svc := empty_index) tt)
     = (Ok (set_processed_data no_data (initial_state (PyStr "show revenue") None)),
        Demo.env0 (svc := empty_index) tt).
Proof.
  split; [reflexivity|].
  destruct (no_data_narrative_then_insights (svc := empty_index)
              (initial_state (PyStr "show revenue") None) (Demo.env0 (svc := empty_index) tt)
              eq_refl) as (prompt & E & _).
  exact E.
Defined.

(** The claim C4 fails on the empty index: the retrieval result is the
    empty mapping, ProcessData stores the fixed narrative and calls
    nothing, and GenerateInsights calls the generator and stores the six
    strings of its answer, not the fixed insight. *)
Lemma no_data_insights_counterexample :
  search_multimodal (Services := empty_index) (PyStr "show revenue") ["text"; "table"] 8 tt
  = (Ok ∅, tt)
  /\ (advance 3 (start (svc := empty_index) tt "show revenue")).1.1 = generate_insights
  /\ raw_data (advance 3 (start (svc := empty_index) tt "show revenue")).1.2 = []
  /\ narrative (advance 3 (start (svc := empty_index) tt "show revenue")).1.2
     = PyStr "No relevant data found for analysis."
  /\ during process_data
       (calls (advance 3 (start (svc := empty_index) tt "show revenue")).2) = []
  /\ (advance 4 (start (svc := empty_index) tt "show revenue")).1.1 = create_visualizations
  /\ length (during generate_insights
               (calls (advance 4 (start (svc := empty_index) tt "show revenue")).2))
     = 1%nat
  /\ insights (advance 4 (start (svc := empty_index) tt "show revenue")).1.2
     = map PyStr ["Revenue grew"; "Costs fell"; "Margin rose"; "Q4 peaked";
                  "Churn eased"; "Cash improved"]
  /\ insights (advance 4 (start (svc := empty_index) tt "show revenue")).1.2
     <> [PyStr "No insights could be generated from the available data."].
Proof.
  assert (Hi : insights (advance 4 (start (svc := empty_index) tt "show revenue")).1.2
               = map PyStr ["Revenue grew"; "Costs fell"; "Margin rose"; "Q4 peaked";
                            "Churn eased"; "Cash improved"]) by (vm_compute; reflexivity).
  do 7 (refine (conj _ _); [vm_compute; reflexivity|]).
  split; [exact Hi|]. rewrite Hi. discriminate.
Qed.

(** C6 on a state: a comparison query over three rows. *)
Lemma process_data_routines_witness :
  raw_data (advance 2 (start (svc := normal) tt "Compare Q1 vs Q2 revenue")).1.2 <> []
  /\ exists prompt state' env',
       _process_data (svc := normal)
         (advance 2 (start (svc := normal) tt "Compare Q1 vs Q2 revenue")).1.2
         (advance 2 (start (svc := normal) tt "Compare Q1 vs Q2 revenue")).2
       = (Ok state', env')
       /\ calls env'
          = (calls (advance 2 (start (svc := normal) tt "Compare Q1 vs Q2 revenue")).2
             ++ [Generate prompt ""])%list.
Proof.
  assert (Hd : raw_data (advance 2 (start (svc := normal) tt "Compare Q1 vs Q2 revenue")).1.2
               <> []).
  { intros E.
    assert (Hl : length (raw_data (advance 2 (start (svc := normal) tt
                                                 "Compare Q1 vs Q2 revenue")).1.2)
                 = 3%nat) by (vm_compute; reflexivity).
    rewrite E in Hl. discriminate Hl. }
  split; [exact Hd|].
  destruct (process_data_routines (svc := normal) _
              (advance 2 (start (svc := normal) tt "Compare Q1 vs Q2 revenue")).2 Hd)
    as (_ & _ & Hcmp & _).
  assert (Ht : analysis_type (advance 2 (start (svc := normal) tt
                                            "Compare Q1 vs Q2 revenue")).1.2
               = "comparison") by (vm_compute; reflexivity).
  destruct (Hcmp Ht) as (prompt & state' & env' & _ & _ & _ & E & Ec & _).
  exists prompt, state', env'. auto.
Defined.

(** The claim C6 fails for trend_analysis: on a trend query over three
    rows ProcessData searches the index once more, calls no generator, and
    stores a narrative made from the trend report. *)
Lemma trend_routine_counterexample :
  (advance 2 (start (svc := normal) tt "revenue trend")).1.1 = process_data
  /\ analysis_type (advance 2 (start (svc := normal) tt "revenue trend")).1.2
     = "trend_analysis"
  /\ length (raw_data (advance 2 (start (svc := normal) tt "revenue trend")).1.2) = 3%nat
  /\ (advance 3 (start (svc := normal) tt "revenue trend")).1.1 = generate_insights
  /\ during process_data (calls (advance 3 (start (svc := normal) tt "revenue trend")).2)
     = [Search (PyStr "revenue trend timeline date time year month") ["table"] 15]
  /\ narrative (advance 3 (start (svc := normal) tt "revenue trend")).1.2
     = PyStr "Trend analysis reveals: <dict>"
  /\ error (advance 3 (start (svc := normal) tt "revenue trend")).1.2 = "".
Proof.
  do 6 (refine (conj _ _); [vm_compute; reflexivity|]). vm_compute. reflexivity.
Qed.

(* ================================================================== *)
(** * More properties of the code *)

(** ** Tables and insights of the analytics service *)

Section Tables.
Context {svc : Services}.

Lemma fold_left_app_acc {A B} (f : B -> list A) (l : list B) (acc : list A) :
  fold_left (fun acc x => (acc ++ f x)%list) l acc
  = (acc ++ fold_left (fun acc x => (acc ++ f x)%list) l [])%list.
Proof.
  revert acc. induction l as [|x l IH]; intros acc; cbn.
  - now rewrite app_nil_r.
  - rewrite IH, (IH (f x)), app_assoc. reflexivity.
Qed.

End Tables.

Section Tables2.
Context {svc : Services}.

Lemma extract_table_data_acc docs acc :
  fold_left
    (fun all_data doc =>
       match metadata doc !! "table_data" with
       | Some (PyList table_data) => (all_data ++ table_data)%list
       | Some _ => all_data
       | None => (all_data ++ AnalyticsService._parse_table_content (page_content doc))%list
       end) docs acc
  = (acc ++ AnalyticsService.extract_table_data docs)%list.
Proof.
  unfold AnalyticsService.extract_table_data.
  revert acc. induction docs as [|doc docs IH]; intros acc; cbn [fold_left].
  - now rewrite app_nil_r.
  - rewrite IH. symmetry. rewrite IH. 
    destruct (metadata doc !! "table_data") as [[]|]; cbn [app];
      rewrite ?app_nil_r, ?app_assoc; reflexivity.
Qed.

(** X1.  The rows of several documents are the rows of each, in order.  A
    document whose metadata has a list under "table_data" gives that list
    and its text is not read; one whose "table_data" is no list gives
    nothing, whatever its text; one without the key gives the rows parsed
    from its text. *)
Theorem extract_table_data_by_document :
  (forall docs1 docs2,
     AnalyticsService.extract_table_data (docs1 ++ docs2)
     = (AnalyticsService.extract_table_data docs1
        ++ AnalyticsService.extract_table_data docs2)%list)
  /\ (forall doc rows,
        metadata doc !! "table_data" = Some (PyList rows) ->
        AnalyticsService.extract_table_data [doc] = rows)
  /\ (forall doc v,
        metadata doc !! "table_data" = Some v ->
        (forall rows, v <> PyList rows) ->
        AnalyticsService.extract_table_data [doc] = [])
  /\ (forall doc,
        metadata doc !! "table_data" = None ->
        AnalyticsService.extract_table_data [doc]
        = AnalyticsService._parse_table_content (page_content doc)).
Proof.
  split; [|split; [|split]].
  - intros docs1 docs2. unfold AnalyticsService.extract_table_data at 1.
    rewrite fold_left_app. fold (AnalyticsService.extract_table_data docs1).
    apply extract_table_data_acc.
  - intros doc rows E. unfold AnalyticsService.extract_table_data. cbn. now rewrite E.
  - intros doc v E Hv. unfold AnalyticsService.extract_table_data. cbn. rewrite E.
    destruct v; try reflexivity. now destruct (Hv l).
  - intros doc E. unfold AnalyticsService.extract_table_data. cbn. now rewrite E.
Qed.

End Tables2.

Lemma append_nil_r (s : string) : s +:+ "" = s.
Proof. induction s as [|c s IH]; [reflexivity|]. change (String c (s +:+ "") = String c s). now rewrite IH. Qed.

Lemma length_append (a b : string) :
  String.length (a +:+ b) = (String.length a + String.length b)%nat.
Proof. induction a as [|c a IH]; [reflexivity|]. cbn [String.length]. change (S (String.length (a +:+ b)) = S (String.length a + String.length b)). now rewrite IH. Qed.

Lemma lower_append (a b : string) : lower (a +:+ b) = lower a +:+ lower b.
Proof.
  induction a as [|c a IH]; [reflexivity|].
  change (String (lower_char c) (lower (a +:+ b)) = String (lower_char c) (lower a +:+ lower b)).
  now rewrite IH.
Qed.

Lemma rev_app_append_char (s acc : string) (c : ascii) :
  String.rev_app (s +:+ String c "") acc = String c (String.rev_app s acc).
Proof.
  revert acc. induction s as [|a s IH]; intros acc; [reflexivity|].
  change (String.rev_app (s +:+ String c "") (String a acc)
          = String c (String.rev_app s (String a acc))).
  apply IH.
Qed.

Lemma endswith_append_char (s : string) (c : ascii) :
  endswith (String c "") (s +:+ String c "") = true.
Proof.
  unfold endswith, String.rev. rewrite rev_app_append_char. cbn. now rewrite Ascii.eqb_refl.
Qed.

Lemma any_in_append_l words a b : any_in words a = true -> any_in words (a +:+ b) = true.
Proof.
  unfold any_in. rewrite !existsb_exists. intros (w & Hw & Hin). exists w. split; [exact Hw|].
  apply str_in_spec. apply embeds_app_l. now apply str_in_spec.
Qed.

Section Fallback.
Context {svc : Services}.

Lemma fallback_loop_insights (P : string -> Prop) sentences insights :
  (forall sentence,
     sentence ∈ sentences ->
     (20 <? String.length (strip sentence))%nat = true ->
     any_in ["increase"; "decrease"; "trend"; "significant"; "growth";
             "decline"; "improvement"; "higher"; "lower"] (lower (strip sentence)) = true ->
     P (strip sentence
        +:+ (if negb (endswith "." (strip sentence)) then "." else ""))) ->
  Forall P insights ->
  Forall P (AnalyticsService.fallback_loop sentences insights).
Proof.
  revert insights. induction sentences as [|sentence rest IH]; intros insights HP F;
    cbn [AnalyticsService.fallback_loop].
  - exact F.
  - assert (HP' : forall sentence0,
              sentence0 ∈ rest ->
              (20 <? String.length (strip sentence0))%nat = true ->
              any_in ["increase"; "decrease"; "trend"; "significant"; "growth";
                      "decline"; "improvement"; "higher"; "lower"]
                (lower (strip sentence0)) = true ->
              P (strip sentence0
                 +:+ (if negb (endswith "." (strip sentence0)) then "." else "")))
      by (intros; apply HP; [right|..]; assumption).
    cbv zeta.
    destruct ((20 <? String.length (strip sentence))%nat) eqn:Hlen; cbn [andb]; [|auto].
    destruct (any_in _ (lower (strip sentence))) eqn:Hkw; [|auto].
    assert (Forall P
              (insights ++ [strip sentence
                            +:+ (if negb (endswith "." (strip sentence)) then "." else "")])%list).
    { apply Forall_app. split; [exact F|]. constructor; [|constructor].
      apply HP; [left|..]; auto. }
    destruct (5 <=? length _)%nat; auto.
Qed.

(** X2.  What the fallback keeps of a text that is no JSON: each insight is
    a sentence of the text, stripped, with a full stop added when it has
    none; it has more than twenty characters, ends with a full stop and has
    one of the signal words in it.  A value that is no text raises. *)
Theorem extract_insights_fallback_sentences :
  (forall analysis : string,
     exists found,
       AnalyticsService._extract_insights_fallback (PyStr analysis) = Ok (map PyStr found)
       /\ Forall
            (fun insight =>
               (20 < String.length insight)%nat
               /\ endswith "." insight = true
               /\ any_in ["increase"; "decrease"; "trend"; "significant"; "growth";
                          "decline"; "improvement"; "higher"; "lower"] (lower insight)
                  = true
               /\ exists sentence,
                    sentence ∈ split ". " analysis
                    /\ (insight = strip sentence \/ insight = strip sentence +:+ "."))
            found)
  /\ (forall v,
        (forall text, v <> PyStr text) ->
        AnalyticsService._extract_insights_fallback v
        = Raise ("'" +:+ type_name v +:+ "' object has no attribute 'split'")).
Proof.
  split.
  - intros analysis. eexists. split; [reflexivity|].
    apply Forall_take. apply fallback_loop_insights; [|constructor].
    intros sentence Hin Hlen Hkw. apply Nat.ltb_lt in Hlen.
    destruct (endswith "." (strip sentence)) eqn:He; cbn [negb].
    + rewrite append_nil_r. repeat split; auto. exists sentence. auto.
    + repeat split.
      * rewrite length_append. lia.
      * apply endswith_append_char.
      * rewrite lower_append. now apply any_in_append_l.
      * exists sentence. auto.
  - intros v Hv. destruct v; try reflexivity. now destruct (Hv s).
Qed.

End Fallback.

Section Trends.
Context {svc : Services}.

(** X3.  A trend report costs one search of the table index, for the query
    followed by " timeline date time year month" and fifteen documents, and
    nothing else; what the search raises goes to the caller.  The report
    always carries confidence 0.5, no forecast, no seasonality and no
    anomalies: the analysis of a time series fills in the trends, the
    number of data points and the date range only. *)
Theorem analyze_trends_report query env :
  calls (AnalyticsService.analyze_trends query env).2
  = (calls env
     ++ [Search (PyStr (str query +:+ " timeline date time year month")) ["table"] 15])%list
  /\ (forall e w,
        search_multimodal (PyStr (str query +:+ " timeline date time year month"))
          ["table"] 15 (world env) = (Raise e, w) ->
        (AnalyticsService.analyze_trends query env).1 = Raise e)
  /\ (forall report,
        (AnalyticsService.analyze_trends query env).1 = Ok report ->
        exists trends rest,
          report
          = PyDict ([ ("trends", trends);
                      ("forecast", PyNone);
                      ("seasonality", PyNone);
                      ("anomalies", PyList []);
                      ("confidence", PyFloat 0.5) ] ++ rest)
          /\ (rest = []
              \/ exists data_points date_range,
                   rest = [ ("data_points", data_points); ("date_range", date_range) ])).
Proof.
  unfold AnalyticsService.analyze_trends, bind, call_search, lift, ret.
  destruct (search_multimodal _ _ _ (world env)) as [[search_results|e] w] eqn:Es.
  - destruct (AnalyticsService._extract_time_series _) as [[time_series|]|e]; cbn [fst snd calls].
    + unfold AnalyticsService._analyze_time_series.
      match goal with
      | |- context [match ?x with Ok trends => Ok _ | Raise msg => Raise msg end] =>
          destruct x as [trends|e]
      end; cbn [fst snd calls].
      * split; [reflexivity|]. split; [intros ? ? [=]|].
        intros report [= <-]. eexists _, _. split; [reflexivity|]. right. eauto.
      * split; [reflexivity|]. split; [intros ? ? [=]|]. intros report [=].
    + split; [reflexivity|]. split; [intros ? ? [=]|].
      intros report [= <-]. eexists _, []. split; [reflexivity|]. left. reflexivity.
    + split; [reflexivity|]. split; [intros ? ? [=]|]. intros report [=].
  - cbn [fst snd calls]. split; [reflexivity|]. split; [intros ? ? [= -> _]; reflexivity|].
    intros report [=].
Qed.

(** An insight that is no text stops FormulateRecommendations before it
    calls the generator. *)
Lemma str_items_raises items i :
  Exists (fun v => forall text, v <> PyStr text) items ->
  exists j v,
    items !! j = Some v
    /\ (forall text, v <> PyStr text)
    /\ str_items i items
       = Raise ("sequence item " +:+ str_nat (i + j) +:+ ": expected str instance, "
                +:+ type_name v +:+ " found").
Proof.
  revert i. induction items as [|x items IH]; intros i Hex; [inversion Hex|].
  assert (Hcase : (exists text, x = PyStr text) \/ (forall text, x <> PyStr text))
    by (destruct x; eauto; right; discriminate).
  destruct Hcase as [[text ->]|Hx].
  - inversion Hex as [? ? Hbad|? ? Hrest]; subst; [now destruct (Hbad text)|].
    destruct (IH (S i) Hrest) as (j & v & Hj & Hv & E).
    exists (S j), v. split; [exact Hj|]. split; [exact Hv|].
    cbn [str_items]. rewrite E. now rewrite Nat.add_succ_r.
  - exists 0%nat, x. split; [reflexivity|]. split; [exact Hx|]. rewrite Nat.add_0_r.
    destruct x; try reflexivity. now destruct (Hx s).
Qed.

(** X4.  An insight that is no text stops FormulateRecommendations before
    it calls the generator: joining the insights raises a [TypeError] at
    the first such item, the stage stores it as the error and leaves the
    recommendations as they were. *)
Theorem formulate_recommendations_needs_text state env :
  Exists (fun v => forall text, v <> PyStr text) (insights state) ->
  exists i v,
    insights state !! i = Some v
    /\ (forall text, v <> PyStr text)
    /\ _formulate_recommendations state env
       = (Ok (set_error
                ("Recommendation generation failed: "
                 +:+ "sequence item " +:+ str_nat i +:+ ": expected str instance, "
                 +:+ type_name v +:+ " found") state), env).
Proof.
  intros Hex. destruct (str_items_raises _ 0 Hex) as (i & v & Hi & Hv & E).
  exists i, v. split; [exact Hi|]. split; [exact Hv|].
  unfold _formulate_recommendations, try_except, bind, lift, ret, join_values.
  rewrite E. reflexivity.
Qed.

End Trends.

(** ** Recommendations *)

Section Recommendations.
Context {svc : Services}.

(** X5.  What FormulateRecommendations makes of the generator's answer.
    The stage fails, storing the error, when the insights cannot be joined
    or the generator raises.  Otherwise it has called the generator once,
    and the recommendations are: the list, as it is, when the answer is a
    JSON list; the answer alone when it is other JSON; and when it is no
    JSON, at most five of its lines, stripped, each longer than ten
    characters, in the order of the answer. *)
Theorem formulate_recommendations_outcome state env :
  exists state' env',
    _formulate_recommendations state env = (Ok state', env')
    /\ ((exists e,
           state' = set_error ("Recommendation generation failed: " +:+ e) state
           /\ (join_values "; " (insights state) = Raise e /\ env' = env
               \/ exists prompt w,
                    generate_response prompt "" (world env) = (Raise e, w)
                    /\ calls env' = (calls env ++ [Generate prompt ""])%list))
        \/ exists prompt response found,
             generate_response prompt "" (world env) = (Ok response, world env')
             /\ calls env' = (calls env ++ [Generate prompt ""])%list
             /\ state' = set_recommendations found state
             /\ match json_loads response with
                | Ok (PyList items) => found = items
                | Ok _ => found = [PyStr response]
                | Raise _ =>
                    exists lines,
                      found = map PyStr lines
                      /\ (length lines <= 5)%nat
                      /\ lines `sublist_of` map strip (split nl response)
                      /\ Forall (fun line => (10 < String.length line)%nat) lines
                end).
Proof.
  unfold _formulate_recommendations, try_except, bind, lift, ret.
  destruct (join_values "; " (insights state)) as [joined|e] eqn:Ej.
  - cbv zeta. unfold call_generate.
    match goal with
    | |- context [generate_response ?p "" (world env)] =>
        destruct (generate_response p "" (world env)) as [[response|e] w] eqn:Eg
    end.
    + eexists _, _. split; [reflexivity|]. right. eexists _, response, _.
      cbn [world calls]. split; [exact Eg|]. split; [reflexivity|]. split; [reflexivity|].
      destruct (json_loads response) as [[]|]; try reflexivity.
      eexists. split; [reflexivity|]. split; [|split].
      * rewrite length_take. lia.
      * etransitivity; [apply sublist_take|].
        etransitivity; [apply sublist_filter|]. apply sublist_filter.
      * apply Forall_take. apply Forall_forall. intros line Hin.
        apply list_elem_of_filter in Hin. destruct Hin as [Hlen _]. exact Hlen.
    + eexists _, _. split; [reflexivity|]. left. exists e. split; [reflexivity|].
      right. eexists _, w. split; [exact Eg|]. reflexivity.
  - eexists _, _. split; [reflexivity|]. left. exists e. split; [reflexivity|]. left. auto.
Qed.

End Recommendations.

(** ** Time series *)

Section TimeSeries.
Context {svc : Services}.
Import Series.

Import AnalyticsService.

Lemma insert_by_date_perm item sorted : insert_by_date item sorted ≡ₚ item :: sorted.
Proof.
  induction sorted as [|x rest IH]; cbn [insert_by_date]; [reflexivity|].
  destruct (datetime_ltb item.1 x.1); [reflexivity|].
  rewrite IH. apply Permutation_swap.
Qed.

Lemma sorted_by_date_acc_perm items acc :
  fold_left (fun sorted item => insert_by_date item sorted) items acc ≡ₚ (acc ++ items)%list.
Proof.
  revert acc. induction items as [|x items IH]; intros acc; cbn [fold_left].
  - now rewrite app_nil_r.
  - rewrite IH, insert_by_date_perm. rewrite (Permutation_middle acc items x). reflexivity.
Qed.

Lemma sorted_by_date_perm items : sorted_by_date items ≡ₚ items.
Proof. unfold sorted_by_date. now rewrite sorted_by_date_acc_perm. Qed.

Lemma insert_by_date_last item sorted :
  Forall (fun x => not_after x item) sorted ->
  insert_by_date item sorted = (sorted ++ [item])%list.
Proof.
  induction 1 as [|x rest Hx _ IH]; cbn [insert_by_date]; [reflexivity|].
  unfold not_after in Hx. rewrite Hx, IH. reflexivity.
Qed.

Lemma sorted_by_date_acc_sorted items acc :
  StronglySorted not_after (acc ++ items) ->
  fold_left (fun sorted item => insert_by_date item sorted) items acc = (acc ++ items)%list.
Proof.
  revert acc. induction items as [|x items IH]; intros acc Hs; cbn [fold_left].
  - now rewrite app_nil_r.
  - rewrite insert_by_date_last.
    + rewrite IH; rewrite <- app_assoc; [reflexivity | exact Hs].
    + apply Forall_forall. intros a Ha.
      eapply StronglySorted_app_1_elem_of; [exact Hs | exact Ha | left].
Qed.

Section Ordered.
Hypothesis ltb_asym :
  forall a b : DateTime, datetime_ltb a b = true -> datetime_ltb b a = false.
Hypothesis not_after_trans :
  forall a b c : DateTime,
    datetime_ltb b a = false -> datetime_ltb c b = false -> datetime_ltb c a = false.

Lemma insert_by_date_sorted item sorted :
  StronglySorted not_after sorted -> StronglySorted not_after (insert_by_date item sorted).
Proof using ltb_asym not_after_trans.
  induction 1 as [|x rest Hs IH Hx]; cbn [insert_by_date].
  - repeat constructor.
  - destruct (datetime_ltb item.1 x.1) eqn:E.
    + constructor; [constructor; assumption|].
      constructor; [exact (ltb_asym _ _ E)|].
      eapply Forall_impl; [exact Hx|]. intros y Hy. unfold not_after in *.
      exact (not_after_trans _ _ _ (ltb_asym _ _ E) Hy).
    + constructor; [exact IH|].
      rewrite insert_by_date_perm. constructor; [exact E | exact Hx].
Qed.

Lemma sorted_by_date_acc_keeps items acc :
  StronglySorted not_after acc ->
  StronglySorted not_after
    (fold_left (fun sorted item => insert_by_date item sorted) items acc).
Proof using ltb_asym not_after_trans.
  revert acc. induction items as [|x items IH]; intros acc Hs; cbn [fold_left]; [exact Hs|].
  apply IH, insert_by_date_sorted, Hs.
Qed.

Lemma sorted_by_date_sorted items : StronglySorted not_after (sorted_by_date items).
Proof using ltb_asym not_after_trans. apply sorted_by_date_acc_keeps. constructor. Qed.

End Ordered.

Lemma dated_by_records record columns entries :
  dated_by record columns = Ok entries -> Forall (fun e => e.2 = record) entries.
Proof.
  revert entries. induction columns as [|col columns IH]; intros entries; cbn [dated_by].
  - intros [= <-]. constructor.
  - destruct (dated record col) as [found|e]; [|discriminate].
    destruct (dated_by record columns) as [more|e]; [|discriminate].
    intros [= <-]. specialize (IH more eq_refl). destruct found; [constructor|]; auto.
Qed.

Lemma series_records data columns entries :
  series data columns = Ok entries -> Forall (fun e => e.2 ∈ data) entries.
Proof.
  revert entries. induction data as [|record data IH]; intros entries; cbn [series].
  - intros [= <-]. constructor.
  - destruct (dated_by record columns) as [found|e] eqn:Ed; [|discriminate].
    destruct (series data columns) as [more|e]; [|discriminate].
    intros [= <-]. apply Forall_app. split.
    + eapply Forall_impl; [exact (dated_by_records _ _ _ Ed)|].
      intros e ->. left.
    + eapply Forall_impl; [exact (IH more eq_refl)|]. intros e He. now right.
Qed.

Section Ordered2.
Hypothesis ltb_asym :
  forall a b : DateTime, datetime_ltb a b = true -> datetime_ltb b a = false.
Hypothesis not_after_trans :
  forall a b c : DateTime,
    datetime_ltb b a = false -> datetime_ltb c b = false -> datetime_ltb c a = false.

(** X6.  When dates are ordered as dates are, a time series that
    [_extract_time_series] returns is not empty and runs from the earliest
    entry to the latest; it is a rearrangement of the entries that the
    records give under the date columns, and each of its entries carries a
    record of the data.  Sorting it again, as [_analyze_time_series] does,
    leaves it as it is. *)
Theorem extract_time_series_sorted data time_series :
  _extract_time_series data = Ok (Some time_series) ->
  time_series <> []
  /\ StronglySorted not_after time_series
  /\ (exists columns entries,
        date_columns (take 5 data) = Ok columns
        /\ series data columns = Ok entries
        /\ time_series ≡ₚ entries)
  /\ Forall (fun entry => entry.2 ∈ data) time_series
  /\ sorted_by_date time_series = time_series.
Proof using ltb_asym not_after_trans.
  unfold _extract_time_series. destruct data as [|d data]; [discriminate|].
  destruct (date_columns (take 5 (d :: data))) as [[|c columns]|e] eqn:Ec; try discriminate.
  destruct (series (d :: data) (c :: columns)) as [[|entry entries]|e] eqn:Es;
    try discriminate.
  intros [= <-].
  pose proof (sorted_by_date_perm (entry :: entries)) as Hp.
  pose proof (sorted_by_date_sorted ltb_asym not_after_trans (entry :: entries)) as Hs.
  split; [|split; [exact Hs|split; [|split]]].
  - intros E. rewrite E in Hp. now apply Permutation_nil_cons in Hp.
  - exists (c :: columns), (entry :: entries). auto.
  - rewrite Hp. exact (series_records _ _ _ Es).
  - unfold sorted_by_date at 1. now rewrite (sorted_by_date_acc_sorted _ []).
Qed.

End Ordered2.

(** *** Trends *)

Lemma trend_entry_raises col first rest :
  (exists msg, trend_entry col first rest = Raise msg)
  <-> PrimFloat.eqb first 0 = true
      /\ (PrimFloat.ltb first (List.last rest first) = true
          \/ PrimFloat.ltb (List.last rest first) first = true).
Proof.
  unfold trend_entry, divide. cbv zeta.
  destruct (PrimFloat.ltb first (List.last rest first)) eqn:E1;
    [| destruct (PrimFloat.ltb (List.last rest first) first) eqn:E2];
    destruct (PrimFloat.eqb first 0) eqn:E0;
    (split;
     [ intros [msg Hm]; try discriminate Hm
     | intros [H0 [H1|H1]]; try discriminate H0; try discriminate H1 ]);
    eauto.
Qed.

Lemma trend_entry_message col first rest msg :
  trend_entry col first rest = Raise msg -> msg = "float division by zero".
Proof.
  unfold trend_entry, divide. cbv zeta.
  destruct (PrimFloat.ltb first (List.last rest first));
    [| destruct (PrimFloat.ltb (List.last rest first) first)];
    destruct (PrimFloat.eqb first 0); intros [=]; auto.
Qed.

(** X7.  The trends of the numeric columns fail in one way only: with
    "float division by zero", and exactly when one of the columns has two
    values or more along the series, the first of them zero and the last
    another number. *)
Theorem column_trends_division_by_zero cols sorted_data :
  ((exists msg, column_trends cols sorted_data = Raise msg)
   <-> Exists (fun col => starts_at_zero (column_values col sorted_data) = true) cols)
  /\ (forall msg,
        column_trends cols sorted_data = Raise msg -> msg = "float division by zero").
Proof.
  induction cols as [|col cols [IH1 IH2]]; cbn [column_trends].
  - split; [|intros msg [=]]. split; [intros [msg [=]] | intros H; inversion H].
  - assert (Hcol :
        (exists msg,
           match column_values col sorted_data with
           | first :: (_ :: _) as rest =>
               match trend_entry col first rest with
               | Ok entry => Ok [entry]
               | Raise msg => Raise msg
               end
           | _ => Ok []
           end = Raise msg)
        <-> starts_at_zero (column_values col sorted_data) = true).
    { unfold starts_at_zero.
      destruct (column_values col sorted_data) as [|first [|second rest]].
      - split; [intros [msg [=]] | intros [=]].
      - split; [intros [msg [=]] | intros [=]].
      - rewrite andb_true_iff, orb_true_iff,
          <- (trend_entry_raises col first (second :: rest)).
        destruct (trend_entry col first (second :: rest)); split;
          intros [m [=]]; eauto. }
    assert (Hmsg :
        forall msg,
          match column_values col sorted_data with
          | first :: (_ :: _) as rest =>
              match trend_entry col first rest with
              | Ok entry => Ok [entry]
              | Raise msg => Raise msg
              end
          | _ => Ok []
          end = Raise msg -> msg = "float division by zero").
    { intros msg. destruct (column_values col sorted_data) as [|first [|second rest]];
        try discriminate.
      destruct (trend_entry col first (second :: rest)) eqn:E; [discriminate|].
      intros [= <-]. exact (trend_entry_message _ _ _ _ E). }
    match type of Hcol with
    | (exists msg, ?x = Raise msg) <-> _ => destruct x as [entry|e]
    end.
    + split.
      * rewrite Exists_cons, <- Hcol, <- IH1.
        destruct (column_trends cols sorted_data); split.
        -- intros [m [=]].
        -- intros [[m [=]]|[m [=]]].
        -- intros [m [= <-]]. right. eauto.
        -- intros _. eauto.
      * intros m. destruct (column_trends cols sorted_data); [discriminate|].
        intros [= <-]. apply IH2. reflexivity.
    + split.
      * rewrite Exists_cons, <- Hcol. split; eauto.
      * intros m [= <-]. apply Hmsg. reflexivity.
Qed.

End TimeSeries.

Section Repeats.
Context {svc : Services}.
Import Series.
Import AnalyticsService.

Lemma date_columns_repeat col records :
  Forall (dated_under col) records ->
  date_columns records = Ok (repeat col (length records)).
Proof.
  induction 1 as [|record records (d & text & -> & Hf & _) _ IH]; [reflexivity|].
  cbn [date_columns]. rewrite IH, Hf. reflexivity.
Qed.

Lemma dated_by_repeat col record k :
  dated_under col record ->
  exists entries,
    dated_by record (repeat col k) = Ok entries /\ map snd entries = repeat record k.
Proof.
  intros (d & text & -> & _ & Hg & [t Ht]).
  induction k as [|k (entries & E & Hm)]; [exists []; auto|].
  exists ((t, PyDict d) :: entries). cbn [repeat dated_by dated]. rewrite Hg, Ht, E.
  cbn [map snd]. now rewrite Hm.
Qed.

Lemma series_repeat col data k :
  Forall (dated_under col) data ->
  exists entries,
    series data (repeat col k) = Ok entries
    /\ map snd entries = flat_map (fun record => repeat record k) data.
Proof.
  induction 1 as [|record data Hr _ (more & E & Hm)]; [exists []; auto|].
  destruct (dated_by_repeat col record k Hr) as (entries & Ed & He).
  exists (entries ++ more)%list. cbn [series flat_map]. rewrite Ed, E.
  now rewrite map_app, He, Hm.
Qed.

(** X8.  The date columns are collected from the first five records
    without a check for repeats: when every record has the one date column
    and a date under it that parses, each record is entered in the time
    series once for each of the first five records, so a table of n
    records gives a series of n * min(5, n) entries. *)
Theorem time_series_repeats_records col data :
  data <> [] ->
  Forall (dated_under col) data ->
  exists time_series,
    _extract_time_series data = Ok (Some time_series)
    /\ map snd time_series
       ≡ₚ flat_map (fun record => repeat record (Nat.min 5 (length data))) data
    /\ length time_series = (length data * Nat.min 5 (length data))%nat.
Proof.
  intros Hne Hd.
  assert (Hc : date_columns (take 5 data) = Ok (repeat col (Nat.min 5 (length data)))).
  { rewrite (date_columns_repeat col) by now apply Forall_take.
    now rewrite length_take. }
  destruct (series_repeat col data (Nat.min 5 (length data)) Hd) as (entries & Es & Hm).
  destruct data as [|record data]; [congruence|].
  unfold _extract_time_series. rewrite Hc, Es.
  cbn [length] in *. change (Nat.min 5 (S (length data))) with (S (Nat.min 4 (length data))) in *.
  cbn [repeat flat_map] in *.
  destruct entries as [|entry entries]; [discriminate|].
  exists (sorted_by_date (entry :: entries)).
  pose proof (sorted_by_date_perm (entry :: entries)) as Hp.
  split; [reflexivity|].
  assert (Hs : map snd (sorted_by_date (entry :: entries))
               ≡ₚ (record :: repeat record (Nat.min 4 (length data)))
                   ++ flat_map (fun r => repeat r (S (Nat.min 4 (length data)))) data).
  { rewrite Hp, Hm. reflexivity. }
  split; [exact Hs|].
  rewrite <- (length_map snd), Hs.
  change (record :: repeat record (Nat.min 4 (length data)))
    with (repeat record (S (Nat.min 4 (length data)))).
  rewrite length_app, repeat_length.
  assert (Hl : forall (l : list pyval) k,
                 length (flat_map (fun r => repeat r k) l) = (length l * k)%nat).
  { intros l k. induction l as [|x l IH]; [reflexivity|].
    cbn [flat_map length]. rewrite length_app, repeat_length, IH. lia. }
  rewrite Hl. lia.
Qed.

End Repeats.

(** ** Confidence and comparison of the analytics service *)

Section Service.
Context {svc : Services} {lib : Library}.

Lemma numeric_cells_raises records msg :
  AnalyticsService.numeric_cells records = Raise msg ->
  Exists (fun record => forall d, record <> PyDict d) records.
Proof.
  induction records as [|record records IH]; [discriminate|].
  cbn [AnalyticsService.numeric_cells].
  destruct record;
    try (intros _; apply Exists_cons_hd; discriminate).
  destruct (AnalyticsService.numeric_cells records); [discriminate|].
  intros [= <-]. apply Exists_cons_tl. now apply IH.
Qed.

Lemma numeric_cells_one_column records :
  Forall (fun record => exists d, record = PyDict d /\ (length d <= 1)%nat) records ->
  exists n, AnalyticsService.numeric_cells records = Ok n /\ (n <= length records)%nat.
Proof.
  induction 1 as [|record records (d & -> & Hd) _ (n & E & Hn)].
  - exists 0%nat. split; [reflexivity|cbn; lia].
  - cbn [AnalyticsService.numeric_cells]. rewrite E. eexists. split; [reflexivity|].
    pose proof (filter_length_le
                  (fun kv : string * pyval =>
                     match AnalyticsService.number_of kv.2 with
                     | Some _ => true
                     | None => false
                     end) d).
    cbn [length]. lia.
Qed.

(** X9.  The confidence the service gives an analysis is at least 0.5 and
    never reaches 1: the cap at 1.0 is never needed.  Records of one
    column each get no bonus for numbers, however many they are and
    whatever they hold: the bonus takes more than ten numeric cells in the
    first ten records.  The function raises only on a record, among the
    first ten, that is no dict, or on an analysis that has no length. *)
Theorem service_confidence_bounds data analysis :
  match AnalyticsService._calculate_confidence data analysis with
  | Ok confidence =>
      PrimFloat.leb 0.5 confidence = true
      /\ PrimFloat.ltb confidence 1 = true
      /\ (Forall (fun record => exists d, record = PyDict d /\ (length d <= 1)%nat) data ->
          PrimFloat.leb confidence 0.8 = true)
  | Raise msg =>
      Exists (fun record => forall d, record <> PyDict d) (take 10 data)
      \/ len analysis = Raise msg
  end.
Proof.
  unfold AnalyticsService._calculate_confidence. cbv zeta.
  destruct (match data with [] => Ok 0%nat | _ => AnalyticsService.numeric_cells (take 10 data) end)
    as [numeric_count|msg] eqn:En.
  - destruct (len analysis) as [analysis_len|msg]; [|right; reflexivity].
    split; [|split].
    + destruct (100 <? length data)%nat, (50 <? length data)%nat, (10 <? numeric_count)%nat,
        (500 <? analysis_len)%nat; vm_compute; reflexivity.
    + destruct (100 <? length data)%nat, (50 <? length data)%nat, (10 <? numeric_count)%nat,
        (500 <? analysis_len)%nat; vm_compute; reflexivity.
    + intros F.
      assert (Hn : (numeric_count <= 10)%nat).
      { destruct data as [|record data]; [injection En as <-; lia|].
        destruct (numeric_cells_one_column (take 10 (record :: data)))
          as (n & E & Hle); [now apply Forall_take|].
        rewrite E in En. injection En as <-. rewrite length_take in Hle. lia. }
      apply Nat.ltb_ge in Hn. rewrite Hn.
      destruct (100 <? length data)%nat, (50 <? length data)%nat,
        (500 <? analysis_len)%nat; vm_compute; reflexivity.
  - left. destruct data as [|record data]; [discriminate|].
    exact (numeric_cells_raises _ _ En).
Qed.

(** X10.  Comparing two datasets: the table index is searched for the
    first dataset and then for the second, ten documents each, and then
    the generator is asked once, with a prompt that has the query and the
    two record counts in it.  The result reports the generator's answer as
    the comparison, the two counts and the query.  Nothing is handled:
    the comparison raises what the first call to raise raises, and the
    calls after that one are not made. *)
Theorem compare_datasets_calls query dataset_a_query dataset_b_query env :
  match search_multimodal dataset_a_query ["table"] 10 (world env) with
  | (Raise e, w1) =>
      AnalyticsService.compare_datasets query dataset_a_query dataset_b_query env
      = (Raise e,
         {| world := w1;
            calls := (calls env ++ [Search dataset_a_query ["table"] 10])%list |})
  | (Ok found_a, w1) =>
      match search_multimodal dataset_b_query ["table"] 10 w1 with
      | (Raise e, w2) =>
          AnalyticsService.compare_datasets query dataset_a_query dataset_b_query env
          = (Raise e,
             {| world := w2;
                calls := (calls env
                          ++ [ Search dataset_a_query ["table"] 10;
                               Search dataset_b_query ["table"] 10 ])%list |})
      | (Ok found_b, w2) =>
          let size_a :=
            length (AnalyticsService.extract_table_data (default [] (found_a !! "table"))) in
          let size_b :=
            length (AnalyticsService.extract_table_data (default [] (found_b !! "table"))) in
          exists prompt,
            embeds ("        Compare these two datasets and answer: " +:+ str query) prompt
            /\ embeds ("        Dataset A: " +:+ str_nat size_a +:+ " records") prompt
            /\ embeds ("        Dataset B: " +:+ str_nat size_b +:+ " records  ") prompt
            /\ AnalyticsService.compare_datasets query dataset_a_query dataset_b_query env
               = match generate_response prompt "" w2 with
                 | (Ok analysis, w3) =>
                     (Ok {[ "comparison" := PyStr analysis;
                            "dataset_a_size" := PyInt (Z.of_nat size_a);
                            "dataset_b_size" := PyInt (Z.of_nat size_b);
                            "query" := query ]},
                      {| world := w3;
                         calls := (calls env
                                   ++ [ Search dataset_a_query ["table"] 10;
                                        Search dataset_b_query ["table"] 10;
                                        Generate prompt "" ])%list |})
                 | (Raise e, w3) =>
                     (Raise e,
                      {| world := w3;
                         calls := (calls env
                                   ++ [ Search dataset_a_query ["table"] 10;
                                        Search dataset_b_query ["table"] 10;
                                        Generate prompt "" ])%list |})
                 end
      end
  end.
Proof.
  unfold AnalyticsService.compare_datasets, AnalyticsService._perform_comparison,
    bind, ret, call_search, call_generate.
  destruct (search_multimodal dataset_a_query _ _ (world env)) as [[ra|e] w1];
    cbn [world calls]; [|reflexivity].
  destruct (search_multimodal dataset_b_query _ _ w1) as [[rb|e] w2];
    cbn [world calls]; [|now rewrite <- !app_assoc].
  cbv zeta.
  match goal with
  | |- context [generate_response ?p "" w2] => exists p
  end.
  split; [cbn [join]; find_piece|]. split; [cbn [join]; find_piece|].
  split; [cbn [join]; find_piece|].
  match goal with
  | |- context [generate_response ?p "" w2] =>
      destruct (generate_response p "" w2) as [[analysis|e] w3]
  end; cbn [calls]; now rewrite <- !app_assoc.
Qed.

End Service.

(** ** The calls of an analytics query *)

Section Budget.
Context {svc : Services}.
Import Calls.

Lemma searches_app a b : searches (a ++ b) = (searches a + searches b)%nat.
Proof. unfold searches. now rewrite List.filter_app, length_app. Qed.
Lemma generations_app a b : generations (a ++ b) = (generations a + generations b)%nat.
Proof. unfold generations. now rewrite List.filter_app, length_app. Qed.
Lemma charts_drawn_app a b : charts_drawn (a ++ b) = (charts_drawn a + charts_drawn b)%nat.
Proof. unfold charts_drawn. now rewrite List.filter_app, length_app. Qed.

Lemma spends_ret {A} (a : A) : spends 0 0 0 0 (ret a).
Proof. intros env. exists []. cbn. rewrite app_nil_r. repeat split; lia. Qed.

Lemma spends_lift {A} (r : res A) : spends 0 0 0 0 (lift r).
Proof. intros env. exists []. cbn. rewrite app_nil_r. repeat split; lia. Qed.

Lemma spends_bind {A B} s1 g1 c1 t1 s2 g2 c2 t2 (m : M A) (k : A -> M B) :
  spends s1 g1 c1 t1 m -> (forall a, spends s2 g2 c2 t2 (k a)) ->
  spends (s1 + s2) (g1 + g2) (c1 + c2) (t1 + t2) (bind m k).
Proof.
  intros Hm Hk env. unfold bind. destruct (Hm env) as (evs1 & E1 & ? & ? & ? & ?).
  destruct (m env) as [[a|e] env1]; cbn [snd] in *.
  - destruct (Hk a env1) as (evs2 & E2 & ? & ? & ? & ?). exists (evs1 ++ evs2)%list.
    rewrite E2, E1, app_assoc, searches_app, generations_app, charts_drawn_app.
    repeat split; lia.
  - exists evs1. repeat split; auto; lia.
Qed.

Lemma spends_try {A} s1 g1 c1 t1 s2 g2 c2 t2 (body : M A) (handler : string -> M A) :
  spends s1 g1 c1 t1 body -> (forall e, spends s2 g2 c2 t2 (handler e)) ->
  spends (s1 + s2) (g1 + g2) (c1 + c2) (t1 + t2) (try_except body handler).
Proof.
  intros Hm Hk env. unfold try_except. destruct (Hm env) as (evs1 & E1 & ? & ? & ? & ?).
  destruct (body env) as [[a|e] env1]; cbn [snd] in *.
  - exists evs1. repeat split; auto; lia.
  - destruct (Hk e env1) as (evs2 & E2 & ? & ? & ? & ?). exists (evs1 ++ evs2)%list.
    rewrite E2, E1, app_assoc, searches_app, generations_app, charts_drawn_app.
    repeat split; lia.
Qed.

Lemma spends_more {A} s g c t s' g' c' t' (m : M A) :
  spends s g c t m -> (s <= s')%nat -> (g <= g')%nat -> (c <= c')%nat -> (t <= t')%nat ->
  spends s' g' c' t' m.
Proof.
  intros Hm ? ? ? ? env. destruct (Hm env) as (evs & E & ? & ? & ? & ?).
  exists evs. repeat split; auto; lia.
Qed.

Lemma spends_search query content_types k :
  spends 1 0 0 1 (call_search query content_types k).
Proof.
  intros env. exists [Search query content_types k]. unfold call_search.
  destruct (search_multimodal _ _ _ _); cbn. repeat split; lia.
Qed.

Lemma spends_generate prompt context : spends 0 1 0 1 (call_generate prompt context).
Proof.
  intros env. exists [Generate prompt context]. unfold call_generate.
  destruct (generate_response _ _ _); cbn. repeat split; lia.
Qed.

Lemma spends_chart query docs : spends 0 0 1 1 (call_chart query docs).
Proof.
  intros env. exists [Chart query docs]. unfold call_chart.
  destruct (generate_chart_from_query _ _ _); cbn. repeat split; lia.
Qed.

Lemma spends_then {A B} s g c t s1 g1 c1 t1 (m : M A) (k : A -> M B) :
  spends s1 g1 c1 t1 m ->
  (forall a, spends (s - s1) (g - g1) (c - c1) (t - t1) (k a)) ->
  (s1 <= s)%nat -> (g1 <= g)%nat -> (c1 <= c)%nat -> (t1 <= t)%nat ->
  spends s g c t (bind m k).
Proof.
  intros Hm Hk ? ? ? ?. eapply spends_more; [exact (spends_bind _ _ _ _ _ _ _ _ _ _ Hm Hk)|lia..].
Qed.

Lemma spends_handled {A} s g c t (body : M A) (handler : string -> M A) :
  spends s g c t body -> (forall e, spends 0 0 0 0 (handler e)) ->
  spends s g c t (try_except body handler).
Proof.
  intros Hm Hk. eapply spends_more; [exact (spends_try _ _ _ _ _ _ _ _ _ _ Hm Hk)|lia..].
Qed.

Lemma spends_nothing {A} s g c t (m : M A) : spends 0 0 0 0 m -> spends s g c t m.
Proof. intros Hm. eapply spends_more; [exact Hm|lia..]. Qed.

Create HintDb spends.
#[local] Hint Resolve spends_search spends_generate spends_chart : spends.

(** Goes through a computation with a budget in numbers: a call takes its
    cost off the budget of what follows. *)
Ltac spend :=
  repeat first
    [ apply spends_nothing; first [apply spends_ret | apply spends_lift]
    | eapply spends_more; [solve [eauto with spends]|cbn; lia..]
    | eapply spends_then;
        [solve [eauto with spends | apply spends_lift | apply spends_ret]
        |intros ?; cbn [Nat.sub]|cbn; lia..]
    | apply spends_handled; [|intros ?]
    | match goal with
      | |- spends _ _ _ _ (match ?x with _ => _ end) => destruct x
      | |- spends _ _ _ _ (bind (match ?x with _ => _ end) _) => destruct x
      end
    | progress cbv zeta ].

Lemma analyze_trends_spends query : spends 1 0 0 1 (AnalyticsService.analyze_trends query).
Proof. unfold AnalyticsService.analyze_trends. spend. Qed.

Lemma extract_insights_spends analysis data :
  spends 0 1 0 1 (AnalyticsService.extract_insights analysis data).
Proof. unfold AnalyticsService.extract_insights. spend. Qed.

#[local] Hint Resolve analyze_trends_spends extract_insights_spends : spends.

Lemma routine_spends analysis_type query data :
  spends 1 1 0 1 (routine analysis_type query data).
Proof.
  unfold routine.
  destruct (String.eqb analysis_type "trend_analysis");
    [| destruct (String.eqb analysis_type "comparison");
       [| destruct (String.eqb analysis_type "summary")]];
    unfold _process_trend_data, _process_comparison_data, _process_summary_data,
      _process_general_data; spend.
Qed.

(** What one stage spends. *)
Lemma node_action_spends n state :
  spends (match n with gather_data | process_data => 1 | _ => 0 end)
         (match n with
          | process_data | generate_insights | formulate_recommendations => 1
          | _ => 0
          end)
         (match n with create_visualizations => 1 | _ => 0 end)
         (match n with
          | classify_query | calculate_confidence | handle_error => 0
          | _ => 1
          end)
         (node_action n state).
Proof.
  destruct n; cbn [node_action].
  - unfold _classify_query. spend.
  - intros env. rewrite gather_data_eq.
    destruct (spends_search (query state) (breadth (analysis_type state)).1
                (breadth (analysis_type state)).2 env) as (evs & E & H).
    exists evs. destruct (call_search _ _ _ env) as [[r|e] env']; cbn [snd] in *;
      (split; [exact E|exact H]).
  - intros env. rewrite process_data_eq. destruct (raw_data state).
    + exists []. cbn. rewrite app_nil_r. repeat split; lia.
    + destruct (routine_spends (analysis_type state) (query state) (p :: l) env)
        as (evs & E & H).
      exists evs. destruct (routine _ _ _ env) as [[r|e] env']; cbn [snd] in *;
        (split; [exact E|exact H]).
  - unfold _generate_insights. spend.
  - intros env. rewrite create_visualizations_eq. destruct (charted state).
    + destruct (spends_chart (query state) [table_document (raw_data state)] env)
        as (evs & E & H).
      exists evs. destruct (call_chart _ _ env) as [[r|e] env']; cbn [snd] in *;
        (split; [exact E|exact H]).
    + exists []. cbn. rewrite app_nil_r. repeat split; lia.
  - unfold _formulate_recommendations. spend.
  - unfold _calculate_confidence. spend.
  - unfold _handle_error. spend.
Qed.

Lemma spends_enter n : spends 0 0 0 0 (emit (Enter n)).
Proof. intros env. exists [Enter n]. cbn. repeat split; lia. Qed.

Lemma bind_lift_ok {A B} (a : A) (k : A -> M B) : bind (lift (Ok a)) k = k a.
Proof. reflexivity. Qed.

Lemma run_spends k n state :
  spends (allowance n).1.1.1 (allowance n).1.1.2 (allowance n).1.2 (allowance n).2
    (run k n state).
Proof.
  revert n state. induction k as [|k IH]; intros n state; cbn [run].
  - apply spends_nothing, spends_lift.
  - eapply spends_then; [apply spends_enter | intros _ | lia..].
    eapply spends_then; [apply node_action_spends | intros state' | destruct n; cbn; lia..].
    destruct n; cbn [successor].
    + unfold _should_continue_after_classification.
      destruct (truthy (PyStr (error state'))); cbn [path_lookup conditional_edges String.eqb];
        cbn; rewrite bind_lift_ok.
      * eapply spends_more; [apply (IH handle_error)|cbn; lia..].
      * apply (IH gather_data).
    + rewrite bind_lift_ok. apply (IH process_data).
    + rewrite bind_lift_ok. apply (IH generate_insights).
    + rewrite bind_lift_ok. apply (IH create_visualizations).
    + rewrite bind_lift_ok. apply (IH formulate_recommendations).
    + rewrite bind_lift_ok. apply (IH calculate_confidence).
    + rewrite bind_lift_ok. apply spends_ret.
    + rewrite bind_lift_ok. apply spends_ret.
Qed.

(** X11.  What a query costs: whatever the collaborators answer, one call of
    the entry point searches the index at most twice, asks the generator at
    most three times and the chart generator at most once, five calls in
    all at most. *)
Theorem process_analytics_query_calls query analysis_type env :
  exists evs,
    calls (process_analytics_query query analysis_type env).2 = (calls env ++ evs)%list
    /\ (searches evs <= 2)%nat
    /\ (generations evs <= 3)%nat
    /\ (charts_drawn evs <= 1)%nat
    /\ (searches evs + generations evs + charts_drawn evs <= 5)%nat.
Proof.
  assert (H : spends 2 3 1 5 (process_analytics_query query analysis_type)).
  { unfold process_analytics_query. cbv zeta. apply spends_handled.
    - apply (spends_then _ _ _ _ 2 3 1 5); [apply (run_spends _ classify_query)| |lia..].
      intros result. apply spends_ret.
    - intros e. apply spends_ret. }
  exact (H env).
Qed.

End Budget.

(** ** The RAG graph *)

Section Rag.
Context {svc : Services} {lib : Library}.
Import RagGraph MultimodalRAGGraph RagRun.

Lemma analyze_query_text query :
  _analyze_query (initial (PyStr query)) = Ok (analyzed query).
Proof.
  unfold _analyze_query, initial, analyzed, requested, RagSpec.requires_charts. cbn [lower_of RagGraph.query].
  cbv zeta.
  destruct (any_in ["table"; "data"; "statistics"; "numbers"; "trend"; "chart"] _),
    (any_in ["image"; "figure"; "diagram"; "photo"; "picture"] _); reflexivity.
Qed.

Lemma content_types_of_texts l : content_types_of (map PyStr l) = Ok l.
Proof. induction l as [|x l IH]; cbn; [reflexivity|]. now rewrite IH. Qed.

Lemma retrieve_documents_analyzed query env :
  _retrieve_documents (analyzed query) env
  = match call_search (PyStr query) (requested query) 5 env with
    | (Ok docs, env') => (Ok (set_retrieved_docs docs (analyzed query)), env')
    | (Raise _, env') => (Ok (set_retrieved_docs ∅ (analyzed query)), env')
    end.
Proof.
  unfold _retrieve_documents, try_except, bind, lift, ret.
  replace (RagGraph.metadata (analyzed query) !! "content_types")
    with (Some (PyList (map PyStr (requested query)))) by (symmetry; apply lookup_insert_eq).
  rewrite content_types_of_texts. cbn [RagGraph.query analyzed].
  destruct (call_search _ _ _ env) as [[docs|e] env']; reflexivity.
Qed.

Lemma generate_response_eq state env :
  _generate_response state env
  = match call_generate (str (RagGraph.query state)) (context state) env with
    | (Ok answer, env') => (Ok (set_response answer state), env')
    | (Raise _, env') => (Ok (set_response apology state), env')
    end.
Proof.
  unfold _generate_response, try_except, bind, ret.
  destruct (call_generate _ _ env) as [[answer|e] env']; reflexivity.
Qed.

Lemma generate_charts_eq state env :
  _generate_charts state env
  = if truthy (default (PyBool false) (RagGraph.metadata state !! "requires_charts"))
       && match default [] (retrieved_docs state !! "table") with [] => false | _ => true end
    then
      match call_chart (RagGraph.query state) (default [] (retrieved_docs state !! "table"))
              env with
      | (Ok chart, env') => (Ok (set_chart_data chart state), env')
      | (Raise _, env') => (Ok (set_chart_data (PyDict []) state), env')
      end
    else (Ok (set_chart_data (PyDict []) state), env).
Proof.
  unfold _generate_charts, try_except, bind, ret.
  destruct (truthy _); cbn [negb andb]; [|reflexivity].
  cbv zeta. destruct (default [] (retrieved_docs state !! "table")) as [|doc docs];
    [reflexivity|].
  destruct (call_chart _ _ env) as [[chart|e] env']; reflexivity.
Qed.

Lemma finalize_response_eq q d c r ch m env :
  _finalize_response
    {| query := q; retrieved_docs := d; context := c; response := r; chart_data := ch;
       metadata := m |} env
  = (Ok {| query := q; retrieved_docs := d; context := c;
           response := with_sources r d; chart_data := ch; metadata := m |}, env).
Proof.
  unfold _finalize_response, with_sources, ret. cbv zeta.
  fold (sources_of d).
  cbn [retrieved_docs]. fold (sources_of d). destruct (sources_of d); reflexivity.
Qed.

Lemma process_query_pipeline query env :
  process_query (PyStr query) env = pipeline query env.
Proof.
  unfold process_query, ainvoke, AnalyticsGraph.recursion_limit, entry_point, pipeline.
  fold (initial (PyStr query)).
  cbn [run stage_action successor]. unfold bind at 1 2. unfold lift at 1.
  rewrite analyze_query_text. unfold bind at 1.
  rewrite retrieve_documents_analyzed.
  destruct (call_search _ _ _ env) as [found env1].
  set (docs := match found with Ok docs => docs | Raise _ => ∅ end).
  assert (E1 : match found with
               | Ok docs0 => (Ok (set_retrieved_docs docs0 (analyzed query)), env1)
               | Raise _ => (Ok (set_retrieved_docs ∅ (analyzed query)), env1)
               end = (Ok (set_retrieved_docs docs (analyzed query)), env1))
    by (destruct found; reflexivity).
  rewrite E1. clear E1.
  unfold bind at 1. unfold _generate_context at 1. unfold ret at 1.
  change (set_context _ (set_retrieved_docs docs (analyzed query)))
    with (set_context (context_of docs) (set_retrieved_docs docs (analyzed query))).
  unfold bind at 1. rewrite generate_response_eq.
  cbn [RagGraph.query RagGraph.context set_context set_retrieved_docs analyzed str].
  assert (Ecall : RagGraph.metadata (analyzed query) !! "requires_charts"
                  = Some (PyBool (RagSpec.requires_charts (lower query)))).
  { unfold analyzed. cbn [RagGraph.metadata].
    rewrite lookup_insert_ne by discriminate. apply lookup_singleton_eq. }
  unfold analyzed in Ecall. cbn [RagGraph.metadata] in Ecall.
  destruct (call_generate query (context_of docs) env1) as [[answer|e] env2];
    unfold bind at 1; rewrite generate_charts_eq;
    cbn [RagGraph.query RagGraph.metadata retrieved_docs set_response set_context
           set_retrieved_docs analyzed];
    rewrite Ecall; cbn [default from_option id truthy]; fold (draws query docs);
    (destruct (draws query docs);
     [ destruct (call_chart _ _ env2) as [[chart|e'] env3] |]);
    unfold bind, ret, set_chart_data, set_response;
    cbn [RagGraph.query RagGraph.metadata retrieved_docs context response chart_data];
    rewrite finalize_response_eq; reflexivity.
Qed.

(** What a run returns when it draws no chart. *)
Lemma pipeline_undrawn query env :
  draws query (found query env) = false ->
  exists env',
    pipeline query env
    = (Ok {| result_response := with_sources (answered query env) (found query env);
             result_chart_data := PyDict [];
             result_sources := map fst (items (found query env));
             result_metadata := RagGraph.metadata (analyzed query) |}, env').
Proof.
  unfold pipeline, answered, found, call_search.
  destruct (search_multimodal _ _ _ (world env)) as [r w1]. cbn [fst snd].
  set (docs := match r with Ok docs => docs | Raise _ => ∅ end).
  intros Hd. rewrite Hd. unfold call_generate. cbn [world calls].
  destruct (generate_response _ _ w1) as [said w2]. cbn [fst]. eauto.
Qed.

Lemma pipeline_calls (query : string) env :
  calls (pipeline query env).2
  = (calls env
     ++ [ Search (PyStr query) (requested query) 5;
          Generate query (context_of (found query env)) ]
     ++ (if draws query (found query env)
         then [Chart (PyStr query) (default [] (found query env !! "table"))]
         else []))%list.
Proof.
  unfold pipeline, found, call_search.
  destruct (search_multimodal _ _ _ (world env)) as [r w1]. cbn [fst].
  set (docs := match r with Ok docs => docs | Raise _ => ∅ end).
  unfold call_generate. cbn [world calls].
  destruct (generate_response _ _ w1) as [said w2].
  destruct (draws query docs).
  - unfold call_chart. cbn [world calls].
    destruct (generate_chart_from_query _ _ w2) as [drawn w3]. cbn [snd calls].
    rewrite <- !app_assoc. reflexivity.
  - cbn [snd calls]. rewrite <- !app_assoc. reflexivity.
Qed.

(** X12.  What a RAG query costs and in what order: one search for the
    query, with the content types AnalyzeQuery selected and five documents
    a type; then one call of the generator, with the query as the prompt
    and the context built from what the search returned (from nothing, when
    it raised); then the chart generator, once, on the table documents, if
    the query has a chart keyword and table documents came back, and not at
    all otherwise. *)
Theorem process_query_calls (query : string) env :
  calls (process_query (PyStr query) env).2
  = (calls env
     ++ [ Search (PyStr query) (requested query) 5;
          Generate query (context_of (found query env)) ]
     ++ (if draws query (found query env)
         then [Chart (PyStr query) (default [] (found query env !! "table"))]
         else []))%list.
Proof. rewrite process_query_pipeline. apply pipeline_calls. Qed.

(** X13.  A query text always gets a result, whatever the collaborators do:
    a search that raises counts as no documents, a generator that raises
    is answered for with an apology, a chart generator that raises leaves
    the chart empty.  A query that is no text gets none: the
    [AttributeError] of AnalyzeQuery reaches the caller before anything is
    called. *)
Theorem process_query_returns_for_text :
  (forall (query : string) env,
     exists result env',
       process_query (PyStr query) env = (Ok result, env')
       /\ result_response result = with_sources (answered query env) (found query env)
       /\ result_sources result = map fst (items (found query env))
       /\ result_metadata result
          = {[ "content_types" := PyList (map PyStr (requested query));
               "requires_charts" := PyBool (RagSpec.requires_charts (lower query)) ]}
       /\ (draws query (found query env) = false -> result_chart_data result = PyDict []))
  /\ (forall v env,
        (forall text, v <> PyStr text) ->
        process_query v env
        = (Raise ("'" +:+ type_name v +:+ "' object has no attribute 'lower'"), env)).
Proof.
  split.
  - intros query env. rewrite process_query_pipeline.
    unfold pipeline, answered, found, call_search.
    destruct (search_multimodal _ _ _ (world env)) as [r w1]. cbn [fst snd].
    set (docs := match r with Ok docs => docs | Raise _ => ∅ end).
    unfold call_generate. cbn [world calls].
    destruct (generate_response _ _ w1) as [said w2] eqn:Eg. cbn [fst].
    destruct (draws query docs).
    + unfold call_chart. cbn [world calls].
      destruct (generate_chart_from_query _ _ w2) as [drawn w3] eqn:Ec.
      eexists _, _. split; [reflexivity|]. cbn.
      split; [reflexivity|]. split; [reflexivity|]. split; [reflexivity|discriminate].
    + eexists _, _. split; [reflexivity|]. cbn.
      split; [reflexivity|]. split; [reflexivity|]. split; reflexivity.
  - intros v env Hv. destruct v; try reflexivity. now destruct (Hv s).
Qed.

Lemma items_empty : items ∅ = [].
Proof.
  apply Permutation_nil_r. rewrite items_entries. now rewrite map_to_list_empty.
Qed.

Lemma items_lookup (docs : gmap string (list Document)) t ds :
  (t, ds) ∈ items docs <-> docs !! t = Some ds.
Proof. rewrite items_entries. apply elem_of_map_to_list. Qed.

(** X14.  When the search raises, the run goes on with no documents: the
    generator is asked with an empty context, no chart is drawn, and the
    result lists no sources and carries the generator's answer, or the
    apology, with nothing added. *)
Theorem process_query_search_failure (query : string) env e w :
  search_multimodal (PyStr query) (requested query) 5 (world env) = (Raise e, w) ->
  exists result env',
    process_query (PyStr query) env = (Ok result, env')
    /\ calls env'
       = (calls env ++ [Search (PyStr query) (requested query) 5; Generate query ""])%list
    /\ result_sources result = []
    /\ result_chart_data result = PyDict []
    /\ (forall answer w', generate_response query "" w = (Ok answer, w') ->
        result_response result = answer)
    /\ (forall e' w', generate_response query "" w = (Raise e', w') ->
        result_response result
        = "I apologize, but I encountered an error while generating the response.").
Proof.
  intros Es. rewrite process_query_pipeline. unfold pipeline, call_search. rewrite Es.
  assert (Hd : draws query ∅ = false).
  { unfold draws. rewrite lookup_empty. cbn. apply andb_false_r. }
  assert (Hc : context_of ∅ = "") by (unfold context_of; now rewrite items_empty).
  assert (Hs : forall answer, with_sources answer ∅ = answer)
    by (intros answer; unfold with_sources, sources_of; now rewrite items_empty).
  rewrite Hd, Hc. unfold call_generate. cbn [world calls].
  destruct (generate_response query "" w) as [said w2].
  eexists _, _. split; [reflexivity|]. cbn [result_sources result_chart_data result_response].
  rewrite Hs, items_empty. split; [now rewrite <- app_assoc|].
  split; [reflexivity|]. split; [reflexivity|].
  split; [intros answer w' [= -> _]; reflexivity | intros e' w' [= -> _]; reflexivity].
Qed.

End Rag.

Section Rag2.
Context {svc : Services} {lib : Library}.
Import RagGraph MultimodalRAGGraph RagRun.

Lemma flat_map_nil_iff {A B} (f : A -> list B) (l : list A) :
  flat_map f l = [] <-> Forall (fun x => f x = []) l.
Proof.
  induction l as [|x l IH]; cbn [flat_map].
  - split; [constructor | reflexivity].
  - split.
    + intros E. apply app_eq_nil in E. destruct E as [E1 E2].
      constructor; [exact E1 | now apply IH].
    + intros F. inversion F as [|? ? E1 E2]; subst. rewrite E1. now apply IH.
Qed.

Lemma elem_of_flat_map {A B} (f : A -> list B) (l : list A) (y : B) :
  y ∈ flat_map f l <-> exists x, x ∈ l /\ y ∈ f x.
Proof.
  rewrite list_elem_of_In, in_flat_map. split; intros (x & Hx & Hy); exists x.
  - now rewrite !list_elem_of_In.
  - now rewrite <- !list_elem_of_In.
Qed.

Lemma no_documents_items (docs : gmap string (list Document)) :
  (forall t ds, docs !! t = Some ds -> ds = [])
  <-> Forall (fun entry => entry.2 = []) (items docs).
Proof.
  rewrite Forall_forall. split.
  - intros H [t ds] Hin. apply items_lookup in Hin. exact (H _ _ Hin).
  - intros H t ds E. apply items_lookup in E. exact (H _ E).
Qed.

Lemma sources_of_nil (docs : gmap string (list Document)) :
  sources_of docs = [] <-> (forall t ds, docs !! t = Some ds -> ds = []).
Proof.
  unfold sources_of. rewrite flat_map_nil_iff, no_documents_items.
  apply Forall_iff. intros [t ds]. cbn. split.
  - intros E. now destruct ds.
  - now intros ->.
Qed.

Lemma flat_map_head {A B} (f : A -> list B) (l : list A) x rest :
  flat_map f l = x :: rest -> exists y tail, y ∈ l /\ f y = x :: tail.
Proof.
  induction l as [|y l IH]; cbn [flat_map]; [discriminate|].
  destruct (f y) as [|z tail] eqn:E; cbn [app].
  - intros H. destruct (IH H) as (y' & tail & Hin & Ey). exists y', tail. split; [now right|auto].
  - intros [= -> _]. exists y, tail. split; [left|exact E].
Qed.

Lemma append_not_nil a b : a <> "" -> a +:+ b <> "".
Proof. destruct a; [congruence|discriminate]. Qed.

Lemma join_not_nil sep x rest : x <> "" -> join sep (x :: rest) <> "".
Proof. intros Hx. destruct rest; cbn [join]; [exact Hx | now apply append_not_nil]. Qed.

(** X15.  The context is built from the types that came back with documents:
    a header for the type, then for each of its documents a line with its
    page and its text.  It is empty exactly when no document was
    retrieved. *)
Theorem generate_context_documents state env :
  exists parts,
    _generate_context state env = (Ok (set_context (join nl parts) state), env)
    /\ (parts = [] <-> forall t ds, retrieved_docs state !! t = Some ds -> ds = [])
    /\ (join nl parts = "" <-> parts = [])
    /\ (forall t ds doc,
          retrieved_docs state !! t = Some ds -> doc ∈ ds ->
          (nl +:+ "=== " +:+ upper t +:+ " CONTENT ===") ∈ parts
          /\ (nl +:+ "[" +:+ title t +:+ " from Page " +:+ page_of doc +:+ "]") ∈ parts
          /\ page_content doc ∈ parts).
Proof.
  unfold _generate_context, ret. cbv zeta. eexists. split; [reflexivity|].
  split; [|split].
  - rewrite flat_map_nil_iff, no_documents_items. apply Forall_iff. intros [t ds]. cbn.
    split; [now destruct ds | now intros ->].
  - match goal with |- join nl ?l = "" <-> _ => destruct l as [|x rest] eqn:E end.
    + tauto.
    + split; [|discriminate]. intros Hj. exfalso. revert Hj. apply join_not_nil.
      apply flat_map_head in E. destruct E as ([t ds] & tail & _ & E).
      destruct ds as [|d ds]; [discriminate|]. injection E as <- _. discriminate.
  - intros t ds doc E Hdoc. apply items_lookup in E.
    destruct ds as [|d ds]; [inversion Hdoc|].
    repeat split; apply elem_of_flat_map; exists (t, d :: ds); (split; [exact E|]).
    + left.
    + right. apply elem_of_flat_map. exists doc. split; [exact Hdoc|left].
    + right. apply elem_of_flat_map. exists doc. split; [exact Hdoc|right; left].
Qed.

(** X16.  The sources of a response: one "Page p (type)" for every
    retrieved document, as many sources as documents.  With no document
    the response stays as it is; otherwise it gets one line more,
    "**Sources:** " and the sources as [list(set(sources))] gives them:
    each source once, when that lists the elements of a set once each.
    The query, the chart data and the documents stay as they are. *)
Theorem finalize_response_sources state env :
  lists_a_set set_to_list ->
  exists state' sources shown,
    _finalize_response state env = (Ok state', env)
    /\ sources ≡ₚ source_per_document (retrieved_docs state)
    /\ (forall t ds doc,
          retrieved_docs state !! t = Some ds -> doc ∈ ds ->
          ("Page " +:+ page_of doc +:+ " (" +:+ t +:+ ")") ∈ sources)
    /\ (forall source,
          source ∈ sources ->
          exists t ds doc,
            retrieved_docs state !! t = Some ds /\ doc ∈ ds
            /\ source = "Page " +:+ page_of doc +:+ " (" +:+ t +:+ ")")
    /\ NoDup shown
    /\ (forall source, source ∈ shown <-> source ∈ sources)
    /\ (sources = [] <-> forall t ds, retrieved_docs state !! t = Some ds -> ds = [])
    /\ (sources = [] -> response state' = response state)
    /\ (sources <> [] ->
        response state'
        = response state +:+ nl +:+ nl +:+ "**Sources:** " +:+ join ", " shown)
    /\ RagGraph.query state' = RagGraph.query state
    /\ chart_data state' = chart_data state
    /\ retrieved_docs state' = retrieved_docs state.
Proof.
  intros Hset.
  exists (match sources_of (retrieved_docs state) with
          | [] => state
          | sources =>
              set_response
                (response state +:+ nl +:+ nl +:+ "**Sources:** "
                 +:+ join ", " (set_to_list sources)) state
          end), (sources_of (retrieved_docs state)),
         (set_to_list (sources_of (retrieved_docs state))).
  split; [|split; [|split; [|split; [|split; [|split; [|split]]]]]].
  - unfold _finalize_response, ret. cbv zeta. fold (sources_of (retrieved_docs state)).
    destruct (sources_of (retrieved_docs state)); reflexivity.
  - unfold sources_of, source_per_document.
    apply Permutation_flat_map, items_entries.
  - intros t ds doc E Hdoc. apply items_lookup in E. unfold sources_of.
    apply elem_of_flat_map. exists (t, ds). split; [exact E|].
    apply list_elem_of_fmap. exists doc. split; [reflexivity|exact Hdoc].
  - intros source Hs. unfold sources_of in Hs. apply elem_of_flat_map in Hs.
    destruct Hs as ([t ds] & Hin & Hs). apply items_lookup in Hin.
    apply list_elem_of_fmap in Hs. destruct Hs as (doc & -> & Hdoc). eauto 10.
  - apply Hset.
  - apply Hset.
  - apply sources_of_nil.
  - destruct (sources_of (retrieved_docs state)) as [|x l]; cbn.
    + repeat split; congruence.
    + repeat split; congruence.
Qed.

Lemma pipeline_returns query env : exists result env', pipeline query env = (Ok result, env').
Proof.
  unfold pipeline. destruct (call_search _ _ _ env) as [found env1].
  destruct (call_generate _ _ env1) as [said env2].
  destruct (if draws query _ then _ else _) as [drawn env3]. eauto.
Qed.

(** X17.  The runnable around the graph, given a dict, never raises.
    Without a query, or with one that counts as false (the empty text,
    [None], 0), it answers {"error": "No query provided"} and calls
    nothing; a query text gets the result of the graph; any other query
    gets the [AttributeError] of AnalyzeQuery as the error text, and
    nothing is called either.  Given a value that is no dict it raises:
    the [AttributeError] of [query_dict.get], which stands before the
    [try]; nothing is called. *)
Theorem process_query_runnable_replies query_dict env :
  (forall d,
     query_dict = PyDict d ->
     exists reply env',
       Server.process_query_runnable query_dict env = (Ok reply, env')
       /\ (truthy (default (PyStr "") (dict_get d "query")) = false ->
           reply = Server.Error "No query provided" /\ env' = env)
       /\ (forall text,
             dict_get d "query" = Some (PyStr text) -> text <> "" ->
             exists result,
               reply = Server.Answer result
               /\ process_query (PyStr text) env = (Ok result, env'))
       /\ (forall v,
             dict_get d "query" = Some v -> truthy v = true ->
             (forall text, v <> PyStr text) ->
             reply
             = Server.Error ("'" +:+ type_name v +:+ "' object has no attribute 'lower'")
             /\ env' = env))
  /\ ((forall d, query_dict <> PyDict d) ->
      Server.process_query_runnable query_dict env
      = (Raise ("'" +:+ type_name query_dict +:+ "' object has no attribute 'get'"), env)).
Proof.
  split.
  - intros d ->. unfold Server.process_query_runnable. cbv zeta.
    destruct (dict_get d "query") as [v|] eqn:Eq; cbn [default from_option id].
    + destruct (truthy v) eqn:Ht; cbn [negb].
      * destruct v as [| | | |text| |];
          try (eexists _, _; split; [reflexivity|];
               split; [discriminate|]; split; [intros ? [=]|];
               intros ? [= <-] _ _; split; reflexivity).
        unfold try_except, bind, ret.
        destruct (pipeline_returns text env) as (result & env' & E).
        rewrite <- process_query_pipeline in E. rewrite E.
        eexists _, _. split; [reflexivity|]. split; [discriminate|].
        split; [intros ? [= <-] _; eauto|].
        intros v [= <-] _ Hv. now destruct (Hv text).
      * eexists _, _. split; [reflexivity|]. split; [auto|].
        split; [intros text [= ->] Ht'; destruct text; [congruence|discriminate]|].
        intros v' [= <-]. congruence.
    + eexists _, _. split; [reflexivity|]. split; [auto|].
      split; [intros ? [=] | intros ? [=]].
  - intros Hd. destruct query_dict; try reflexivity. now destruct (Hd d).
Qed.

End Rag2.

(** ** The vector store *)

Section Store.
Context {svc : Services}.
Variable VECTOR_DB_TYPE : string.
Variable backend :
  VectorStore.store -> pyval -> nat -> option pyval -> World -> res (list Document) * World.

Lemma in_list_elem_of x xs : in_list x xs = true <-> x ∈ xs.
Proof.
  unfold in_list. rewrite existsb_exists. split.
  - intros (y & Hy & E). apply String.eqb_eq in E. subst. now apply list_elem_of_In.
  - intros H. exists x. split; [now apply list_elem_of_In | apply String.eqb_refl].
Qed.

Lemma similarity_search_error self query k filter_dict w e w' :
  VectorStore.similarity_search VECTOR_DB_TYPE backend self query k filter_dict w
  = (Raise e, w') ->
  str_in "400" e = false /\ str_in "500" e = false.
Proof.
  unfold VectorStore.similarity_search.
  destruct (truthy filter_dict && _);
    destruct (backend _ _ _ _ _) as [[results|e0] w0]; try discriminate.
  all: destruct (str_in "400" e0 || str_in "500" e0) eqn:E; try discriminate.
  all: intros [= <- _]; now apply orb_false_elim in E.
Qed.


(** X18.  A search returns an entry for "text", "table" and "image", each
    when it is among the content types asked for, and for nothing else;
    what it raises is an error of a store's backend whose text has neither
    "400" nor "500" in it, those errors counting as an empty result. *)
Theorem search_multimodal_outcome query content_types k_per_type w :
  match
    VectorStore.search_multimodal VECTOR_DB_TYPE backend query content_types k_per_type w
  with
  | (Ok results, _) =>
      forall t,
        is_Some (results !! t)
        <-> (t = "text" \/ t = "table" \/ t = "image") /\ t ∈ content_types
  | (Raise e, _) => str_in "400" e = false /\ str_in "500" e = false
  end.
Proof.
  unfold VectorStore.search_multimodal. cbv zeta.
  destruct (in_list "text" content_types) eqn:E1;
    [destruct (VectorStore.similarity_search _ _ VectorStore.text_store _ _ _ w)
       as [[found1|e1] w1] eqn:S1;
     [|exact (similarity_search_error _ _ _ _ _ _ _ S1)]|];
    (destruct (in_list "table" content_types) eqn:E2;
     [destruct (VectorStore.similarity_search _ _ VectorStore.table_store _ _ _ _)
        as [[found2|e2] w2] eqn:S2;
      [|exact (similarity_search_error _ _ _ _ _ _ _ S2)]|]);
    (destruct (in_list "image" content_types) eqn:E3;
     [destruct (VectorStore.similarity_search _ _ VectorStore.image_store _ _ _ _)
        as [[found3|e3] w3] eqn:S3;
      [|exact (similarity_search_error _ _ _ _ _ _ _ S3)]|]);
    intros t;
    rewrite ?lookup_insert_is_Some', ?lookup_empty, ?is_Some_alt;
    try apply in_list_elem_of in E1; try apply in_list_elem_of in E2;
    try apply in_list_elem_of in E3;
    try (apply not_true_iff_false in E1; rewrite in_list_elem_of in E1);
    try (apply not_true_iff_false in E2; rewrite in_list_elem_of in E2);
    try (apply not_true_iff_false in E3; rewrite in_list_elem_of in E3);
    split; intros H;
    repeat match goal with
           | H : _ \/ _ |- _ => destruct H
           | H : _ /\ _ |- _ => destruct H
           | H : False |- _ => destruct H
           end; subst; try tauto.
Qed.

End Store.

Section StoreAndGraph.
Context {svc : Services} {lib : Library}.
Import RagGraph MultimodalRAGGraph RagRun.
Variable VECTOR_DB_TYPE : string.
Variable backend :
  VectorStore.store -> pyval -> nat -> option pyval -> World -> res (list Document) * World.

Lemma search_multimodal_unasked query content_types k_per_type w results w' t :
  VectorStore.search_multimodal VECTOR_DB_TYPE backend query content_types k_per_type w
  = (Ok results, w') ->
  in_list t content_types = false ->
  results !! t = None.
Proof.
  unfold VectorStore.search_multimodal. cbv zeta. intros E Ht.
  assert (H1 : in_list "text" content_types = true -> t <> "text") by (intros H ->; congruence).
  assert (H2 : in_list "table" content_types = true -> t <> "table") by (intros H ->; congruence).
  assert (H3 : in_list "image" content_types = true -> t <> "image") by (intros H ->; congruence).
  revert E.
  destruct (in_list "text" content_types);
    [destruct (VectorStore.similarity_search _ _ VectorStore.text_store _ _ _ w)
       as [[found1|e1] w1]; [|discriminate]|];
    (destruct (in_list "table" content_types);
     [destruct (VectorStore.similarity_search _ _ VectorStore.table_store _ _ _ _)
        as [[found2|e2] w2]; [|discriminate]|]);
    (destruct (in_list "image" content_types);
     [destruct (VectorStore.similarity_search _ _ VectorStore.image_store _ _ _ _)
        as [[found3|e3] w3]; [|discriminate]|]);
    intros [= <- _];
    rewrite ?lookup_insert_ne by (apply not_eq_sym; auto);
    apply lookup_empty.
Qed.

(** X19.  Over the vector store of the repository, a query that asks for a
    graph or a visualization and has none of the table keywords gets no
    chart: AnalyzeQuery marks it as requiring charts but selects no
    tables, the store returns none unasked, and the chart generator is not
    called. *)
Theorem chart_needs_table_keyword (query : string) env :
  RagSpec.requires_charts (lower query) = true ->
  any_in ["table"; "data"; "statistics"; "numbers"; "trend"; "chart"] (lower query) = false ->
  exists result env' context,
    process_query (svc := VectorStore.indexed VECTOR_DB_TYPE backend) (PyStr query) env
    = (Ok result, env')
    /\ result_metadata result !! "requires_charts" = Some (PyBool true)
    /\ result_chart_data result = PyDict []
    /\ calls env'
       = (calls env ++ [Search (PyStr query) (requested query) 5; Generate query context])%list.
Proof.
  intros Hc Ht.
  pose proof (pipeline_calls (svc := VectorStore.indexed VECTOR_DB_TYPE backend)
                query env) as Hcalls.
  rewrite process_query_pipeline in *.
  assert (Hd : draws query
                 (found (svc := VectorStore.indexed VECTOR_DB_TYPE backend) query env)
               = false).
  { unfold draws, found.
    destruct (search_multimodal _ _ _ _) as [[results|e] w'] eqn:Es; cbn [fst].
    - rewrite (search_multimodal_unasked _ _ _ _ _ _ "table" Es).
      + cbn. apply andb_false_r.
      + unfold requested. rewrite Ht. cbn [app].
        destruct (any_in ["image"; "figure"; "diagram"; "photo"; "picture"] (lower query));
          reflexivity.
    - rewrite lookup_empty. cbn. apply andb_false_r. }
  rewrite Hd in Hcalls.
  destruct (pipeline_undrawn (svc := VectorStore.indexed VECTOR_DB_TYPE backend) query env Hd)
    as (env' & E).
  rewrite E in *. cbn [snd] in Hcalls.
  eexists _, env', _. split; [reflexivity|]. cbn [result_metadata result_chart_data].
  split; [|split].
  - unfold analyzed. cbn [RagGraph.metadata].
    rewrite lookup_insert_ne by discriminate. rewrite Hc. apply lookup_singleton_eq.
  - reflexivity.
  - rewrite Hcalls. cbn [app]. reflexivity.
Qed.

End StoreAndGraph.

(** ** Tables through the index *)

(** ** Strings: one-character separators *)

Lemma str_in_one_cons c x r :
  str_in (String c "") (String x r) = Ascii.eqb c x || str_in (String c "") r.
Proof. cbn [str_in startswith]. destruct r; now rewrite andb_true_r. Qed.

Lemma str_in_one_nil c : str_in (String c "") "" = false.
Proof. reflexivity. Qed.

Lemma str_in_one_app c a b :
  str_in (String c "") (a +:+ b) = str_in (String c "") a || str_in (String c "") b.
Proof.
  induction a as [|x a IH].
  - reflexivity.
  - change (String x a +:+ b) with (String x (a +:+ b)).
    rewrite !str_in_one_cons, IH. now rewrite orb_assoc.
Qed.

Lemma str_in_one_join c sep parts :
  str_in (String c "") sep = false ->
  Forall (fun part => str_in (String c "") part = false) parts ->
  str_in (String c "") (join sep parts) = false.
Proof.
  intros Hsep. induction 1 as [|x parts Hx F IH]; [reflexivity|].
  destruct parts as [|y parts]; [exact Hx|].
  change (join sep (x :: y :: parts)) with (x +:+ sep +:+ join sep (y :: parts)).
  rewrite !str_in_one_app, Hx, Hsep, IH. reflexivity.
Qed.

(** [split] at a character that the first piece does not have. *)
Lemma split_from_one_app c cur a b :
  str_in (String c "") a = false ->
  split_from (String c "") 0 cur (a +:+ String c b)
  = (cur +:+ a) :: split_from (String c "") 0 "" b.
Proof.
  revert cur. induction a as [|x a IH]; intros cur Ha.
  - change ("" +:+ String c b) with (String c b). cbn [split_from startswith].
    rewrite Ascii.eqb_refl. cbn. rewrite append_nil_r.
    destruct b; reflexivity.
  - rewrite str_in_one_cons in Ha. apply orb_false_elim in Ha. destruct Ha as [Hx Ha].
    change (String x a +:+ String c b) with (String x (a +:+ String c b)).
    cbn [split_from startswith]. rewrite Hx. cbn [andb].
    rewrite (IH _ Ha). rewrite append_assoc. reflexivity.
Qed.

Lemma split_from_one_none c cur a :
  str_in (String c "") a = false ->
  split_from (String c "") 0 cur a = [cur +:+ a].
Proof.
  revert cur. induction a as [|x a IH]; intros cur Ha.
  - cbn. now rewrite append_nil_r.
  - rewrite str_in_one_cons in Ha. apply orb_false_elim in Ha. destruct Ha as [Hx Ha].
    cbn [split_from startswith]. rewrite Hx. cbn [andb].
    rewrite (IH _ Ha), append_assoc. reflexivity.
Qed.

(** The lines of a text that was joined from lines. *)
Lemma split_join_lines line lines :
  Forall (fun l => str_in nl l = false) (line :: lines) ->
  split nl (join nl (line :: lines)) = line :: lines.
Proof.
  unfold split, nl. revert line. induction lines as [|l lines IH]; intros line F.
  - inversion F; subst. cbn [join]. now rewrite split_from_one_none.
  - inversion F as [|? ? Hl F']; subst.
    change (join (String "010" "") (line :: l :: lines))
      with (line +:+ String "010"%char (join (String "010" "") (l :: lines))).
    rewrite (split_from_one_app "010"%char "" line _ Hl). cbn ["+:+"].
    f_equal. apply IH. exact F'.
Qed.

(** ** Strings: blanks at the ends *)

Lemma length_lstrip s : (String.length (lstrip s) <= String.length s)%nat.
Proof.
  induction s as [|x s IH]; cbn [lstrip]; [lia|].
  destruct (isspace x); cbn [String.length]; lia.
Qed.

Lemma lstrip_fixed_head x s : lstrip (String x s) = String x s -> isspace x = false.
Proof.
  cbn [lstrip]. destruct (isspace x); [|reflexivity].
  intros E. pose proof (length_lstrip s) as H. rewrite E in H. cbn [String.length] in H. lia.
Qed.

Lemma lstrip_keep s rest : lstrip s = s -> s <> "" -> lstrip (s +:+ rest) = s +:+ rest.
Proof.
  destruct s as [|x s]; [congruence|]. intros E _.
  change (String x s +:+ rest) with (String x (s +:+ rest)).
  cbn [lstrip]. now rewrite (lstrip_fixed_head _ _ E).
Qed.

Lemma rstrip_keep a v : rstrip v = v -> v <> "" -> rstrip (a +:+ v) = a +:+ v.
Proof.
  intros E Hv. induction a as [|x a IH]; [exact E|].
  change (String x a +:+ v) with (String x (a +:+ v)). cbn [rstrip]. rewrite IH.
  destruct (a +:+ v) eqn:Ea; [|reflexivity].
  destruct a; [change ("" +:+ v) with v in Ea; congruence | discriminate Ea].
Qed.

Lemma rstrip_space a : rstrip (a +:+ " ") = rstrip a.
Proof.
  induction a as [|x a IH]; [reflexivity|].
  change (String x a +:+ " ") with (String x (a +:+ " ")). cbn [rstrip]. now rewrite IH.
Qed.

Lemma split1_app c a b :
  str_in (String c "") a = false -> split1 c (a +:+ String c b) = [a; b].
Proof.
  induction a as [|x a IH]; intros Ha.
  - change ("" +:+ String c b) with (String c b). cbn [split1].
    now rewrite Ascii.eqb_refl.
  - rewrite str_in_one_cons in Ha. apply orb_false_elim in Ha. destruct Ha as [Hx Ha].
    change (String x a +:+ String c b) with (String x (a +:+ String c b)).
    cbn [split1]. rewrite (IH Ha). rewrite Ascii.eqb_sym, Hx. reflexivity.
Qed.

(** ** Insertion-ordered dicts *)

Lemma dict_set_fresh d k v : k ∉ map fst d -> dict_set d k v = (d ++ [(k, v)])%list.
Proof.
  induction d as [|[k' v'] d IH]; intros Hk; [reflexivity|].
  cbn [dict_set]. cbn [map fst] in Hk. apply not_elem_of_cons in Hk. destruct Hk as [Hne Hk].
  destruct (String.eqb_spec k' k); [congruence|]. now rewrite IH.
Qed.

(** ** Tables as text and back *)

Section RoundTrip.
Context {svc : Services}.
Import TableText.

Lemma tidy_spec s : tidy s = true -> lstrip s = s /\ rstrip s = s.
Proof.
  unfold tidy. rewrite andb_true_iff. intros [H1 H2].
  apply String.eqb_eq in H1, H2. auto.
Qed.

Lemma plain_cell_spec k v :
  plain_cell (k, v) = true ->
  exists text,
    v = PyStr text /\ text <> "" /\ lstrip k = k /\ rstrip k = k
    /\ lstrip text = text /\ rstrip text = text
    /\ str_in "|" k = false /\ str_in ":" k = false /\ str_in nl k = false
    /\ str_in "|" text = false /\ str_in nl text = false.
Proof.
  unfold plain_cell. cbn [fst snd]. destruct v; try discriminate.
  rewrite !andb_true_iff, !negb_true_iff.
  intros [[[[[[[H1 H2] H3] H4] H5] H6] H7] H8].
  apply tidy_spec in H2, H3. destruct H2, H3.
  exists s. repeat split; auto. intros ->. discriminate.
Qed.

(** What a plain cell looks like as text. *)
Lemma cell_text_plain k v :
  plain_cell (k, v) = true ->
  str_in "|" (cell_text (k, v)) = false
  /\ str_in nl (cell_text (k, v)) = false
  /\ lstrip (cell_text (k, v)) = cell_text (k, v)
  /\ rstrip (cell_text (k, v)) = cell_text (k, v)
  /\ cell_text (k, v) <> "".
Proof.
  intros H. destruct (plain_cell_spec _ _ H)
    as (text & -> & Hne & Hlk & Hrk & Hlt & Hrt & Hk1 & Hk2 & Hk3 & Ht1 & Ht2).
  unfold cell_text. cbn [fst snd str].
  split; [|split; [|split; [|split]]].
  - rewrite !str_in_one_app, Hk1, Ht1. reflexivity.
  - unfold nl in *. rewrite !str_in_one_app, Hk3, Ht2. reflexivity.
  - destruct k as [|x k]; [reflexivity|]. now apply lstrip_keep.
  - rewrite <- append_assoc. now apply rstrip_keep.
  - destruct k; discriminate.
Qed.

Lemma strip_piece (p c : string) :
  p = "" \/ p = " " ->
  lstrip c = c -> rstrip c = c -> c <> "" ->
  strip (p +:+ c) = c /\ strip (p +:+ c +:+ " ") = c.
Proof.
  intros Hp Hl Hr Hc. unfold strip.
  assert (E1 : lstrip (p +:+ c) = c) by (destruct Hp as [-> | ->]; exact Hl).
  assert (E2 : lstrip (p +:+ c +:+ " ") = c +:+ " ").
  { destruct Hp as [-> | ->].
    - change ("" +:+ c +:+ " ") with (c +:+ " "). now apply lstrip_keep.
    - change (lstrip (" " +:+ c +:+ " ")) with (lstrip (c +:+ " ")). now apply lstrip_keep. }
  rewrite E1, E2, rstrip_space. auto.
Qed.

Lemma split_row_text p cells :
  p = "" \/ p = " " ->
  cells <> [] ->
  Forall (fun c => str_in "|" c = false /\ lstrip c = c /\ rstrip c = c /\ c <> "") cells ->
  map strip (split_from "|" 0 "" (p +:+ join " | " cells)) = cells.
Proof.
  intros Hp Hne F. revert p Hp. induction F as [|c cells (Hc1 & Hc2 & Hc3 & Hc4) F IH];
    intros p Hp; [congruence|].
  assert (Hp1 : str_in "|" p = false) by (destruct Hp as [-> | ->]; reflexivity).
  destruct cells as [|c2 cells].
  - cbn [join]. rewrite split_from_one_none by (now rewrite str_in_one_app, Hp1, Hc1).
    cbn [map]. change ("" +:+ p +:+ c) with (p +:+ c).
    now rewrite (proj1 (strip_piece p c Hp Hc2 Hc3 Hc4)).
  - change (join " | " (c :: c2 :: cells))
      with (c +:+ " | " +:+ join " | " (c2 :: cells)).
    replace (p +:+ c +:+ " | " +:+ join " | " (c2 :: cells))
      with ((p +:+ c +:+ " ") +:+ String "|" (" " +:+ join " | " (c2 :: cells)))
      by (rewrite !append_assoc; reflexivity).
    rewrite split_from_one_app
      by (rewrite !str_in_one_app, Hp1, Hc1; reflexivity).
    cbn [map]. change ("" +:+ (p +:+ c +:+ " ")) with (p +:+ c +:+ " ").
    rewrite (proj2 (strip_piece p c Hp Hc2 Hc3 Hc4)).
    f_equal. apply IH; [discriminate | now right].
Qed.

Lemma parse_cell_plain record k v :
  plain_cell (k, v) = true ->
  AnalyticsService.parse_cell record (cell_text (k, v))
  = Ok (dict_set record k (read_back (k, v)).2).
Proof.
  intros H. destruct (plain_cell_spec _ _ H)
    as (text & -> & Hne & Hlk & Hrk & Hlt & Hrt & Hk1 & Hk2 & Hk3 & Ht1 & Ht2).
  unfold AnalyticsService.parse_cell, cell_text, read_back. cbn [fst snd str].
  change (k +:+ ": " +:+ text) with (k +:+ String ":" (" " +:+ text)).
  rewrite str_in_one_app, Hk2. cbn [orb].
  rewrite str_in_one_cons, Ascii.eqb_refl. cbn [orb].
  rewrite (split1_app _ _ _ Hk2).
  rewrite (proj1 (strip_piece " " text (or_intror eq_refl) Hlt Hrt Hne)).
  unfold strip. rewrite Hlk, Hrk. reflexivity.
Qed.

Lemma parse_cells_plain row record :
  forallb plain_cell row = true ->
  NoDup (map fst record ++ map fst row) ->
  AnalyticsService.parse_cells record (map cell_text row)
  = Ok (record ++ map read_back row)%list.
Proof.
  revert record. induction row as [|[k v] row IH]; intros record Hp Hd; cbn [map].
  - cbn. now rewrite app_nil_r.
  - cbn [forallb] in Hp. apply andb_true_iff in Hp. destruct Hp as [Hc Hp].
    cbn [AnalyticsService.parse_cells]. rewrite (parse_cell_plain _ _ _ Hc).
    cbn [map fst] in Hd.
    assert (Hk : k ∉ map fst record).
    { apply NoDup_app in Hd. destruct Hd as (_ & Hd & _). intros Hin.
      apply (Hd _ Hin). left. }
    rewrite (dict_set_fresh _ _ _ Hk), IH.
    + rewrite <- app_assoc. cbn [app].
      replace (read_back (k, v)) with (k, (read_back (k, v)).2); [reflexivity|].
      destruct (plain_cell_spec _ _ Hc) as (text & -> & _). reflexivity.
    + exact Hp.
    + rewrite map_app. cbn [map fst]. rewrite <- app_assoc. exact Hd.
Qed.

Lemma read_back_not_nil row : row <> [] -> map read_back row <> [].
Proof. destruct row; [congruence|discriminate]. Qed.

Lemma row_text_plain row :
  plain_row row = true ->
  VectorStore.row_text (PyDict row) = Ok (join " | " (map cell_text row))
  /\ str_in nl (join " | " (map cell_text row)) = false
  /\ AnalyticsService.parse_line (join " | " (map cell_text row))
     = [PyDict (map read_back row)].
Proof.
  unfold plain_row. rewrite !andb_true_iff. intros [[Hlen Hp] Hd].
  apply Nat.leb_le in Hlen. apply bool_decide_eq_true in Hd.
  assert (Hcells : Forall (fun c => str_in "|" c = false /\ str_in nl c = false
                                     /\ lstrip c = c /\ rstrip c = c /\ c <> "")
                     (map cell_text row)).
  { apply Forall_fmap, Forall_forall. intros [k v] Hin. cbn.
    apply cell_text_plain. rewrite forallb_forall in Hp. apply Hp.
    now apply list_elem_of_In. }
  split; [|split].
  - unfold VectorStore.row_text. f_equal. f_equal. f_equal.
    clear Hlen Hd Hcells. induction row as [|[k v] row IH]; [reflexivity|].
    cbn [forallb] in Hp. apply andb_true_iff in Hp. destruct Hp as [Hc Hp].
    cbn [List.filter]. destruct (plain_cell_spec _ _ Hc) as (text & -> & Hne & _).
    cbn [snd truthy]. destruct (String.eqb_spec text ""); [congruence|].
    cbn [negb]. now rewrite IH.
  - unfold nl. apply str_in_one_join; [reflexivity|].
    eapply Forall_impl; [exact Hcells|]. cbn. unfold nl. tauto.
  - unfold AnalyticsService.parse_line.
    destruct row as [|c1 [|c2 row]]; cbn [length] in Hlen; try lia.
    assert (Hbar : str_in "|" (join " | " (map cell_text (c1 :: c2 :: row))) = true).
    { cbn [map]. change (join " | " (cell_text c1 :: cell_text c2 :: map cell_text row))
        with (cell_text c1 +:+ String " " (String "|" (" " +:+ join " | " (cell_text c2 :: map cell_text row)))).
      rewrite str_in_one_app, !str_in_one_cons, Ascii.eqb_refl.
      now rewrite !orb_true_r. }
    rewrite Hbar. unfold split.
    assert (Hs : map strip (split_from "|" 0 "" (join " | " (map cell_text (c1 :: c2 :: row))))
                 = map cell_text (c1 :: c2 :: row)).
    { apply (split_row_text "" _ (or_introl eq_refl)); [discriminate|].
      eapply Forall_impl; [exact Hcells|]. cbn. tauto. }
    rewrite Hs, length_map. cbn [length Nat.leb].
    rewrite (parse_cells_plain _ [] Hp Hd). cbn [app map]. reflexivity.
Qed.

Lemma parse_lines_cons line lines :
  fold_left (fun data l => (data ++ AnalyticsService.parse_line l)%list) (line :: lines) []
  = (AnalyticsService.parse_line line
     ++ fold_left (fun data l => (data ++ AnalyticsService.parse_line l)%list) lines [])%list.
Proof.
  cbn [fold_left app].
  generalize (AnalyticsService.parse_line line). clear line.
  induction lines as [|l lines IH]; intros acc; cbn [fold_left].
  - now rewrite app_nil_r.
  - rewrite IH, (IH ([] ++ _)%list). cbn [app]. now rewrite app_assoc.
Qed.

Lemma row_texts_plain rows :
  Forall (fun row => plain_row row = true) rows ->
  VectorStore.row_texts (map PyDict rows)
  = Ok (map (fun row => join " | " (map cell_text row)) rows).
Proof.
  induction 1 as [|row rows Hrow F IH]; [reflexivity|].
  cbn [map VectorStore.row_texts]. rewrite (proj1 (row_text_plain _ Hrow)), IH. reflexivity.
Qed.

Lemma parse_lines_plain rows :
  Forall (fun row => plain_row row = true) rows ->
  fold_left (fun data l => (data ++ AnalyticsService.parse_line l)%list)
    (map (fun row => join " | " (map cell_text row)) rows) []
  = map (fun row => PyDict (map read_back row)) rows.
Proof.
  induction 1 as [|row rows Hrow F IH]; [reflexivity|].
  cbn [map]. rewrite parse_lines_cons, IH.
  rewrite (proj2 (proj2 (row_text_plain _ Hrow))). reflexivity.
Qed.

Lemma header_plain row :
  plain_row row = true ->
  str_in "|" ("Table with columns: " +:+ join ", " (map fst row)) = false
  /\ str_in nl ("Table with columns: " +:+ join ", " (map fst row)) = false.
Proof.
  unfold plain_row. rewrite !andb_true_iff. intros [[_ Hp] _].
  rewrite forallb_forall in Hp.
  assert (Hk : Forall (fun k => str_in "|" k = false /\ str_in nl k = false) (map fst row)).
  { apply Forall_fmap, Forall_forall. intros [k v] Hin. cbn.
    apply list_elem_of_In in Hin.
    destruct (plain_cell_spec _ _ (Hp _ Hin)) as (text & _ & _ & _ & _ & _ & _ & H1 & _ & H3 & _).
    auto. }
  split.
  - rewrite str_in_one_app. rewrite str_in_one_join; [reflexivity|reflexivity|].
    eapply Forall_impl; [exact Hk|]. cbn. tauto.
  - unfold nl. rewrite str_in_one_app. rewrite str_in_one_join; [reflexivity|reflexivity|].
    eapply Forall_impl; [exact Hk|]. cbn. unfold nl. tauto.
Qed.

(** The text of a table of plain rows parses to its first ten rows. *)
Lemma table_text_parses rows :
  Forall (fun row => plain_row row = true) rows ->
  exists text,
    VectorStore._table_to_text (PyList (map PyDict rows)) = Ok text
    /\ AnalyticsService._parse_table_content text
       = map (fun row => PyDict (map read_back row)) (take 10 rows).
Proof.
  intros F. destruct rows as [|row rows].
  - exists "". split; reflexivity.
  - assert (F10 : Forall (fun row => plain_row row = true) (take 10 (row :: rows)))
      by (now apply Forall_take).
    inversion F as [|? ? Hrow _]; subst.
    unfold VectorStore._table_to_text. cbn [map truthy negb keys]. cbv zeta.
    change (PyDict row :: map PyDict rows) with (map PyDict (row :: rows)).
    rewrite firstn_map. rewrite (row_texts_plain _ F10). eexists. split; [reflexivity|].
    unfold AnalyticsService._parse_table_content. cbn [app].
    rewrite split_join_lines.
    + rewrite parse_lines_cons.
      unfold AnalyticsService.parse_line at 1.
      rewrite (proj1 (header_plain _ Hrow)). cbn [app].
      exact (parse_lines_plain _ F10).
    + constructor; [exact (proj2 (header_plain _ Hrow))|].
      apply Forall_fmap. eapply Forall_impl; [exact F10|].
      intros r Hr. cbn. exact (proj1 (proj2 (row_text_plain _ Hr))).
Qed.

End RoundTrip.

Section Ingestion.
Context {svc : Services}.
Import TableText.

Lemma extract_table_data_cons doc docs :
  AnalyticsService.extract_table_data (doc :: docs)
  = (AnalyticsService.extract_table_data [doc] ++ AnalyticsService.extract_table_data docs)%list.
Proof.
  unfold AnalyticsService.extract_table_data at 1. cbn [fold_left].
  rewrite extract_table_data_acc. f_equal.
Qed.

(** X20.  Tables written for the index come back from it.  For tables with
    the four fields the PDF processor gives them, whose rows are plain,
    [_process_tables_for_vectorization] makes one document a table, and
    [extract_table_data] reads from these documents the first ten rows of
    each table, in order, each cell under its key: a text that reads as a
    number comes back as that number, any other text as it was. *)
Theorem indexed_tables_come_back tables contents :
  Forall2
    (fun table rows =>
       VectorStore.field table "content" = Ok (PyList (map PyDict rows))
       /\ (exists page_number, VectorStore.field table "page_number" = Ok page_number)
       /\ (exists table_id, VectorStore.field table "table_id" = Ok table_id)
       /\ (exists method, VectorStore.field table "extraction_method" = Ok method)
       /\ Forall (fun row => plain_row row = true) rows)
    tables contents ->
  exists documents,
    VectorStore._process_tables_for_vectorization tables = Ok documents
    /\ length documents = length tables
    /\ AnalyticsService.extract_table_data documents
       = concat
           (map (fun rows => map (fun row => PyDict (map read_back row)) (take 10 rows))
              contents).
Proof.
  induction 1 as [|table rows tables contents (Ec & (p & Ep) & (i & Ei) & (m & Em) & F) _ IH].
  - exists []. repeat split.
  - destruct IH as (documents & E & Hlen & Hx).
    destruct (table_text_parses rows F) as (text & Et & Hp).
    cbn [VectorStore._process_tables_for_vectorization].
    unfold VectorStore.table_document. rewrite Ec, Et, Ep, Ei, Em, E.
    eexists. split; [reflexivity|]. split; [cbn [length]; now rewrite Hlen|].
    rewrite extract_table_data_cons, Hx. cbn [map concat]. f_equal.
    unfold AnalyticsService.extract_table_data. cbn [fold_left page_content metadata].
    replace (_ !! "table_data") with (@None pyval)
      by (symmetry; rewrite !lookup_insert_ne by discriminate;
          apply lookup_singleton_ne; discriminate).
    cbn [app]. exact Hp.
Qed.

Lemma split_from_one_pieces c cur s :
  forall bar,
    str_in (String bar "") cur = false ->
    str_in (String bar "") s = false ->
    Forall (fun piece => str_in (String bar "") piece = false)
      (split_from (String c "") 0 cur s).
Proof.
  intros bar. revert cur. induction s as [|x s IH]; intros cur Hcur Hs.
  - cbn. constructor; [exact Hcur|constructor].
  - rewrite str_in_one_cons in Hs. apply orb_false_elim in Hs. destruct Hs as [Hx Hs].
    cbn [split_from startswith]. destruct (Ascii.eqb c x); cbn [andb].
    + destruct s; cbn [String.length Nat.sub]; (constructor; [exact Hcur|]); apply IH; auto.
    + apply IH; [|exact Hs]. rewrite str_in_one_app, Hcur, str_in_one_cons, Hx. reflexivity.
Qed.

Lemma parse_lines_no_bar lines acc :
  Forall (fun line => str_in "|" line = false) lines ->
  fold_left (fun data l => (data ++ AnalyticsService.parse_line l)%list) lines acc = acc.
Proof.
  intros F. revert acc. induction F as [|line lines Hl F IH]; intros acc; [reflexivity|].
  cbn [fold_left]. unfold AnalyticsService.parse_line at 2. rewrite Hl, app_nil_r. apply IH.
Qed.

Lemma parse_table_content_no_bar content :
  str_in "|" content = false -> AnalyticsService._parse_table_content content = [].
Proof.
  intros H. unfold AnalyticsService._parse_table_content. apply parse_lines_no_bar.
  unfold split, nl. apply split_from_one_pieces; [reflexivity|exact H].
Qed.

(** X21.  A text with no "|" in it has no rows, so a table of one column
    does not come back from the index: each of its rows is written as one
    "key: value", and the parser reads a line as a row only when it has a
    "|". *)
Theorem one_column_table_is_lost rows :
  Forall (fun row => exists cell, row = [cell] /\ plain_cell cell = true) rows ->
  exists text,
    VectorStore._table_to_text (PyList (map PyDict rows)) = Ok text
    /\ str_in "|" text = false
    /\ AnalyticsService._parse_table_content text = [].
Proof.
  intros F.
  assert (Hrows : exists lines,
             VectorStore.row_texts (map PyDict (take 10 rows)) = Ok lines
             /\ Forall (fun line => str_in "|" line = false) lines).
  { assert (F10 : Forall (fun row => exists cell, row = [cell] /\ plain_cell cell = true)
                    (take 10 rows)) by (now apply Forall_take).
    induction F10 as [|row rest (cell & -> & Hc) _ (lines & E & Hl)].
    - exists []. split; [reflexivity|constructor].
    - destruct cell as [k v].
      destruct (plain_cell_spec _ _ Hc) as (text & -> & Hne & _).
      cbn [map VectorStore.row_texts VectorStore.row_text List.filter snd truthy].
      destruct (String.eqb_spec text ""); [congruence|]. cbn [negb map join]. rewrite E.
      eexists. split; [reflexivity|]. constructor; [|exact Hl].
      exact (proj1 (cell_text_plain _ _ Hc)). }
  destruct Hrows as (lines & E & Hl).
  destruct rows as [|row rows].
  - exists "". repeat split.
  - inversion F as [|? ? (cell & -> & Hc) _]; subst. destruct cell as [k v].
    destruct (plain_cell_spec _ _ Hc) as (text & -> & _ & _ & _ & _ & _ & Hk & _).
    unfold VectorStore._table_to_text. cbn [map truthy negb keys fst]. cbv zeta.
    change (PyDict [(k, PyStr text)] :: map PyDict rows)
      with (map PyDict ([(k, PyStr text)] :: rows)).
    rewrite firstn_map, E. eexists. split; [reflexivity|].
    assert (Hbar : str_in "|" (join nl (["Table with columns: " +:+ join ", " [k]] ++ lines))
                   = false).
    { apply str_in_one_join; [reflexivity|]. cbn [app]. constructor; [|exact Hl].
      cbn [join]. rewrite str_in_one_app, Hk. reflexivity. }
    split; [exact Hbar | exact (parse_table_content_no_bar _ Hbar)].
Qed.

End Ingestion.

(** ** The chart generator *)

Section Charts.
Context {svc : Services} {lib : Library}.
Variable _create_chart : list pyval -> pyval -> World -> res pyval * World.
Variable _get_data_summary : list pyval -> res pyval.

Lemma extract_table_document raw_data :
  ChartGenerator._extract_table_data [table_document raw_data] = raw_data.
Proof.
  unfold ChartGenerator._extract_table_data, table_document.
  cbn [fold_left metadata]. cbv zeta.
  replace (_ !! "table_data") with (Some (PyList raw_data))
    by (symmetry; rewrite lookup_insert_ne by discriminate; apply lookup_insert_eq).
  destruct raw_data; reflexivity.
Qed.

(** X22.  With the chart generator of the repository, CreateVisualizations
    never fails: the generator catches what goes wrong and answers an
    empty chart, so the stage stores no error.  The chart it stores, if
    any, is drawn from all the records of the state, not from the five
    that the text of the table document shows, with the configuration
    that the query and these records give. *)
Theorem create_visualizations_with_chart_generator state env :
  exists state' env',
    _create_visualizations
      (svc := ChartGenerator.drawing _create_chart _get_data_summary) state env
    = (Ok state', env')
    /\ error state' = error state
    /\ (charts state' = PyDict []
        \/ exists config chart summary w,
             ChartGenerator._analyze_query_for_chart_type (query state) (raw_data state)
             = Ok config
             /\ _create_chart (raw_data state) (PyDict config) w = (Ok chart, world env')
             /\ _get_data_summary (raw_data state) = Ok summary
             /\ charts state'
                = PyDict [ ("chart", chart); ("config", PyDict config);
                           ("data_summary", summary) ]).
Proof.
  rewrite create_visualizations_eq. destruct (charted state).
  - unfold call_chart.
    change (generate_chart_from_query (query state) [table_document (raw_data state)] (world env))
      with (ChartGenerator.generate_chart_from_query _create_chart _get_data_summary
              (query state) [table_document (svc := svc) (raw_data state)] (world env)).
    unfold ChartGenerator.generate_chart_from_query. cbv zeta.
    rewrite extract_table_document.
    destruct (raw_data state) as [|d ds] eqn:Ed.
    + eexists _, _. split; [reflexivity|]. split; [reflexivity|]. left. reflexivity.
    + destruct (ChartGenerator._analyze_query_for_chart_type (query state) (d :: ds))
        as [config|e] eqn:Ec.
      * destruct (_create_chart (d :: ds) (PyDict config) (world env)) as [[chart|e] w'] eqn:Ech.
        -- destruct (_get_data_summary (d :: ds)) as [summary|e] eqn:Es.
           ++ eexists _, _. split; [reflexivity|]. split; [reflexivity|].
              right. exists config, chart, summary, (world env). cbn. auto.
           ++ eexists _, _. split; [reflexivity|]. split; [reflexivity|]. left. reflexivity.
        -- eexists _, _. split; [reflexivity|]. split; [reflexivity|]. left. reflexivity.
      * eexists _, _. split; [reflexivity|]. split; [reflexivity|]. left. reflexivity.
  - eexists _, _. split; [reflexivity|]. split; [reflexivity|]. left. reflexivity.
Qed.

End Charts.

Section ChartType.
Context {svc : Services} {lib : Library}.

Lemma dict_get_head (k : string) (v : pyval) (d : list (string * pyval)) :
  dict_get ((k, v) :: d) k = Some v.
Proof. cbn [dict_get]. now rewrite String.eqb_refl. Qed.

Lemma any_in_cons (k : string) (ks : list string) (text : string) :
  any_in (k :: ks) text = str_in k text || any_in ks text.
Proof. reflexivity. Qed.

(** X23.  The chart generator draws a line exactly when there is data and
    the lower-cased query has one of "trend", "over time", "timeline",
    "progression".  This is not the classifier's reading of a trend: a
    query with "change" or "growth" and none of these four is a trend
    analysis for the classifier and no line for the chart generator. *)
Theorem chart_type_line (query : string) (data : list pyval)
    (config : list (string * pyval))
    (Hconfig : ChartGenerator._analyze_query_for_chart_type (PyStr query) data = Ok config) :
  (dict_get config "chart_type" = Some (PyStr "line")
   <-> data <> []
       /\ any_in ["trend"; "over time"; "timeline"; "progression"] (lower query) = true)
  /\ (any_in ["change"; "growth"] (lower query) = true ->
      any_in ["trend"; "over time"; "timeline"; "progression"] (lower query) = false ->
      AnalyticsService.classify_query_type (PyStr query) = Ok "trend_analysis"
      /\ dict_get config "chart_type" <> Some (PyStr "line")).
Proof.
  assert (Hline :
    dict_get config "chart_type" = Some (PyStr "line")
    <-> data <> []
        /\ any_in ["trend"; "over time"; "timeline"; "progression"] (lower query) = true).
  { revert Hconfig. unfold ChartGenerator._analyze_query_for_chart_type.
    change (lower_of (PyStr query)) with (Ok (lower query)). cbv iota beta.
    destruct data as [|first data].
    - intros [= <-]. split; [discriminate | intros [H _]; congruence].
    - destruct (keys first); [|discriminate].
      destruct (ChartGenerator._identify_numeric_columns _); [|discriminate].
      cbv zeta.
      destruct (any_in ["trend"; "over time"; "timeline"; "progression"] (lower query)).
      + intros Heq. injection Heq as <-. rewrite dict_get_head.
        split; [intros _; split; [discriminate|reflexivity] | reflexivity].
      + destruct (any_in ["distribution"; "frequency"] (lower query));
          [|destruct (any_in ["relationship"; "correlation"] (lower query));
            [|destruct (any_in ["percentage"; "proportion"; "share"] (lower query))]];
          intros Heq; injection Heq as <-; rewrite dict_get_head;
          (split; [discriminate | intros [_ H]; discriminate]). }
  split; [exact Hline|].
  intros Hc Hl. split.
  - unfold AnalyticsService.classify_query_type. cbn [lower_of].
    assert (H : any_in ["trend"; "over time"; "timeline"; "change"; "growth"] (lower query)
                = true).
    { rewrite !any_in_cons in *. apply orb_true_iff in Hc.
      destruct Hc as [H|H].
      - rewrite H. now rewrite !orb_true_r.
      - apply orb_true_iff in H. destruct H as [H|H]; [|discriminate].
        rewrite H. now rewrite !orb_true_r. }
    now rewrite H.
  - intros H. apply Hline in H. destruct H as [_ H]. congruence.
Qed.

End ChartType.

(** ** Analysing data *)

Section Analysis.
Context {svc : Services} {lib : Library}.
Import Asking.
Variable _calculate_basic_stats : list pyval -> res pyval.

Lemma embeds_trans a b c : embeds a b -> embeds b c -> embeds a c.
Proof.
  intros (p1 & q1 & ->) (p2 & q2 & ->). exists (p2 +:+ p1), (q1 +:+ q2).
  now rewrite !append_assoc.
Qed.

Lemma call_generate_asks_once prompt context piece :
  embeds piece prompt -> asks_once context piece (call_generate prompt context).
Proof.
  intros Hp env. unfold call_generate.
  destruct (generate_response prompt context (world env)) as [[analysis|e] w] eqn:E;
    cbn [world calls]; eauto.
Qed.

Lemma lift_asks_once {A} (r : res A) (k : A -> M string) context piece :
  (forall a, r = Ok a -> asks_once context piece (k a)) ->
  asks_once context piece (bind (lift r) k).
Proof.
  intros Hk env. unfold bind, lift. destruct r as [a|e]; [|left; reflexivity].
  exact (Hk a eq_refl env).
Qed.

Lemma analyze_trends_asks_once query data context :
  asks_once context ("        Query: " +:+ str query)
    (AnalyticsService._analyze_trends query data context).
Proof.
  unfold AnalyticsService._analyze_trends. apply lift_asks_once. intros time_series _.
  cbv zeta. apply call_generate_asks_once. cbn [join]. find_piece.
Qed.

Lemma analyze_comparisons_asks_once query data context :
  asks_once context ("        Query: " +:+ str query)
    (AnalyticsService._analyze_comparisons query data context).
Proof.
  unfold AnalyticsService._analyze_comparisons.
  cbv zeta. apply call_generate_asks_once. cbn [join]. find_piece.
Qed.

Lemma generate_summary_asks_once query data context :
  asks_once context ("        Query: " +:+ str query)
    (AnalyticsService._generate_summary _calculate_basic_stats query data context).
Proof.
  unfold AnalyticsService._generate_summary. apply lift_asks_once. intros stats _.
  cbv zeta. apply call_generate_asks_once. cbn [join]. find_piece.
Qed.

Lemma general_analysis_asks_once query data context :
  asks_once context ("        Question: " +:+ str query)
    (AnalyticsService._general_analysis query data context).
Proof.
  unfold AnalyticsService._general_analysis.
  cbv zeta. apply call_generate_asks_once. cbn [join]. find_piece.
Qed.

Lemma calculate_confidence_range data analysis confidence :
  AnalyticsService._calculate_confidence data analysis = Ok confidence ->
  PrimFloat.leb 0.5 confidence = true /\ PrimFloat.ltb confidence 1 = true.
Proof.
  unfold AnalyticsService._calculate_confidence. cbv zeta.
  destruct (match data with [] => Ok 0%nat | _ => _ end) as [numeric_count|msg];
    [|discriminate].
  destruct (len analysis) as [analysis_len|msg]; [|discriminate].
  intros [= <-].
  destruct (100 <? length data)%nat, (50 <? length data)%nat, (10 <? numeric_count)%nat,
    (500 <? analysis_len)%nat; vm_compute; auto.
Qed.

(** The end of [analyze_data], after the routine [m]. *)
Lemma analyze_data_after label context piece table_data (m : M string) env :
  asks_once context piece m ->
  match
    bind m
      (fun analysis =>
         bind (lift (AnalyticsService._calculate_confidence table_data (PyStr analysis)))
           (fun confidence =>
              ret ({[ "analysis" := PyStr analysis;
                      "query_type" := PyStr label;
                      "data_points" := PyInt (Z.of_nat (length table_data));
                      "confidence" := PyFloat confidence ]} : gmap string pyval)))
      env
  with
  | (Ok result, env') =>
      exists prompt analysis confidence,
        generate_response prompt context (world env) = (Ok analysis, world env')
        /\ calls env' = (calls env ++ [Generate prompt context])%list
        /\ embeds piece prompt
        /\ result !! "analysis" = Some (PyStr analysis)
        /\ result !! "query_type" = Some (PyStr label)
        /\ result !! "data_points" = Some (PyInt (Z.of_nat (length table_data)))
        /\ result !! "confidence" = Some (PyFloat confidence)
        /\ PrimFloat.leb 0.5 confidence = true
        /\ PrimFloat.ltb confidence 1 = true
  | (Raise e, env') =>
      calls env' = calls env
      \/ exists prompt, calls env' = (calls env ++ [Generate prompt context])%list
  end.
Proof.
  intros Hm. specialize (Hm env). unfold bind at 1.
  destruct (m env) as [[analysis|e] env1]; [|exact Hm].
  destruct Hm as (prompt & Hg & Hc & Hp).
  unfold bind, lift, ret.
  destruct (AnalyticsService._calculate_confidence table_data (PyStr analysis))
    as [confidence|e] eqn:Ec.
  - destruct (calculate_confidence_range _ _ _ Ec) as [Hlo Hhi].
    exists prompt, analysis, confidence.
    repeat (split; [first [assumption | by simplify_map_eq]|]). assumption.
  - right. eauto.
Qed.

(** X24.  What [analyze_data] does with a query.  A query that is no
    text is refused before anything is called.  For a query text the
    generator is asked at most once, with the context built from the
    records and the documents, and a prompt that has the query in it; a
    result carries the generator's answer, the classifier's label, the
    number of records and a confidence from 0.5 up to, and not reaching,
    1.  There is no routine for a prediction: such a query is put as the
    general question. *)
Theorem analyze_data_outcome table_data context_docs env :
  (forall v,
     (forall text, v <> PyStr text) ->
     AnalyticsService.analyze_data _calculate_basic_stats v table_data context_docs env
     = (Raise ("'" +:+ type_name v +:+ "' object has no attribute 'lower'"), env))
  /\ (forall query : string,
        match
          AnalyticsService.analyze_data _calculate_basic_stats (PyStr query) table_data
            context_docs env
        with
        | (Ok result, env') =>
            exists label context prompt analysis confidence,
              AnalyticsService.classify_query_type (PyStr query) = Ok label
              /\ AnalyticsService._build_analysis_context table_data context_docs
                 = Ok context
              /\ generate_response prompt context (world env) = (Ok analysis, world env')
              /\ calls env' = (calls env ++ [Generate prompt context])%list
              /\ embeds query prompt
              /\ (label = "prediction" -> embeds ("        Question: " +:+ query) prompt)
              /\ result !! "analysis" = Some (PyStr analysis)
              /\ result !! "query_type" = Some (PyStr label)
              /\ result !! "data_points" = Some (PyInt (Z.of_nat (length table_data)))
              /\ result !! "confidence" = Some (PyFloat confidence)
              /\ PrimFloat.leb 0.5 confidence = true
              /\ PrimFloat.ltb confidence 1 = true
        | (Raise e, env') =>
            calls env' = calls env
            \/ exists prompt context,
                 calls env' = (calls env ++ [Generate prompt context])%list
        end).
Proof.
  split.
  - intros v Hv. unfold AnalyticsService.analyze_data, bind at 1, lift.
    unfold AnalyticsService.classify_query_type.
    destruct v; try reflexivity. now destruct (Hv s).
  - intros query. unfold AnalyticsService.analyze_data. unfold bind at 1, lift at 1.
    destruct (AnalyticsService.classify_query_type (PyStr query)) as [label|e] eqn:El;
      [|left; reflexivity].
    unfold bind at 1, lift at 1.
    destruct (AnalyticsService._build_analysis_context table_data context_docs)
      as [context|e] eqn:Ex; [|left; reflexivity].
    assert (Hq : forall piece prompt,
                   embeds (piece +:+ str (PyStr query)) prompt -> embeds query prompt).
    { intros piece prompt H. eapply embeds_trans; [|exact H].
      change (str (PyStr query)) with query. apply embeds_app_r, embeds_refl. }
    destruct (String.eqb label "trend_analysis") eqn:E1;
      [|destruct (String.eqb label "comparison") eqn:E2;
        [|destruct (String.eqb label "summary") eqn:E3]].
    4: {
      pose proof (analyze_data_after label context _ table_data _ env
                    (general_analysis_asks_once (PyStr query) table_data context)) as H.
      destruct (bind _ _ env) as [[result|e] env']; [|destruct H as [H|[p H]]; eauto].
      destruct H as (prompt & analysis & confidence & H1 & H2 & H3 & H).
      exists label, context, prompt, analysis, confidence.
      split; [reflexivity|]. split; [reflexivity|]. split; [exact H1|]. split; [exact H2|].
      split; [exact (Hq _ _ H3)|]. split; [intros _; exact H3|]. exact H. }
    + pose proof (analyze_data_after label context _ table_data _ env
                    (analyze_trends_asks_once (PyStr query) table_data context)) as H.
      apply String.eqb_eq in E1.
      destruct (bind _ _ env) as [[result|e] env']; [|destruct H as [H|[p H]]; eauto].
      destruct H as (prompt & analysis & confidence & H1 & H2 & H3 & H).
      exists label, context, prompt, analysis, confidence.
      split; [reflexivity|]. split; [reflexivity|]. split; [exact H1|]. split; [exact H2|].
      split; [exact (Hq _ _ H3)|]. split; [intros ->; discriminate|]. exact H.
    + pose proof (analyze_data_after label context _ table_data _ env
                    (analyze_comparisons_asks_once (PyStr query) table_data context)) as H.
      apply String.eqb_eq in E2.
      destruct (bind _ _ env) as [[result|e] env']; [|destruct H as [H|[p H]]; eauto].
      destruct H as (prompt & analysis & confidence & H1 & H2 & H3 & H).
      exists label, context, prompt, analysis, confidence.
      split; [reflexivity|]. split; [reflexivity|]. split; [exact H1|]. split; [exact H2|].
      split; [exact (Hq _ _ H3)|]. split; [intros ->; discriminate|]. exact H.
    + pose proof (analyze_data_after label context _ table_data _ env
                    (generate_summary_asks_once (PyStr query) table_data context)) as H.
      apply String.eqb_eq in E3.
      destruct (bind _ _ env) as [[result|e] env']; [|destruct H as [H|[p H]]; eauto].
      destruct H as (prompt & analysis & confidence & H1 & H2 & H3 & H).
      exists label, context, prompt, analysis, confidence.
      split; [reflexivity|]. split; [reflexivity|]. split; [exact H1|]. split; [exact H2|].
      split; [exact (Hq _ _ H3)|]. split; [intros ->; discriminate|]. exact H.
Qed.

End Analysis.

(** ** Instances *)

Lemma formulate_recommendations_needs_text_witness :
  Exists (fun v => forall text, v <> PyStr text)
    (insights (set_insights [PyStr "Revenue grew"; PyInt 7]
                 (initial_state (PyStr "show revenue") None)))
  /\ exists i v,
       insights (set_insights [PyStr "Revenue grew"; PyInt 7]
                   (initial_state (PyStr "show revenue") None)) !! i = Some v
       /\ (forall text, v <> PyStr text)
       /\ _formulate_recommendations (svc := normal)
            (set_insights [PyStr "Revenue grew"; PyInt 7]
               (initial_state (PyStr "show revenue") None))
            (Demo.env0 (svc := normal) tt)
          = (Ok (set_error
                   ("Recommendation generation failed: "
                    +:+ "sequence item " +:+ str_nat i +:+ ": expected str instance, "
                    +:+ type_name v +:+ " found")
                   (set_insights [PyStr "Revenue grew"; PyInt 7]
                      (initial_state (PyStr "show revenue") None))),
             Demo.env0 (svc := normal) tt).
Proof.
  assert (H : Exists (fun v => forall text, v <> PyStr text)
                (insights (set_insights [PyStr "Revenue grew"; PyInt 7]
                             (initial_state (PyStr "show revenue") None)))).
  { apply Exists_cons_tl, Exists_cons_hd. discriminate. }
  split; [exact H|].
  exact (formulate_recommendations_needs_text (svc := normal) _ _ H).
Defined.

Lemma year_order_asym (a b : nat) : Nat.ltb a b = true -> Nat.ltb b a = false.
Proof. intros H. apply Nat.ltb_lt in H. apply Nat.ltb_ge. lia. Qed.

Lemma year_order_trans (a b c : nat) :
  Nat.ltb b a = false -> Nat.ltb c b = false -> Nat.ltb c a = false.
Proof. intros H1 H2. apply Nat.ltb_ge in H1, H2. apply Nat.ltb_ge. lia. Qed.

Lemma extract_time_series_sorted_witness :
  AnalyticsService._extract_time_series (svc := Sample.yearly) Sample.two_years
  = Ok (Some [ (2021%nat, Sample.record "2021" "100");
               (2021%nat, Sample.record "2021" "100");
               (2022%nat, Sample.record "2022" "120");
               (2022%nat, Sample.record "2022" "120") ])
  /\ StronglySorted (Series.not_after (svc := Sample.yearly))
       [ (2021%nat, Sample.record "2021" "100");
         (2021%nat, Sample.record "2021" "100");
         (2022%nat, Sample.record "2022" "120");
         (2022%nat, Sample.record "2022" "120") ].
Proof.
  assert (H : AnalyticsService._extract_time_series (svc := Sample.yearly) Sample.two_years
              = Ok (Some [ (2021%nat, Sample.record "2021" "100");
                           (2021%nat, Sample.record "2021" "100");
                           (2022%nat, Sample.record "2022" "120");
                           (2022%nat, Sample.record "2022" "120") ]))
    by (vm_compute; reflexivity).
  split; [exact H|].
  exact (proj1 (proj2 (extract_time_series_sorted (svc := Sample.yearly)
                         year_order_asym year_order_trans _ _ H))).
Defined.

Lemma time_series_repeats_records_witness :
  Sample.two_years <> []
  /\ Forall (Series.dated_under (svc := Sample.yearly) "year") Sample.two_years
  /\ exists time_series,
       AnalyticsService._extract_time_series (svc := Sample.yearly) Sample.two_years
       = Ok (Some time_series)
       /\ length time_series = 4%nat.
Proof.
  assert (H1 : Sample.two_years <> []) by discriminate.
  assert (H2 : Forall (Series.dated_under (svc := Sample.yearly) "year") Sample.two_years).
  { repeat constructor; eexists _, _;
      (split; [reflexivity|]; split; [reflexivity|]; split; [reflexivity|]);
      eexists; vm_compute; reflexivity. }
  split; [exact H1|]. split; [exact H2|].
  destruct (time_series_repeats_records (svc := Sample.yearly) "year" Sample.two_years H1 H2)
    as (time_series & E & _ & Hl).
  exists time_series. split; [exact E | exact Hl].
Defined.

Lemma process_query_search_failure_witness :
  search_multimodal (Services := offline_index) (PyStr "list the tables")
    (RagRun.requested "list the tables") 5 tt
  = (Raise "index offline", tt)
  /\ exists result env',
       MultimodalRAGGraph.process_query (svc := offline_index) (lib := Sample.library)
         (PyStr "list the tables") (Demo.env0 (svc := offline_index) tt)
       = (Ok result, env')
       /\ MultimodalRAGGraph.result_sources result = []
       /\ MultimodalRAGGraph.result_chart_data result = PyDict [].
Proof.
  assert (H : search_multimodal (Services := offline_index) (PyStr "list the tables")
                (RagRun.requested "list the tables") 5
                (world (Demo.env0 (svc := offline_index) tt))
              = (Raise "index offline", tt)) by reflexivity.
  split; [exact H|].
  destruct (process_query_search_failure (svc := offline_index) (lib := Sample.library)
              "list the tables" (Demo.env0 (svc := offline_index) tt) _ _ H)
    as (result & env' & E & _ & Hs & Hc & _).
  exists result, env'. auto.
Defined.

Lemma chart_needs_table_keyword_witness :
  RagSpec.requires_charts (lower "Draw a graph of revenue") = true
  /\ any_in ["table"; "data"; "statistics"; "numbers"; "trend"; "chart"]
       (lower "Draw a graph of revenue") = false
  /\ exists result env',
       MultimodalRAGGraph.process_query
         (svc := VectorStore.indexed (svc := normal) "chroma" Sample.nothing_stored)
         (lib := Sample.library)
         (PyStr "Draw a graph of revenue")
         (Demo.env0 (svc := VectorStore.indexed (svc := normal) "chroma" Sample.nothing_stored)
            tt)
       = (Ok result, env')
       /\ MultimodalRAGGraph.result_metadata result !! "requires_charts" = Some (PyBool true)
       /\ MultimodalRAGGraph.result_chart_data result = PyDict [].
Proof.
  assert (H1 : RagSpec.requires_charts (lower "Draw a graph of revenue") = true)
    by (vm_compute; reflexivity).
  assert (H2 : any_in ["table"; "data"; "statistics"; "numbers"; "trend"; "chart"]
                 (lower "Draw a graph of revenue") = false) by (vm_compute; reflexivity).
  split; [exact H1|]. split; [exact H2|].
  destruct (chart_needs_table_keyword (svc := normal) (lib := Sample.library)
              "chroma" Sample.nothing_stored "Draw a graph of revenue"
              (Demo.env0
                 (svc := VectorStore.indexed (svc := normal) "chroma" Sample.nothing_stored)
                 tt) H1 H2)
    as (result & env' & context & E & Hm & Hc & _).
  exists result, env'. auto.
Defined.

Lemma indexed_tables_come_back_witness :
  exists documents,
    VectorStore._process_tables_for_vectorization (svc := normal) [Sample.quarters]
    = Ok documents
    /\ length documents = 1%nat
    /\ AnalyticsService.extract_table_data (svc := normal) documents
       = [ PyDict [("quarter", PyStr "Q1"); ("revenue", PyStr "100")];
           PyDict [("quarter", PyStr "Q2"); ("revenue", PyStr "120")] ].
Proof.
  destruct (indexed_tables_come_back (svc := normal) [Sample.quarters]
              [[ [("quarter", PyStr "Q1"); ("revenue", PyStr "100")];
                 [("quarter", PyStr "Q2"); ("revenue", PyStr "120")] ]])
    as (documents & E & Hl & Hd).
  { constructor; [|constructor].
    split; [reflexivity|]. split; [eexists; reflexivity|]. split; [eexists; reflexivity|].
    split; [eexists; reflexivity|].
    repeat constructor. }
  exists documents. split; [exact E|]. split; [exact Hl|]. exact Hd.
Defined.

Lemma one_column_table_is_lost_witness :
  Forall (fun row => exists cell, row = [cell] /\ TableText.plain_cell cell = true)
    [ [("quarter", PyStr "Q1")]; [("quarter", PyStr "Q2")] ]
  /\ exists text,
       VectorStore._table_to_text (svc := normal)
         (PyList (map PyDict [ [("quarter", PyStr "Q1")]; [("quarter", PyStr "Q2")] ]))
       = Ok text
       /\ str_in "|" text = false
       /\ AnalyticsService._parse_table_content (svc := normal) text = [].
Proof.
  assert (H : Forall (fun row => exists cell, row = [cell] /\ TableText.plain_cell cell = true)
                [ [("quarter", PyStr "Q1")]; [("quarter", PyStr "Q2")] ]).
  { repeat constructor; eexists; (split; [reflexivity | vm_compute; reflexivity]). }
  split; [exact H|].
  exact (one_column_table_is_lost (svc := normal) _ H).
Defined.

Lemma chart_type_line_witness :
  ChartGenerator._analyze_query_for_chart_type (svc := normal) (lib := Sample.library)
    (PyStr "Revenue growth by quarter") [Demo.row 1; Demo.row 2]
  = Ok [ ("chart_type", PyStr "bar");
         ("x_axis", PyStr "quarter");
         ("y_axis", PyStr "revenue");
         ("title", PyStr "Bar Chart: Revenue growth quarter");
         ("description", PyStr "Chart showing Revenue growth by quarter") ]
  /\ AnalyticsService.classify_query_type (PyStr "Revenue growth by quarter")
     = Ok "trend_analysis".
Proof.
  assert (H : ChartGenerator._analyze_query_for_chart_type (svc := normal)
                (lib := Sample.library)
                (PyStr "Revenue growth by quarter") [Demo.row 1; Demo.row 2]
              = Ok [ ("chart_type", PyStr "bar");
                     ("x_axis", PyStr "quarter");
                     ("y_axis", PyStr "revenue");
                     ("title", PyStr "Bar Chart: Revenue growth quarter");
                     ("description", PyStr "Chart showing Revenue growth by quarter") ])
    by (vm_compute; reflexivity).
  split; [exact H|].
  destruct (chart_type_line (svc := normal) (lib := Sample.library) _ _ _ H) as [_ Hc].
  apply Hc; vm_compute; reflexivity.
Defined.

Lemma remove_dups_lists_a_set : RagRun.lists_a_set (remove_dups (A := string)).
Proof.
  intros l. split; [apply NoDup_remove_dups | intros x; apply elem_of_remove_dups].
Qed.

Lemma finalize_response_sources_witness :
  RagRun.lists_a_set (set_to_list (Services := normal))
  /\ exists state' sources shown,
       MultimodalRAGGraph._finalize_response (svc := normal) (lib := Sample.library)
         Sample.answered_twice (Demo.env0 (svc := normal) tt)
       = (Ok state', Demo.env0 (svc := normal) tt)
       /\ sources
          ≡ₚ RagRun.source_per_document (svc := normal)
               (RagGraph.retrieved_docs Sample.answered_twice)
       /\ length sources = 2%nat
       /\ NoDup shown
       /\ (forall source, source ∈ shown <-> source ∈ sources)
       /\ RagGraph.response state'
          = "Two tables." +:+ nl +:+ nl +:+ "**Sources:** Page Unknown (table)".
Proof.
  split; [exact remove_dups_lists_a_set|].
  destruct (finalize_response_sources (svc := normal) (lib := Sample.library)
              Sample.answered_twice (Demo.env0 (svc := normal) tt)
              remove_dups_lists_a_set)
    as (state' & sources & shown & E & Hp & _ & _ & Hn & Hs & _).
  exists state', sources, shown. split; [exact E|]. split; [exact Hp|].
  split; [rewrite Hp; vm_compute; reflexivity|].
  split; [exact Hn|]. split; [exact Hs|].
  assert (Hrun : match
                    (MultimodalRAGGraph._finalize_response (svc := normal)
                       (lib := Sample.library) Sample.answered_twice
                       (Demo.env0 (svc := normal) tt)).1
                  with
                  | Ok final => RagGraph.response final
                  | Raise _ => ""
                  end
                  = "Two tables." +:+ nl +:+ nl +:+ "**Sources:** Page Unknown (table)")
    by (vm_compute; reflexivity).
  rewrite E in Hrun. exact Hrun.
Defined.
